(** * The multi-provider text-generation utility of the SRK MCP server

    A shallow embedding of class [LLMUtility] and of the properties its
    specification states.  The repository carries the class in several
    editions:

    - [RouteJs]  : the JS edition of src/app/api/mcp/route.ts
                   (methods [generateText], [call], [makePayload],
                   [extract], [fallback]);
    - [RouteTs]  : the TS edition that follows it in the same file (only
                   the branches of [extract] that are expressions of the
                   language are embedded);
    - [Part000]  : the edition with the template-based local fallback
                   (methods [generateText], [callProvider],
                   [formatPayload], [extractResponse],
                   [getFallbackResponse], [pickRandom]).

    Conventions.  JavaScript values are the inductive [JS.Value]; strings
    are Rocq strings holding the UTF-8 bytes of the text; numbers are
    rationals, of which only "is zero" and identity are ever observed.
    An [async] method is a function from the run's state (number of HTTP
    calls issued so far, and the chronological log of observable events)
    to a completion -- normal or thrown -- and the next state.  The n-th
    HTTP call of a run is answered by the world's [respond n]. *)

From Stdlib Require Import String Ascii List ZArith QArith Qround Lia Bool
  DecimalString.
From Stdlib Require Import Sorted.
Import ListNotations.
Close Scope Q_scope.
Open Scope string_scope.
Open Scope bool_scope.
Set Warnings "-register-all".

(* ================================================================== *)
(** ** JavaScript values and the operations the class uses on them     *)
(* ================================================================== *)

Module JS.

Inductive Value : Type :=
| JUndefined
| JNull
| JBool (b : bool)
| JNumber (q : Q)
| JString (s : string)
| JArray (items : list Value)
| JObject (fields : list (string * Value)).

(** What a [throw] carries.  [TypeError] and [SyntaxError] are raised by
    the engine (their argument names the failed operation; the message
    text is the engine's own); [Error msg] is [new Error(msg)];
    [Rejection] is what a rejected [fetch] carries (network failure,
    [AbortSignal.timeout]). *)
Inductive Exn : Type :=
| TypeError (what : string)
| SyntaxError (what : string)
| Error (message : string)
| Rejection (name message : string).

(** Completion of a synchronous computation. *)
Inductive Completion (A : Type) : Type :=
| Normal (a : A)
| Thrown (e : Exn).
Arguments Normal {A} a.
Arguments Thrown {A} e.

Definition cbind {A B} (c : Completion A) (k : A -> Completion B)
  : Completion B :=
  match c with
  | Normal a => k a
  | Thrown e => Thrown e
  end.

(** The host operations that are not pinned down here: Unicode-aware
    [String.prototype.toLowerCase], and the [ToString] conversion of a
    value that is not a string. *)
Class Host : Type := {
  toLowerCase : string -> string;
  toString : Value -> string
}.

(** [ToBoolean]. *)
Definition truthy (v : Value) : bool :=
  match v with
  | JUndefined | JNull => false
  | JBool b => b
  | JNumber q => negb (Qeq_bool q 0%Q)
  | JString s => negb (s =? "")
  | JArray _ | JObject _ => true
  end.

(** [a || b] *)
Definition or_else (a b : Value) : Value := if truthy a then a else b.

Fixpoint lookup (k : string) (fields : list (string * Value)) : Value :=
  match fields with
  | [] => JUndefined
  | (k', v) :: rest => if k' =? k then v else lookup k rest
  end.

(** [v.k] for a key [k] that no built-in prototype defines (the class
    reads only [choices], [message], [content], [text],
    [generated_text], [inputs]): own property of an object, [undefined]
    on primitives and arrays, and a [TypeError] on [null] and
    [undefined]. *)
Definition get (v : Value) (k : string) : Completion Value :=
  match v with
  | JUndefined | JNull => Thrown (TypeError k)
  | JObject fields => Normal (lookup k fields)
  | _ => Normal JUndefined
  end.

(** [v?.k] *)
Definition opt_get (v : Value) (k : string) : Value :=
  match v with
  | JObject fields => lookup k fields
  | _ => JUndefined
  end.

(** [v[0]] on a value that is neither [null] nor [undefined].  On a
    string it is the first code unit as a string; here its first byte
    stands for it, and every use reads a property off it at once. *)
Definition index0 (v : Value) : Value :=
  match v with
  | JArray (x :: _) => x
  | JString (String c _) => JString (String c "")
  | JObject fields => lookup "0" fields
  | _ => JUndefined
  end.

(** [v?.[0]] *)
Definition opt_index0 (v : Value) : Value :=
  match v with
  | JUndefined | JNull => JUndefined
  | _ => index0 v
  end.

(** [Array.isArray(v)] *)
Definition isArray (v : Value) : bool :=
  match v with
  | JArray _ => true
  | _ => false
  end.

(** *** Strings *)

Fixpoint drop (n : nat) (s : string) : string :=
  match n, s with
  | O, _ => s
  | S n', String _ s' => drop n' s'
  | S _, EmptyString => EmptyString
  end.

(** [s.includes(pat)] *)
Fixpoint includes (s pat : string) : bool :=
  if prefix pat s then true
  else match s with
       | EmptyString => false
       | String _ s' => includes s' pat
       end.

(** [s.replace(pat, "")] for a string pattern: the first occurrence of
    [pat] is removed. *)
Fixpoint remove_first (s pat : string) : string :=
  if prefix pat s then drop (String.length pat) s
  else match s with
       | EmptyString => EmptyString
       | String c s' => String c (remove_first s' pat)
       end.

Fixpoint rev_string (acc s : string) : string :=
  match s with
  | EmptyString => acc
  | String c s' => rev_string (String c acc) s'
  end.

Definition bytes (l : list nat) : string :=
  fold_right (fun n s => String (ascii_of_nat n) s) EmptyString l.

(** The UTF-8 encodings of ECMAScript's WhiteSpace and LineTerminator
    code points: U+0009..U+000D, U+0020, U+00A0, U+1680,
    U+2000..U+200A, U+2028, U+2029, U+202F, U+205F, U+3000, U+FEFF. *)
Definition white_space : list (list nat) :=
  [ [9]; [10]; [11]; [12]; [13]; [32]; [194; 160]; [225; 154; 128];
    [226; 128; 128]; [226; 128; 129]; [226; 128; 130]; [226; 128; 131];
    [226; 128; 132]; [226; 128; 133]; [226; 128; 134]; [226; 128; 135];
    [226; 128; 136]; [226; 128; 137]; [226; 128; 138]; [226; 128; 168];
    [226; 128; 169]; [226; 128; 175]; [226; 129; 159]; [227; 128; 128];
    [239; 187; 191] ].

Fixpoint strip_one (tokens : list string) (s : string) : option string :=
  match tokens with
  | [] => None
  | t :: rest =>
      if prefix t s then Some (drop (String.length t) s) else strip_one rest s
  end.

Fixpoint strip_leading (tokens : list string) (fuel : nat) (s : string)
  : string :=
  match fuel with
  | O => s
  | S fuel' =>
      match strip_one tokens s with
      | Some s' => strip_leading tokens fuel' s'
      | None => s
      end
  end.

Definition trimStart (s : string) : string :=
  strip_leading (map bytes white_space) (String.length s) s.

Definition trimEnd (s : string) : string :=
  let r := rev_string "" s in
  rev_string ""
    (strip_leading (map (fun t => bytes (rev t)) white_space) 
       (String.length r) r).

(** [s.trim()] *)
Definition trim (s : string) : string := trimEnd (trimStart s).

(** [v.trim()]: only strings have the method. *)
Definition call_trim (v : Value) : Completion string :=
  match v with
  | JString s => Normal (trim s)
  | _ => Thrown (TypeError "trim")
  end.

(** [v.replace(pat, "")]: only strings have the method; a pattern that
    is not a string is converted by [ToString]. *)
Definition call_replace `{Host} (v pat : Value) : Completion string :=
  match v with
  | JString s =>
      Normal (remove_first s
                (match pat with JString p => p | _ => toString pat end))
  | _ => Thrown (TypeError "replace")
  end.

(** Decimal rendering of an integer inside a template literal. *)
Definition show_int (z : Z) : string :=
  NilZero.string_of_int (Z.to_int z).

(** A host that lower-cases the ASCII letters only. *)
Definition ascii_lower (c : ascii) : ascii :=
  let n := nat_of_ascii c in
  if (65 <=? n)%nat && (n <=? 90)%nat then ascii_of_nat (n + 32) else c.

Fixpoint map_string (f : ascii -> ascii) (s : string) : string :=
  match s with
  | EmptyString => EmptyString
  | String c s' => String (f c) (map_string f s')
  end.

Definition ascii_host : Host :=
  {| toLowerCase := map_string ascii_lower;
     toString := fun _ => "[object Object]" |}.

End JS.
Import JS.


(* ================================================================== *)
(** ** Data model                                                      *)
(* ================================================================== *)

(** [ProviderDescriptor]: one configured remote backend. *)
Module Provider.
Record t : Type := {
  name : string;
  endpoint : string;
  headers : list (string * string);
  model : string;
  priority : Z
}.
End Provider.

(** [GenerationContext]: the per-call options object.  An absent field
    is [None]. *)
Module Context.
Record t : Type := {
  systemPrompt : option string;
  maxTokens : option Z;
  temperature : option Q;
  type : option string;
  userInfo : option string;
  name : option string
}.

(** The default argument [context = {}]. *)
Definition empty : t :=
  {| systemPrompt := None; maxTokens := None; temperature := None;
     type := None; userInfo := None; name := None |}.
End Context.

(** [context.type === tag] *)
Definition type_is (context : Context.t) (tag : string) : bool :=
  match Context.type context with
  | Some t => t =? tag
  | None => false
  end.

(** The credentials read from the environment when the module loads. *)
Record Env : Type := {
  OPENAI_API_KEY : option string;
  ANTHROPIC_API_KEY : option string;
  HF_TOKEN : option string
}.

(** [if (KEY)]: a variable that is unset or empty is falsy. *)
Definition present (key : option string) : bool :=
  match key with
  | Some k => negb (k =? "")
  | None => false
  end.

(** [field || dflt] on an optional string field. *)
Definition str_or (field : option string) (dflt : string) : string :=
  match field with
  | Some s => if s =? "" then dflt else s
  | None => dflt
  end.

(** [field || dflt] on an optional integer field. *)
Definition int_or (field : option Z) (dflt : Z) : Z :=
  match field with
  | Some n => if (n =? 0)%Z then dflt else n
  | None => dflt
  end.

(** [field || dflt] on an optional number field. *)
Definition num_or (field : option Q) (dflt : Q) : Q :=
  match field with
  | Some q => if Qeq_bool q 0%Q then dflt else q
  | None => dflt
  end.

(** The request bodies, one shape per backend. *)
Record Message : Type := { role : string; content : string }.

Inductive Payload : Type :=
| OpenAIPayload (model : string) (messages : list Message)
    (max_tokens : Z) (temperature : Q) (top_p : Q)
| AnthropicPayload (model : string) (max_tokens : Z) (system : string)
    (messages : list Message) (temperature : Q)
| HuggingFacePayload (inputs : string) (max_new_tokens : Z)
    (temperature : Q) (top_p : Q) (do_sample : bool).

(** The max-token field of a payload, whatever its name in the shape. *)
Definition payload_max_tokens (p : Payload) : Z :=
  match p with
  | OpenAIPayload _ _ n _ _ => n
  | AnthropicPayload _ n _ _ _ => n
  | HuggingFacePayload _ n _ _ _ => n
  end.

Definition payload_temperature (p : Payload) : Q :=
  match p with
  | OpenAIPayload _ _ _ t _ => t
  | AnthropicPayload _ _ _ _ t => t
  | HuggingFacePayload _ _ t _ _ => t
  end.

(** The three descriptors of the registry. *)
Definition openai_provider (key : string) : Provider.t :=
  {| Provider.name := "openai";
     Provider.endpoint := "https://api.openai.com/v1/chat/completions";
     Provider.headers := [("Authorization", "Bearer " ++ key);
                          ("Content-Type", "application/json")];
     Provider.model := "gpt-3.5-turbo";
     Provider.priority := 1 |}.

Definition anthropic_provider (key : string) : Provider.t :=
  {| Provider.name := "anthropic";
     Provider.endpoint := "https://api.anthropic.com/v1/messages";
     Provider.headers := [("x-api-key", key);
                          ("Content-Type", "application/json");
                          ("anthropic-version", "2023-06-01")];
     Provider.model := "claude-3-haiku-20240307";
     Provider.priority := 2 |}.

Definition huggingface_provider (key : string) : Provider.t :=
  {| Provider.name := "huggingface";
     Provider.endpoint :=
       "https://api-inference.huggingface.co/models/microsoft/DialoGPT-small";
     Provider.headers := [("Authorization", "Bearer " ++ key);
                          ("Content-Type", "application/json")];
     Provider.model := "microsoft/DialoGPT-small";
     Provider.priority := 3 |}.

(** [list.sort((a, b) => a.priority - b.priority)]: a stable sort by
    ascending priority. *)
Fixpoint insert_by_priority (p : Provider.t) (l : list Provider.t)
  : list Provider.t :=
  match l with
  | [] => [p]
  | q :: rest =>
      if (Provider.priority p <=? Provider.priority q)%Z
      then p :: q :: rest
      else q :: insert_by_priority p rest
  end.

Definition sort_by_priority (l : list Provider.t) : list Provider.t :=
  fold_right insert_by_priority [] l.

(** The body shared by [initProviders] and [initializeProviders]. *)
Definition push_if (key : option string) (mk : string -> Provider.t)
  (l : list Provider.t) : list Provider.t :=
  match key with
  | Some k => if present key then l ++ [mk k] else l
  | None => l
  end.

Definition build_registry (env : Env) : list Provider.t :=
  sort_by_priority
    (push_if (HF_TOKEN env) huggingface_provider
       (push_if (ANTHROPIC_API_KEY env) anthropic_provider
          (push_if (OPENAI_API_KEY env) openai_provider []))).

(** The object [{ text, provider, model }] that [generateText] returns. *)
Definition GenerationResult (text : Value) (provider model : string)
  : Value :=
  JObject [("text", text); ("provider", JString provider);
           ("model", JString model)].

(* ================================================================== *)
(** ** The world, the run state and the [async] monad                  *)
(* ================================================================== *)

Inductive Body : Type :=
| Unparseable                 (** [resp.json()] rejects *)
| Parsed (data : Value).      (** [resp.json()] resolves to [data] *)

Record Response : Type := {
  status : Z;
  statusText : string;
  body : Body
}.

(** [resp.ok] *)
Definition ok (r : Response) : bool :=
  (200 <=? status r)%Z && (status r <=? 299)%Z.

Inductive FetchOutcome : Type :=
| Rejected (e : Exn)          (** transport failure or timeout *)
| Resolved (r : Response).

(** [respond n] answers the n-th HTTP call of the run (counted from 0);
    [random] is what [Math.random()] returns. *)
Record World : Type := {
  respond : nat -> FetchOutcome;
  random : Q
}.

Inductive Event : Type :=
| Fetch (p : Provider.t) (body : option Payload)
| Sleep (ms : Z)
| Warn (label : string) (e : Exn).

Record State : Type := {
  calls : nat;
  log : list Event
}.

Definition initial : State := {| calls := 0; log := [] |}.

(** The state once [e] has happened: the event is appended to the log,
    and an HTTP call is counted. *)
Definition observe (s : State) (e : Event) : State :=
  {| calls := match e with
              | Fetch _ _ => S (calls s)
              | _ => calls s
              end;
     log := log s ++ [e] |}.

Definition record (s : State) (events : list Event) : State :=
  fold_left observe events s.

Definition Async (A : Type) : Type := State -> Completion A * State.

Definition ret {A} (a : A) : Async A := fun s => (Normal a, s).

Definition throw {A} (e : Exn) : Async A := fun s => (Thrown e, s).

Definition bind {A B} (m : Async A) (k : A -> Async B) : Async B :=
  fun s =>
    match m s with
    | (Normal a, s') => k a s'
    | (Thrown e, s') => (Thrown e, s')
    end.

(** [try { m } catch (e) { handler e }] *)
Definition try_catch {A} (m : Async A) (handler : Exn -> Async A)
  : Async A :=
  fun s =>
    match m s with
    | (Normal a, s') => (Normal a, s')
    | (Thrown e, s') => handler e s'
    end.

(** A synchronous computation inside an [async] method. *)
Definition lift {A} (c : Completion A) : Async A := fun s => (c, s).

Definition emit (e : Event) : Async unit :=
  fun s => (Normal tt, observe s e).

Module AsyncNotations.
Notation "x <- m ;; k" := (bind m (fun x => k))
  (at level 61, m at next level, right associativity).
Notation "m ;; k" := (bind m (fun _ => k))
  (at level 61, right associativity).
End AsyncNotations.
Import AsyncNotations.

(** [await fetch(p.endpoint, { method: "POST", headers: p.headers,
    body: JSON.stringify(payload), signal: AbortSignal.timeout(30000) })] *)
Definition fetch (w : World) (p : Provider.t) (payload : option Payload)
  : Async Response :=
  fun s =>
    match respond w (calls s) with
    | Rejected e => (Thrown e, observe s (Fetch p payload))
    | Resolved r => (Normal r, observe s (Fetch p payload))
    end.

(** [await resp.json()] *)
Definition json (r : Response) : Async Value :=
  match body r with
  | Unparseable => throw (SyntaxError "JSON.parse")
  | Parsed data => ret data
  end.

(** [await new Promise((r) => setTimeout(r, ms))] *)
Definition sleep (ms : Z) : Async unit := emit (Sleep ms).

(** [console.warn(label, e.message)] *)
Definition warn (label : string) (e : Exn) : Async unit :=
  emit (Warn label e).

(** The HTTP calls of a log, in order. *)
Fixpoint fetches (l : list Event) : list Provider.t :=
  match l with
  | [] => []
  | Fetch p _ :: rest => p :: fetches rest
  | _ :: rest => fetches rest
  end.

(** The waits of a log, in order. *)
Fixpoint sleeps (l : list Event) : list Z :=
  match l with
  | [] => []
  | Sleep ms :: rest => ms :: sleeps rest
  | _ :: rest => sleeps rest
  end.

(* ================================================================== *)
(** ** route.ts, JS edition                                            *)
(* ================================================================== *)

Module RouteJs.

(** The constructor sets these once; nothing assigns them again. *)
Definition fallbackEnabled : bool := true.
Definition maxRetries : nat := 3.
Definition retryDelay : Z := 1000.

Definition initProviders (env : Env) : list Provider.t := build_registry env.

(** [makePayload(provider, prompt, context)]: the [switch] has no
    default, so an unknown name gives [undefined] ([None]). *)
Definition makePayload (provider : Provider.t) (prompt : string)
  (context : Context.t) : option Payload :=
  if Provider.name provider =? "openai" then
    Some (OpenAIPayload (Provider.model provider)
            [ {| role := "system";
                 content := str_or (Context.systemPrompt context)
                              "You are a helpful assistant." |};
              {| role := "user"; content := prompt |} ]
            (int_or (Context.maxTokens context) 150)
            (num_or (Context.temperature context) (8 # 10))
            (9 # 10))
  else if Provider.name provider =? "anthropic" then
    Some (AnthropicPayload (Provider.model provider)
            (int_or (Context.maxTokens context) 150)
            (str_or (Context.systemPrompt context)
               "You are a helpful assistant.")
            [ {| role := "user"; content := prompt |} ]
            (num_or (Context.temperature context) (8 # 10)))
  else if Provider.name provider =? "huggingface" then
    Some (HuggingFacePayload prompt
            (int_or (Context.maxTokens context) 150)
            (num_or (Context.temperature context) (8 # 10))
            (9 # 10) true)
  else None.

(** [extract(provider, data)] *)
Definition extract `{Host} (provider : Provider.t) (data : Value)
  : Completion Value :=
  if Provider.name provider =? "openai" then
    (* data.choices?.[0]?.message?.content || "" *)
    cbind (get data "choices") (fun choices =>
    Normal (or_else
              (opt_get (opt_get (opt_index0 choices) "message") "content")
              (JString "")))
  else if Provider.name provider =? "anthropic" then
    (* data?.content?.[0]?.text || "" *)
    Normal (or_else (opt_get (opt_index0 (opt_get data "content")) "text")
              (JString ""))
  else if (Provider.name provider =? "huggingface")
          && isArray data
          && truthy (opt_get (index0 data) "generated_text") then
    (* data[0].generated_text.replace(data[0].inputs || "", "").trim() *)
    cbind (get (index0 data) "generated_text") (fun generated_text =>
    cbind (get (index0 data) "inputs") (fun inputs =>
    cbind (call_replace generated_text (or_else inputs (JString "")))
      (fun replaced =>
    cbind (call_trim (JString replaced)) (fun trimmed =>
    Normal (JString trimmed)))))
  else Normal (JString "").

(** [fallback(prompt, context)] *)
Definition fallback (prompt : string) (context : Context.t) : string :=
  "🤖 (fallback response)".

Definition delay (ms : Z) : Async unit := sleep ms.

(** The loop [for (let i = 1; i <= this.maxRetries; i++)] of [call],
    entered at attempt [i] with [remaining] iterations left; falling
    off the loop returns [undefined]. *)
Fixpoint call_loop `{Host} (w : World) (provider : Provider.t)
  (payload : option Payload) (remaining i : nat) : Async Value :=
  match remaining with
  | O => ret JUndefined
  | S remaining' =>
      resp <- fetch w provider payload ;;
      if ok resp then
        data <- json resp ;;
        lift (extract provider data)
      else if (status resp =? 429)%Z then
        delay (retryDelay * Z.of_nat i) ;;
        call_loop w provider payload remaining' (S i)
      else
        throw (Error (Provider.name provider ++ " HTTP "
                      ++ show_int (status resp)))
  end.

(** [call(provider, prompt, context)] *)
Definition call `{Host} (w : World) (provider : Provider.t)
  (prompt : string) (context : Context.t) : Async Value :=
  let payload := makePayload provider prompt context in
  call_loop w provider payload maxRetries 1.

(** The loop [for (const p of this.providers)] of [generateText];
    [Some r] is [return r] from inside the loop, [None] is falling off
    its end. *)
Fixpoint each_provider `{Host} (w : World) (providers : list Provider.t)
  (prompt : string) (context : Context.t) : Async (option Value) :=
  match providers with
  | [] => ret None
  | p :: rest =>
      r <- try_catch
             (out <- call w p prompt context ;;
              if truthy out
              then ret (Some (GenerationResult out (Provider.name p)
                                (Provider.model p)))
              else ret None)
             (fun err =>
                warn ("LLM " ++ Provider.name p ++ " failed:") err ;;
                ret None) ;;
      match r with
      | Some result => ret (Some result)
      | None => each_provider w rest prompt context
      end
  end.

(** [generateText(prompt, context = {})] on an instance whose
    [this.providers] is [providers]. *)
Definition generateText `{Host} (w : World) (providers : list Provider.t)
  (prompt : string) (context : Context.t) : Async Value :=
  match providers with
  | [] =>
      ret (GenerationResult (JString (fallback prompt context))
             "fallback" "local")
  | _ :: _ =>
      r <- each_provider w providers prompt context ;;
      match r with
      | Some result => ret result
      | None =>
          ret (GenerationResult (JString (fallback prompt context))
                 "fallback" "local")
      end
  end.

End RouteJs.

(* ================================================================== *)
(** ** route.ts, TS edition                                            *)
(* ================================================================== *)

(** Of [extract(p, data)] in this edition the line for ["anthropic"]
    reads [data?.content?.?.text || ""], which is not an expression of
    the language; the two other branches are embedded on their own. *)
Module RouteTs.

(** [data.choices?.[0]?.message?.content || ""] *)
Definition extract_openai (data : Value) : Completion Value :=
  cbind (get data "choices") (fun choices =>
  Normal (or_else
            (opt_get (opt_get (opt_index0 choices) "message") "content")
            (JString ""))).

(** [if (Array.isArray(data) && data?.generated_text)
       return data.generated_text.replace(data.inputs || "", "").trim();
     return ""] *)
Definition extract_huggingface `{Host} (data : Value) : Completion Value :=
  if isArray data && truthy (opt_get data "generated_text") then
    cbind (get data "generated_text") (fun generated_text =>
    cbind (get data "inputs") (fun inputs =>
    cbind (call_replace generated_text (or_else inputs (JString "")))
      (fun replaced =>
    cbind (call_trim (JString replaced)) (fun trimmed =>
    Normal (JString trimmed)))))
  else Normal (JString "").

End RouteTs.

(* ================================================================== *)
(** ** The edition with the template-based local fallback              *)
(* ================================================================== *)

Module Part000.

(** The constructor sets these once; nothing assigns them again. *)
Definition fallbackEnabled : bool := true.
Definition maxRetries : nat := 3.
Definition retryDelay : Z := 1000.

Definition initializeProviders (env : Env) : list Provider.t :=
  build_registry env.

(** [formatPayload(provider, prompt, context)]: the [default] case of
    the [switch] throws. *)
Definition formatPayload (provider : Provider.t) (prompt : string)
  (context : Context.t) : Completion Payload :=
  if Provider.name provider =? "openai" then
    Normal (OpenAIPayload (Provider.model provider)
              [ {| role := "system";
                   content := str_or (Context.systemPrompt context)
                                "You are a helpful assistant." |};
                {| role := "user"; content := prompt |} ]
              (int_or (Context.maxTokens context) 150)
              (num_or (Context.temperature context) (8 # 10))
              (9 # 10))
  else if Provider.name provider =? "anthropic" then
    Normal (AnthropicPayload (Provider.model provider)
              (int_or (Context.maxTokens context) 150)
              (str_or (Context.systemPrompt context)
                 "You are a helpful assistant.")
              [ {| role := "user"; content := prompt |} ]
              (num_or (Context.temperature context) (8 # 10)))
  else if Provider.name provider =? "huggingface" then
    Normal (HuggingFacePayload prompt
              (int_or (Context.maxTokens context) 150)
              (num_or (Context.temperature context) (8 # 10))
              (9 # 10) true)
  else Thrown (Error ("Unknown provider: " ++ Provider.name provider)).

(** [extractResponse(provider, data)]: the ["anthropic"] case is
    commented out in the source and so falls to [default]. *)
Definition extractResponse `{Host} (provider : Provider.t) (data : Value)
  : Completion Value :=
  if Provider.name provider =? "openai" then
    (* data.choices?.[0]?.message?.content || "" *)
    cbind (get data "choices") (fun choices =>
    Normal (or_else
              (opt_get (opt_get (opt_index0 choices) "message") "content")
              (JString "")))
  else if Provider.name provider =? "huggingface" then
    if isArray data && truthy (opt_get data "generated_text") then
      (* data.generated_text.replace(data.inputs || "", "").trim() *)
      cbind (get data "generated_text") (fun generated_text =>
      cbind (get data "inputs") (fun inputs =>
      cbind (call_replace generated_text (or_else inputs (JString "")))
        (fun replaced =>
      cbind (call_trim (JString replaced)) (fun trimmed =>
      Normal (JString trimmed)))))
    else Normal (JString "")
  else Normal (JString "").

(** [pickRandom(array)], with [r] the value of [Math.random()]:
    [array[Math.floor(r * array.length)]]. *)
Definition pickRandom (r : Q) (array : list string) : Value :=
  let i := Qfloor (r * inject_Z (Z.of_nat (List.length array))) in
  if (i <? 0)%Z then JUndefined
  else match nth_error array (Z.to_nat i) with
       | Some s => JString s
       | None => JUndefined
       end.

(** The three templates of the ["pickup_line"] family. *)
Definition pickup_templates (context : Context.t) : list string :=
  [ "Just like Shah Rukh Khan in his movies, "
      ++ str_or (Context.userInfo context) "you"
      ++ " have made my heart skip a beat!";
    "If I were to write a love story, "
      ++ str_or (Context.userInfo context) "beautiful"
      ++ ", you would be both the beginning and the happy ending.";
    "Main hoon na, "
      ++ str_or (Context.userInfo context) "gorgeous"
      ++ "? Because like SRK, I promise to always be there for you." ].

Definition generic_fallback : string :=
  "I'm here to help! Let me know what you'd like to know.".

(** [getFallbackResponse(prompt, context)], with [r] the value that
    [Math.random()] returns if it is called. *)
Definition getFallbackResponse `{Host} (r : Q) (prompt : string)
  (context : Context.t) : Value :=
  let promptLower := toLowerCase prompt in
  if type_is context "pickup_line" then
    pickRandom r (pickup_templates context)
  else if type_is context "flirty_reply" then
      if includes promptLower "hello" || includes promptLower "hi" then
        JString ("Namaste " ++ str_or (Context.name context) "beautiful"
                 ++ "! Like in my movies, you've made my heart do a little dance 💃")
      else if includes promptLower "thank" then
        JString ("Anything for you, "
                 ++ str_or (Context.name context) "gorgeous"
                 ++ "! Like I always say in my films — main hoon na! 🤗")
      else
        JString ("You always know just what to say to make me smile, "
                 ++ str_or (Context.name context) "beautiful" ++ "! 😊")
  else JString generic_fallback.

(** What one pass through the body of the retry loop decides. *)
Inductive Step : Type :=
| Return (v : Value)
| Continue.

(** The loop [for (let attempt = 1; attempt <= this.maxRetries;
    attempt++)] of [callProvider], entered at [attempt] with
    [remaining] iterations left.  The whole body sits in a [try]; its
    [catch] rethrows on the last attempt and otherwise sleeps and lets
    the loop go on. *)
Fixpoint callProvider_loop `{Host} (w : World) (provider : Provider.t)
  (payload : Payload) (remaining attempt : nat) : Async Value :=
  match remaining with
  | O => ret JUndefined
  | S remaining' =>
      step <- try_catch
                (response <- fetch w provider (Some payload) ;;
                 if negb (ok response) then
                   if (status response =? 429)%Z then
                     sleep (retryDelay * Z.of_nat attempt) ;;
                     ret Continue
                   else
                     throw (Error ("HTTP " ++ show_int (status response)
                                   ++ ": " ++ statusText response))
                 else
                   data <- json response ;;
                   v <- lift (extractResponse provider data) ;;
                   ret (Return v))
                (fun error =>
                   if (attempt =? maxRetries)%nat then throw error
                   else
                     sleep (retryDelay * Z.of_nat attempt) ;;
                     ret Continue) ;;
      match step with
      | Return v => ret v
      | Continue =>
          callProvider_loop w provider payload remaining' (S attempt)
      end
  end.

(** [callProvider(provider, prompt, context)] *)
Definition callProvider `{Host} (w : World) (provider : Provider.t)
  (prompt : string) (context : Context.t) : Async Value :=
  payload <- lift (formatPayload provider prompt context) ;;
  callProvider_loop w provider payload maxRetries 1.

(** [response && response.trim().length > 0] *)
Definition usable (response : Value) : Completion bool :=
  if truthy response then
    cbind (call_trim response) (fun t =>
    Normal (0 <? String.length t)%nat)
  else Normal false.

(** The loop [for (const provider of this.providers)] of
    [generateText]; [Some r] is [return r] from inside the loop, [None]
    is falling off its end. *)
Fixpoint each_provider `{Host} (w : World) (providers : list Provider.t)
  (prompt : string) (context : Context.t) : Async (option Value) :=
  match providers with
  | [] => ret None
  | provider :: rest =>
      r <- try_catch
             (response <- callProvider w provider prompt context ;;
              good <- lift (usable response) ;;
              if good
              then ret (Some (GenerationResult response
                                (Provider.name provider)
                                (Provider.model provider)))
              else ret None)
             (fun error =>
                warn ("Provider " ++ Provider.name provider ++ " failed:")
                  error ;;
                if negb fallbackEnabled then throw error else ret None) ;;
      match r with
      | Some result => ret (Some result)
      | None => each_provider w rest prompt context
      end
  end.

(** [generateText(prompt, context = {})] on an instance whose
    [this.providers] is [providers].  With no provider the value of
    [getFallbackResponse] is returned as it is. *)
Definition generateText `{Host} (w : World) (providers : list Provider.t)
  (prompt : string) (context : Context.t) : Async Value :=
  match providers with
  | [] => ret (getFallbackResponse (random w) prompt context)
  | _ :: _ =>
      r <- each_provider w providers prompt context ;;
      match r with
      | Some result => ret result
      | None =>
          ret (GenerationResult
                 (getFallbackResponse (random w) prompt context)
                 "fallback" "local")
      end
  end.

End Part000.

(* ================================================================== *)
(** ** The rest of the template edition: health check and MCP tools    *)
(* ================================================================== *)

(** The characters a string literal here cannot hold: the line feed of
    [\n] and the double quote. *)
Definition nl : string := String (ascii_of_nat 10) EmptyString.
Definition dq : string := String (ascii_of_nat 34) EmptyString.

(** [`${v}`]: a string stands for itself, [undefined], [null] and the
    booleans have fixed renderings, the rest is the host's [ToString]. *)
Definition template_str `{Host} (v : Value) : string :=
  match v with
  | JString s => s
  | JUndefined => "undefined"
  | JNull => "null"
  | JBool true => "true"
  | JBool false => "false"
  | _ => toString v
  end.

(** [v !== s] for a string literal [s]. *)
Definition differs_from (v : Value) (s : string) : bool :=
  match v with
  | JString t => negb (t =? s)
  | _ => true
  end.

(** [{ content: [{ type: "text", text }] }] *)
Definition text_result (text : string) : Value :=
  JObject [("content",
            JArray [JObject [("type", JString "text");
                             ("text", JString text)]])].

(** [results[k] = v] on a plain object whose keys are not array
    indices: an existing key keeps its place. *)
Fixpoint set_prop (fields : list (string * Value)) (k : string) (v : Value)
  : list (string * Value) :=
  match fields with
  | [] => [(k, v)]
  | (k', v') :: rest =>
      if k' =? k then (k', v) :: rest else (k', v') :: set_prop rest k v
  end.

(** [parts.join(sep)] *)
Fixpoint join (sep : string) (parts : list string) : string :=
  match parts with
  | [] => ""
  | [x] => x
  | x :: rest => x ++ sep ++ join sep rest
  end.

Definition ascii_upper (c : ascii) : ascii :=
  let n := nat_of_ascii c in
  if (97 <=? n)%nat && (n <=? 122)%nat then ascii_of_nat (n - 32) else c.

(** [s.charAt(0).toUpperCase() + s.slice(1)] on a string of ASCII
    letters. *)
Definition capitalize (s : string) : string :=
  match s with
  | EmptyString => EmptyString
  | String c rest => String (ascii_upper c) rest
  end.

Module Part000Tools.

(** The argument [{ maxTokens: 1 }] of the health probe. *)
Definition probe_context : Context.t :=
  {| Context.systemPrompt := None; Context.maxTokens := Some 1%Z;
     Context.temperature := None; Context.type := None;
     Context.userInfo := None; Context.name := None |}.

(** The loop of [checkProviderHealth], with the object [results] built
    so far. *)
Fixpoint checkProviderHealth_loop `{Host} (w : World)
  (providers : list Provider.t) (results : list (string * Value))
  : Async (list (string * Value)) :=
  match providers with
  | [] => ret results
  | provider :: rest =>
      results' <- try_catch
                    (Part000.callProvider w provider "Test" probe_context ;;
                     ret (set_prop results (Provider.name provider)
                            (JString "healthy")))
                    (fun error =>
                       ret (set_prop results (Provider.name provider)
                              (JString "unhealthy"))) ;;
      checkProviderHealth_loop w rest results'
  end.

(** [checkProviderHealth()] on an instance whose [this.providers] is
    [providers]. *)
Definition checkProviderHealth `{Host} (w : World)
  (providers : list Provider.t) : Async Value :=
  results <- checkProviderHealth_loop w providers [] ;;
  ret (JObject results).

(** [Object.entries(health)] of a plain object. *)
Definition entries (health : Value) : list (string * Value) :=
  match health with
  | JObject fields => fields
  | _ => []
  end.

(** The tool [llm_health_check]. *)
Definition llm_health_check `{Host} (w : World)
  (providers : list Provider.t) : Async Value :=
  health <- checkProviderHealth w providers ;;
  let healthReport :=
    join nl (map (fun '(provider, status) =>
                    "• " ++ provider ++ ": " ++ template_str status)
               (entries health)) in
  ret (text_result
         ("🔍 **LLM Provider Health Status**" ++ nl ++ nl ++ healthReport
          ++ nl ++ nl ++ "📊 Total providers: "
          ++ show_int (Z.of_nat (List.length (entries health))))).

(** The [style] argument of [generate_srk_pickup_line], once the schema
    has put in its default. *)
Inductive Style : Type :=
| style_romantic
| style_witty
| style_bollywood
| style_classic.

Definition style_name (style : Style) : string :=
  match style with
  | style_romantic => "romantic"
  | style_witty => "witty"
  | style_bollywood => "bollywood"
  | style_classic => "classic"
  end.

Definition stylePrompts (style : Style) : string :=
  match style with
  | style_romantic => "Generate a deeply romantic and charming pickup line"
  | style_witty => "Create a clever and witty pickup line with wordplay"
  | style_bollywood =>
      "Make a Bollywood-themed pickup line with movie references"
  | style_classic => "Write a timeless, classic romantic pickup line"
  end.

(** The prompt that [generate_srk_pickup_line] builds. *)
Definition pickup_prompt (user_info : string) (target_info : option string)
  (style : Style) : string :=
  let context :=
    match target_info with
    | Some t =>
        if present target_info
        then "User: " ++ user_info ++ ". Target: " ++ t
        else "User: " ++ user_info
    | None => "User: " ++ user_info
    end in
  stylePrompts style ++ " in Shah Rukh Khan's signature style." ++ nl
  ++ nl
  ++ "Context: " ++ context ++ nl
  ++ nl
  ++ "The pickup line should be:" ++ nl
  ++ "- Charming and romantic like SRK's famous dialogues" ++ nl
  ++ "- " ++ (match style with
              | style_witty => "Clever and witty"
              | _ => "Heartfelt and sincere"
              end) ++ nl
  ++ "- Appropriate and respectful" ++ nl
  ++ "- Include Bollywood flair and Hindi/Urdu phrases where appropriate"
  ++ nl
  ++ (if present target_info then "- Personalized for the target person"
      else "") ++ nl
  ++ nl
  ++ "Generate only the pickup line:".

(** The options that [generate_srk_pickup_line] passes; [targetInfo],
    which the class never reads, is not represented. *)
Definition pickup_options (user_info : string) : Context.t :=
  {| Context.systemPrompt :=
       Some "You are Shah Rukh Khan, the King of Bollywood romance. Generate charming pickup lines in your signature style.";
     Context.maxTokens := Some 100%Z;
     Context.temperature := Some (8 # 10)%Q;
     Context.type := Some "pickup_line";
     Context.userInfo := Some user_info;
     Context.name := None |}.

(** [pick(arr)], with [r] the value of [Math.random()]:
    [arr[Math.floor(r * arr.length)]]. *)
Definition pick (r : Q) (arr : list string) : Value :=
  let i := Qfloor (r * inject_Z (Z.of_nat (List.length arr))) in
  if (i <? 0)%Z then JUndefined
  else match nth_error arr (Z.to_nat i) with
       | Some s => JString s
       | None => JUndefined
       end.

(** The lines of the handler's own [catch]. *)
Definition fallbackLines (user_info : string) : list string :=
  [ "Just like in my movies, " ++ user_info
      ++ ", you've made my heart skip a beat. Kuch Kuch Hota Hai when I see you!";
    "If I were to write a love story, " ++ user_info
      ++ ", you would be both the beginning and the happy ending.";
    "Main hoon na, " ++ user_info
      ++ "? Because like SRK, I promise to always be there for you." ].

(** What the [try] of [generate_srk_pickup_line] returns for a value
    [result] of [generateText]. *)
Definition pickup_reply `{Host} (style : Style) (result : Value)
  : Completion Value :=
  cbind (get result "provider") (fun provider =>
  cbind (if differs_from provider "fallback"
         then cbind (get result "model") (fun model =>
              Normal (nl ++ nl ++ "🤖 *Generated using "
                      ++ template_str provider ++ " ("
                      ++ template_str model ++ ")*"))
         else Normal (nl ++ nl ++ "_(Using curated SRK-style fallback)_"))
    (fun providerInfo =>
  cbind (get result "text") (fun text =>
  Normal (text_result
            ("💕 **Shah Rukh Khan-style Pickup Line** ("
             ++ style_name style ++ ") 💕" ++ nl ++ nl
             ++ "*" ++ dq ++ template_str text ++ dq ++ "*" ++ nl ++ nl
             ++ "✨ *Delivered with SRK's signature charm!*"
             ++ providerInfo))))).

(** What the [catch] of [generate_srk_pickup_line] returns; [r] is the
    value of the [Math.random()] that [pick] calls. *)
Definition pickup_emergency `{Host} (r : Q) (user_info : string) : Value :=
  text_result
    ("💕 **Shah Rukh Khan-style Pickup Line** 💕" ++ nl ++ nl
     ++ "*" ++ dq
     ++ template_str (pick r (fallbackLines user_info))
     ++ dq ++ "*" ++ nl ++ nl
     ++ "✨ *Delivered with SRK's signature charm!*" ++ nl ++ nl
     ++ "_(Emergency fallback mode)_").

(** The tool [generate_srk_pickup_line], on an instance [llm] whose
    providers are [providers]; [r] is the value of the handler's own
    [Math.random()]. *)
Definition generate_srk_pickup_line `{Host} (w : World) (r : Q)
  (providers : list Provider.t) (user_info : string)
  (target_info : option string) (style : Style) : Async Value :=
  try_catch
    (result <- Part000.generateText w providers
                 (pickup_prompt user_info target_info style)
                 (pickup_options user_info) ;;
     lift (pickup_reply style result))
    (fun error => ret (pickup_emergency r user_info)).

(** The [tone] argument of [generate_srk_flirty_reply], once the schema
    has put in its default. *)
Inductive Tone : Type :=
| tone_flirty
| tone_romantic
| tone_witty
| tone_sweet.

Definition tone_name (tone : Tone) : string :=
  match tone with
  | tone_flirty => "flirty"
  | tone_romantic => "romantic"
  | tone_witty => "witty"
  | tone_sweet => "sweet"
  end.

Definition tonePrompts (tone : Tone) : string :=
  match tone with
  | tone_flirty => "Generate a playfully flirty and charming reply"
  | tone_romantic => "Create a deeply romantic and heartfelt response"
  | tone_witty => "Write a clever and witty reply with humor"
  | tone_sweet => "Make a sweet and endearing response"
  end.

(** The prompt that [generate_srk_flirty_reply] builds. *)
Definition flirty_prompt (message : string) (your_name context : option string)
  (tone : Tone) : string :=
  tonePrompts tone
  ++ " to this message in Shah Rukh Khan's signature style." ++ nl
  ++ nl
  ++ "Message to reply to: " ++ dq ++ message ++ dq ++ nl
  ++ (match context with
      | Some c => if present context then "Conversation context: " ++ c
                  else ""
      | None => ""
      end) ++ nl
  ++ (match your_name with
      | Some n => if present your_name then "Your name: " ++ n else ""
      | None => ""
      end) ++ nl
  ++ nl
  ++ "The reply should be:" ++ nl
  ++ "- " ++ tone_name tone ++ " and engaging like SRK's famous dialogues"
  ++ nl
  ++ "- Charming with Bollywood flair" ++ nl
  ++ "- Conversation-continuing and appropriate" ++ nl
  ++ "- Include Hindi/Urdu phrases where suitable" ++ nl
  ++ "- Sound like something SRK would say in his romantic movies" ++ nl
  ++ nl
  ++ "Generate only the SRK-style reply:".

(** The options that [generate_srk_flirty_reply] passes;
    [originalMessage], which the class never reads, is not
    represented. *)
Definition flirty_options (your_name : option string) : Context.t :=
  {| Context.systemPrompt :=
       Some "You are Shah Rukh Khan responding to messages with your signature romantic charm and Bollywood flair.";
     Context.maxTokens := Some 120%Z;
     Context.temperature := Some (8 # 10)%Q;
     Context.type := Some "flirty_reply";
     Context.userInfo := None;
     Context.name := your_name |}.

(** What the [try] of [generate_srk_flirty_reply] returns for a value
    [result] of [generateText]. *)
Definition flirty_reply `{Host} (message : string) (tone : Tone)
  (result : Value) : Completion Value :=
  cbind (get result "provider") (fun provider =>
  cbind (if differs_from provider "fallback"
         then cbind (get result "model") (fun model =>
              Normal (nl ++ nl ++ "🤖 *Generated using "
                      ++ template_str provider ++ " ("
                      ++ template_str model ++ ")*"))
         else Normal (nl ++ nl ++ "_(Using curated SRK-style responses)_"))
    (fun providerInfo =>
  cbind (get result "text") (fun text =>
  Normal (text_result
            ("💕 **SRK-Style " ++ capitalize (tone_name tone)
             ++ " Reply** 💕" ++ nl ++ nl
             ++ "**Original Message:** " ++ dq ++ message ++ dq ++ nl ++ nl
             ++ "**Your Shah Rukh Khan Response:**" ++ nl
             ++ "*" ++ dq ++ template_str text ++ dq ++ "*" ++ nl ++ nl
             ++ "✨ *Delivered with SRK's signature charm and Bollywood romance!*"
             ++ providerInfo))))).

(** [/a|b|.../.test(s)] for literal alternatives. *)
Definition matches_any (s : string) (alternatives : list string) : bool :=
  existsb (includes s) alternatives.

(** What the [catch] of [generate_srk_flirty_reply] returns. *)
Definition flirty_emergency `{Host} (message : string)
  (your_name : option string) : Value :=
  let name := str_or your_name "beautiful" in
  let lowercase := toLowerCase message in
  let fallbackReply :=
    if matches_any lowercase ["hello"; "hi"; "hey"; "morning"; "evening"]
    then "Namaste " ++ name
         ++ "! Like in my movies, you've made my heart do a little dance 💃"
    else if matches_any lowercase ["thank"; "thanks"]
    then "Anything for you, " ++ name
         ++ "! Like I always say in my films — main hoon na! 🤗"
    else if matches_any lowercase ["sorry"; "apologize"]
    then "Don't worry, " ++ name
         ++ "! True love means never having to say sorry 💕"
    else "You always know just what to say to make me smile, " ++ name
         ++ "! It's like you have the perfect dialogue for every scene 😊" in
  text_result
    ("💕 **SRK-Style Flirty Reply** 💕" ++ nl ++ nl
     ++ "**Original Message:** " ++ dq ++ message ++ dq ++ nl ++ nl
     ++ "**Your Shah Rukh Khan Response:**" ++ nl
     ++ "*" ++ dq ++ fallbackReply ++ dq ++ "*" ++ nl ++ nl
     ++ "✨ *Delivered with SRK's signature charm and Bollywood romance!*"
     ++ nl ++ nl ++ "_(Emergency fallback mode)_").

(** The tool [generate_srk_flirty_reply], on an instance [llm] whose
    providers are [providers]. *)
Definition generate_srk_flirty_reply `{Host} (w : World)
  (providers : list Provider.t) (message : string)
  (your_name context : option string) (tone : Tone) : Async Value :=
  try_catch
    (result <- Part000.generateText w providers
                 (flirty_prompt message your_name context tone)
                 (flirty_options your_name) ;;
     lift (flirty_reply message tone result))
    (fun error => ret (flirty_emergency message your_name)).

End Part000Tools.

(* ================================================================== *)
(** ** The MCP tools of route.ts, JS edition                           *)
(* ================================================================== *)

Module RouteJsTools.

(** What both text tools return for the value [res] of
    [generateText]: [`💕 "${res.text}"\n\n*(${res.provider})*`]. *)
Definition tool_reply `{Host} (res : Value) : Completion Value :=
  cbind (get res "text") (fun text =>
  cbind (get res "provider") (fun provider =>
  Normal (text_result
            ("💕 " ++ dq ++ template_str text ++ dq ++ nl ++ nl
             ++ "*(" ++ template_str provider ++ ")*")))).

Definition pickup_prompt (user_info : string) (target_info : option string)
  : string :=
  "Write a romantic SRK pickup line for " ++ user_info
  ++ match target_info with
     | Some t => if present target_info then " about " ++ t else ""
     | None => ""
     end.

Definition pickup_options : Context.t :=
  {| Context.systemPrompt := Some "You are SRK, King of Romance";
     Context.maxTokens := None; Context.temperature := None;
     Context.type := Some "pickup_line";
     Context.userInfo := None; Context.name := None |}.

(** The tool [generate_srk_pickup_line]. *)
Definition generate_srk_pickup_line `{Host} (w : World)
  (providers : list Provider.t) (user_info : string)
  (target_info : option string) : Async Value :=
  res <- RouteJs.generateText w providers
           (pickup_prompt user_info target_info) pickup_options ;;
  lift (tool_reply res).

Definition flirty_prompt (message : string) (your_name : option string)
  : string :=
  "Reply flirtatiously as SRK to: " ++ dq ++ message ++ dq
  ++ match your_name with
     | Some n => if present your_name then " from " ++ n else ""
     | None => ""
     end.

Definition flirty_options : Context.t :=
  {| Context.systemPrompt := Some "You are SRK, responding charmingly";
     Context.maxTokens := None; Context.temperature := None;
     Context.type := Some "flirty_reply";
     Context.userInfo := None; Context.name := None |}.

(** The tool [generate_srk_flirty_reply]. *)
Definition generate_srk_flirty_reply `{Host} (w : World)
  (providers : list Provider.t) (message : string)
  (your_name : option string) : Async Value :=
  res <- RouteJs.generateText w providers
           (flirty_prompt message your_name) flirty_options ;;
  lift (tool_reply res).

End RouteJsTools.

(* ================================================================== *)
(** ** Vocabulary of the statements                                    *)
(* ================================================================== *)

(** A response with the given status (whatever its text and body). *)
Definition answers_status (o : FetchOutcome) (code : Z) : Prop :=
  exists r, o = Resolved r /\ status r = code.

(** A response that is neither a success nor a 429. *)
Definition answers_failure (o : FetchOutcome) : Prop :=
  exists r, o = Resolved r /\ ok r = false /\ status r <> 429%Z.

Definition is_rejected (o : FetchOutcome) : Prop :=
  exists e, o = Rejected e.

(** The events of [k] rate-limited attempts against [p], the first of
    them attempt number [i], followed by one more call. *)
Fixpoint backoff_log (delay : Z) (p : Provider.t) (payload : option Payload)
  (i k : nat) : list Event :=
  match k with
  | O => [Fetch p payload]
  | S k' =>
      Fetch p payload :: Sleep (delay * Z.of_nat i)
        :: backoff_log delay p payload (S i) k'
  end.

(** The events of [n] failed attempts against [p], the first of them
    attempt number [i], with a wait after each but the last. *)
Fixpoint exhausted_log (delay : Z) (p : Provider.t)
  (payload : option Payload) (i n : nat) : list Event :=
  match n with
  | O => []
  | 1 => [Fetch p payload]
  | S n' =>
      Fetch p payload :: Sleep (delay * Z.of_nat i)
        :: exhausted_log delay p payload (S i) n'
  end.

(** The [n]-th HTTP call of the run, made to [p], was answered by a
    success whose body parses and from which [extractor] returns a
    value that [accepts] takes. *)
Definition productive (extractor : Provider.t -> Value -> Completion Value)
  (accepts : Value -> bool) (w : World) (n : nat) (p : Provider.t) : bool :=
  match respond w n with
  | Resolved r =>
      ok r && match body r with
              | Parsed data =>
                  match extractor p data with
                  | Normal v => accepts v
                  | Thrown _ => false
                  end
              | Unparseable => false
              end
  | Rejected _ => false
  end.

(** Some call among [ps], the calls number [n], [n+1], ... of the run,
    was productive. *)
Fixpoint any_productive (extractor : Provider.t -> Value -> Completion Value)
  (accepts : Value -> bool) (w : World) (n : nat) (ps : list Provider.t)
  : bool :=
  match ps with
  | [] => false
  | p :: rest =>
      productive extractor accepts w n p
      || any_productive extractor accepts w (S n) rest
  end.

(** What the body of the [try] in [callProvider] of the template edition
    throws on an answer, if it throws. *)
Definition part000_attempt_error `{Host} (p : Provider.t)
  (o : FetchOutcome) : option Exn :=
  match o with
  | Rejected e => Some e
  | Resolved r =>
      if negb (ok r) then
        if (status r =? 429)%Z then None
        else Some (Error ("HTTP " ++ show_int (status r) ++ ": "
                          ++ statusText r))
      else match body r with
           | Unparseable => Some (SyntaxError "JSON.parse")
           | Parsed data =>
               match Part000.extractResponse p data with
               | Thrown e => Some e
               | Normal _ => None
               end
           end
  end.

(** A completion that is a value [accepts] takes. *)
Definition accepted (accepts : Value -> bool) (c : Completion Value) : bool :=
  match c with
  | Normal v => accepts v
  | Thrown _ => false
  end.

Definition is_some {A} (o : option A) : bool :=
  match o with
  | Some _ => true
  | None => false
  end.

(** The test of the JS edition of route.ts: [if (out)]. *)
Definition route_accepts (v : Value) : bool := truthy v.

(** The test of the template edition:
    [response && response.trim().length > 0]. *)
Definition part000_accepts (v : Value) : bool :=
  match Part000.usable v with
  | Normal b => b
  | Thrown _ => false
  end.

(** A string that is not empty: what the specification calls usable
    output. *)
Definition nonempty_text (v : Value) : bool :=
  match v with
  | JString s => negb (s =? "")
  | _ => false
  end.

(** *** Sample inputs *)

Definition sample_openai : Provider.t := openai_provider "sk-test".
Definition sample_anthropic : Provider.t := anthropic_provider "ak-test".
Definition sample_huggingface : Provider.t := huggingface_provider "hf-test".

Definition no_credentials : Env :=
  {| OPENAI_API_KEY := None; ANTHROPIC_API_KEY := None; HF_TOKEN := None |}.

(** Two of the three credentials are set. *)
Definition sample_env : Env :=
  {| OPENAI_API_KEY := Some "sk-test";
     ANTHROPIC_API_KEY := Some "ak-test";
     HF_TOKEN := None |}.

Definition pickup_context : Context.t :=
  {| Context.systemPrompt := Some "You are SRK, King of Romance";
     Context.maxTokens := Some 100%Z;
     Context.temperature := Some (8 # 10)%Q;
     Context.type := Some "pickup_line";
     Context.userInfo := None;
     Context.name := None |}.

(** The body [{ "choices": [ { "message": { "content": c } } ] }]. *)
Definition chat_body (c : Value) : Body :=
  Parsed (JObject [("choices",
            JArray [JObject [("message", JObject [("content", c)])]])]).

Definition reply (code : Z) (b : Body) : FetchOutcome :=
  Resolved {| status := code; statusText := "-"; body := b |}.

(** Every call is answered by [o]. *)
Definition always (o : FetchOutcome) : World :=
  {| respond := fun _ => o; random := (1 # 2)%Q |}.

(** The first [k] calls are answered 429, the later ones by [o]. *)
Definition limited (k : nat) (o : FetchOutcome) : World :=
  {| respond := fun n => if (n <? k)%nat then reply 429 Unparseable else o;
     random := (1 # 2)%Q |}.

Definition timeout_error : Exn :=
  Rejection "TimeoutError" "The operation was aborted due to timeout".

Definition hello : FetchOutcome := reply 200 (chat_body (JString "Hello")).

Definition hello_response : Response :=
  {| status := 200; statusText := "-";
     body := chat_body (JString "Hello") |}.

Definition hello_data : Value :=
  JObject [("choices",
     JArray [JObject [("message", JObject [("content", JString "Hello")])]])].

Definition sample_payload : Payload :=
  OpenAIPayload "gpt-3.5-turbo"
    [ {| role := "system"; content := "You are SRK, King of Romance" |};
      {| role := "user"; content := "hi" |} ]
    100 (8 # 10) (9 # 10).

Definition sample_500 : Response :=
  {| status := 500; statusText := "-"; body := Unparseable |}.

(** *** Vocabulary of the further properties *)

(** A descriptor whose name the class does not know. *)
Definition mystery_provider : Provider.t :=
  {| Provider.name := "mistral";
     Provider.endpoint := "https://example.invalid/v1";
     Provider.headers := [];
     Provider.model := "m";
     Provider.priority := 4 |}.

Definition rate_limited : World := always (reply 429 Unparseable).

Definition empty_content : World :=
  always (reply 200 (chat_body (JString ""))).

Definition garbled : World := always (reply 200 Unparseable).

Definition probe_payload : Payload :=
  OpenAIPayload "gpt-3.5-turbo"
    [ {| role := "system"; content := "You are a helpful assistant." |};
      {| role := "user"; content := "Test" |} ]
    1 (8 # 10) (9 # 10).

(** The calls of a run that tries [ps] in order, the i-th of them
    [counts_i] times. *)
Fixpoint blocks (ps : list Provider.t) (counts : list nat)
  : list Provider.t :=
  match ps, counts with
  | p :: ps', n :: counts' => (repeat p n ++ blocks ps' counts')%list
  | _, _ => []
  end.

Definition total (l : list Z) : Z := fold_right Z.add 0%Z l.

(** The events of one provider's turn, entered at attempt [i] with
    [remaining] attempts left: [n] calls to [p], and a wait of
    [1000 * a] after each of the first [m] attempts. *)
Definition attempts_shape (p : Provider.t) (i remaining : nat)
  (events : list Event) : Prop :=
  exists n m,
    fetches events = repeat p n
    /\ sleeps events = map (fun a => (1000 * Z.of_nat a)%Z) (seq i m)
    /\ n <= remaining
    /\ m <= n.

(** The events of a run over [ps]. *)
Definition run_shape (ps : list Provider.t) (events : list Event) : Prop :=
  exists counts,
    fetches events = blocks ps counts
    /\ Forall (fun n => n <= 3) counts
    /\ Forall (fun ms => In ms [1000; 2000; 3000]%Z) (sleeps events)
    /\ (total (sleeps events) <= 6000 * Z.of_nat (List.length ps))%Z.

(** The descriptor of a credential that is set and not empty. *)
Definition configured (key : option string) (mk : string -> Provider.t)
  (p : Provider.t) : Prop :=
  exists k, key = Some k /\ k <> "" /\ p = mk k.

Definition bit (b : bool) : nat := if b then 1 else 0.

(** The two values [checkProviderHealth] stores. *)
Definition is_verdict (v : Value) : Prop :=
  v = JString "healthy" \/ v = JString "unhealthy".

(** What [checkProviderHealth] stores for a completion of
    [callProvider]. *)
Definition verdict_of (c : Completion Value) : string :=
  match c with
  | Normal _ => "healthy"
  | Thrown _ => "unhealthy"
  end.

(** The part of a reply that names the source of the text. *)
Definition pickup_source (provider model : string) : string :=
  if negb (provider =? "fallback")
  then nl ++ nl ++ "🤖 *Generated using " ++ provider ++ " (" ++ model ++ ")*"
  else nl ++ nl ++ "_(Using curated SRK-style fallback)_".

Definition flirty_source (provider model : string) : string :=
  if negb (provider =? "fallback")
  then nl ++ nl ++ "🤖 *Generated using " ++ provider ++ " (" ++ model ++ ")*"
  else nl ++ nl ++ "_(Using curated SRK-style responses)_".

(** The reply of the text tools of route.ts for a text and a provider
    tag. *)
Definition route_reply `{Host} (text : Value) (provider : string) : Value :=
  text_result
    ("💕 " ++ dq ++ template_str text ++ dq ++ nl ++ nl
     ++ "*(" ++ provider ++ ")*").

(** A line of the health report. *)
Definition report_line `{Host} (entry : string * Value) : string :=
  "• " ++ fst entry ++ ": " ++ template_str (snd entry).




Definition known_name (name : string) : bool :=
  (name =? "openai") || (name =? "anthropic") || (name =? "huggingface").

Definition is_ascii (s : string) : bool :=
  forallb (fun c => (nat_of_ascii c <? 128)%nat) (list_ascii_of_string s).

(** What is assumed of the host's [toLowerCase]: an ASCII prefix of the
    string is lower-cased letter by letter. *)
Definition lowers_ascii_prefix (host : Host) : Prop :=
  forall a b,
    is_ascii a = true ->
    prefix (map_string ascii_lower a) (@toLowerCase host (a ++ b)) = true.

(* ================================================================== *)
(** ** Basic facts                                                     *)
(* ================================================================== *)

Example trim_sample :
  trim (" " ++ bytes [194; 160] ++ "a b" ++ bytes [10; 9]) = "a b".
Proof. reflexivity. Qed.

Lemma fetches_app (l1 l2 : list Event) :
  fetches (l1 ++ l2) = (fetches l1 ++ fetches l2)%list.
Proof.
  induction l1 as [|e l1 IH]; [reflexivity|].
  destruct e; cbn; rewrite IH; reflexivity.
Qed.

Lemma sleeps_app (l1 l2 : list Event) :
  sleeps (l1 ++ l2) = (sleeps l1 ++ sleeps l2)%list.
Proof.
  induction l1 as [|e l1 IH]; [reflexivity|].
  destruct e; cbn; rewrite IH; reflexivity.
Qed.

Lemma record_app (s : State) (l1 l2 : list Event) :
  record s (l1 ++ l2) = record (record s l1) l2.
Proof. apply fold_left_app. Qed.

Lemma log_record (s : State) (events : list Event) :
  log (record s events) = (log s ++ events)%list.
Proof.
  unfold record.
  revert s; induction events as [|e events IH]; intros s; cbn [fold_left].
  - now rewrite app_nil_r.
  - rewrite IH; cbn. now rewrite <- app_assoc.
Qed.

Lemma calls_record (s : State) (events : list Event) :
  calls (record s events) = calls s + List.length (fetches events).
Proof.
  unfold record.
  revert s; induction events as [|e events IH]; intros s; cbn [fold_left].
  - cbn; lia.
  - rewrite IH; destruct e; cbn; lia.
Qed.

(** Unfolds the plumbing of the [async] monad. *)
Ltac monad :=
  unfold bind, try_catch, ret, throw, lift, emit, warn, sleep,
    RouteJs.delay in *;
  cbn beta iota.

Section Orchestrator.
Context `{Host}.

(** *** Neither loop over the providers lets an exception out *)

Lemma route_each_provider_normal (w : World) (providers : list Provider.t)
  (prompt : string) (context : Context.t) (s : State) :
  exists r s',
    RouteJs.each_provider w providers prompt context s = (Normal r, s').
Proof.
  revert s; induction providers as [|p rest IH]; intros s.
  - now exists None, s.
  - cbn [RouteJs.each_provider]; unfold bind, try_catch.
    destruct (RouteJs.call w p prompt context s) as [[out|err] s1].
    + destruct (truthy out); monad.
      * eauto.
      * apply IH.
    + monad. apply IH.
Qed.

Lemma part000_each_provider_normal (w : World) (providers : list Provider.t)
  (prompt : string) (context : Context.t) (s : State) :
  exists r s',
    Part000.each_provider w providers prompt context s = (Normal r, s').
Proof.
  revert s; induction providers as [|p rest IH]; intros s.
  - now exists None, s.
  - cbn [Part000.each_provider]; unfold bind, try_catch, lift.
    destruct (Part000.callProvider w p prompt context s) as [[out|err] s1].
    + destruct (Part000.usable out) as [[|]|err]; monad.
      * eauto.
      * apply IH.
      * apply IH.
    + monad. apply IH.
Qed.

Lemma route_generateText_normal (w : World) (providers : list Provider.t)
  (prompt : string) (context : Context.t) (s : State) :
  exists v s',
    RouteJs.generateText w providers prompt context s = (Normal v, s').
Proof.
  destruct providers as [|p rest]; [solve [cbn; monad; eauto]|].
  unfold RouteJs.generateText, bind.
  destruct (route_each_provider_normal w (p :: rest) prompt context s)
    as (r & s' & E).
  rewrite E. destruct r; monad; eauto.
Qed.

Lemma part000_generateText_normal (w : World) (providers : list Provider.t)
  (prompt : string) (context : Context.t) (s : State) :
  exists v s',
    Part000.generateText w providers prompt context s = (Normal v, s').
Proof.
  destruct providers as [|p rest]; [solve [cbn; monad; eauto]|].
  unfold Part000.generateText, bind.
  destruct (part000_each_provider_normal w (p :: rest) prompt context s)
    as (r & s' & E).
  rewrite E. destruct r; monad; eauto.
Qed.

(** *** The empty registry *)

Lemma route_generateText_empty (w : World) (prompt : string)
  (context : Context.t) (s : State) :
  RouteJs.generateText w [] prompt context s
  = (Normal (GenerationResult (JString "🤖 (fallback response)")
               "fallback" "local"), s).
Proof. reflexivity. Qed.

Lemma getFallbackResponse_cases (r : Q) (prompt : string)
  (context : Context.t) :
  Part000.getFallbackResponse r prompt context = JUndefined
  \/ exists t, Part000.getFallbackResponse r prompt context = JString t.
Proof.
  unfold Part000.getFallbackResponse, Part000.pickRandom.
  repeat match goal with
         | |- context [if ?c then _ else _] => destruct c
         | |- context [match ?c with Some _ => _ | None => _ end] =>
             destruct c
         end; eauto.
Qed.

(** C3 (the code at the failing input).  With no credential set the
    registry is empty, and on an empty registry the template edition
    returns the fallback text itself, not an object
    [{ text, provider, model }]: the value has no [provider], [model] or
    [text] field to read.  No HTTP call is issued. *)
Theorem part000_empty_registry_returns_bare_text (w : World)
  (prompt : string) (context : Context.t) (s : State) :
  Part000.initializeProviders no_credentials = []
  /\ Part000.generateText w [] prompt context s
     = (Normal (Part000.getFallbackResponse (random w) prompt context), s)
  /\ (forall text provider model,
        Part000.getFallbackResponse (random w) prompt context
        <> GenerationResult text provider model)
  /\ opt_get (Part000.getFallbackResponse (random w) prompt context)
       "provider" = JUndefined
  /\ opt_get (Part000.getFallbackResponse (random w) prompt context)
       "model" = JUndefined
  /\ opt_get (Part000.getFallbackResponse (random w) prompt context)
       "text" = JUndefined.
Proof.
  split; [reflexivity|]. split; [reflexivity|].
  destruct (getFallbackResponse_cases (random w) prompt context)
    as [E|[t E]]; rewrite E; repeat split; discriminate.
Qed.

End Orchestrator.

(* ================================================================== *)
(** ** One attempt of the retry loops                                  *)
(* ================================================================== *)

Lemma status_429_not_ok (r : Response) : status r = 429%Z -> ok r = false.
Proof. unfold ok; intros ->; reflexivity. Qed.

Section Attempts.
Context `{Host}.
Variable w : World.
Variable p : Provider.t.

(** *** route.ts, JS edition *)

Lemma route_attempt_success (payload : option Payload) (remaining i : nat)
  (s : State) (resp : Response) (data : Value) :
  respond w (calls s) = Resolved resp ->
  ok resp = true ->
  body resp = Parsed data ->
  RouteJs.call_loop w p payload (S remaining) i s
  = (RouteJs.extract p data, observe s (Fetch p payload)).
Proof.
  intros E Hok Hbody.
  cbn [RouteJs.call_loop]; unfold bind, fetch, json.
  rewrite E, Hok, Hbody. reflexivity.
Qed.

Lemma route_attempt_unparseable (payload : option Payload)
  (remaining i : nat) (s : State) (resp : Response) :
  respond w (calls s) = Resolved resp ->
  ok resp = true ->
  body resp = Unparseable ->
  RouteJs.call_loop w p payload (S remaining) i s
  = (Thrown (SyntaxError "JSON.parse"), observe s (Fetch p payload)).
Proof.
  intros E Hok Hbody.
  cbn [RouteJs.call_loop]; unfold bind, fetch, json.
  rewrite E, Hok, Hbody. reflexivity.
Qed.

Lemma route_attempt_429 (payload : option Payload) (remaining i : nat)
  (s : State) :
  answers_status (respond w (calls s)) 429 ->
  RouteJs.call_loop w p payload (S remaining) i s
  = RouteJs.call_loop w p payload remaining (S i)
      (record s [Fetch p payload;
                 Sleep (RouteJs.retryDelay * Z.of_nat i)]).
Proof.
  intros (r & E & Hst).
  cbn [RouteJs.call_loop]; unfold bind, fetch.
  rewrite E, (status_429_not_ok r Hst), Hst. reflexivity.
Qed.

Lemma route_attempt_rejected (payload : option Payload) (remaining i : nat)
  (s : State) (e : Exn) :
  respond w (calls s) = Rejected e ->
  RouteJs.call_loop w p payload (S remaining) i s
  = (Thrown e, observe s (Fetch p payload)).
Proof.
  intros E. cbn [RouteJs.call_loop]; unfold bind, fetch.
  rewrite E. reflexivity.
Qed.

Lemma route_attempt_failure (payload : option Payload) (remaining i : nat)
  (s : State) (r : Response) :
  respond w (calls s) = Resolved r ->
  ok r = false ->
  status r <> 429%Z ->
  RouteJs.call_loop w p payload (S remaining) i s
  = (Thrown (Error (Provider.name p ++ " HTTP " ++ show_int (status r))),
     observe s (Fetch p payload)).
Proof.
  intros E Hok Hst. apply Z.eqb_neq in Hst.
  cbn [RouteJs.call_loop]; unfold bind, fetch.
  rewrite E, Hok, Hst. reflexivity.
Qed.

(** [k] answers 429, then a success: [k+1] calls, a wait of
    [retryDelay * attempt] after each of the first [k]. *)
Lemma route_call_loop_backoff (payload : option Payload) (resp : Response)
  (data : Value) (k : nat) :
  forall (remaining i : nat) (s : State),
    k < remaining ->
    (forall j, j < k -> answers_status (respond w (calls s + j)) 429) ->
    respond w (calls s + k) = Resolved resp ->
    ok resp = true ->
    body resp = Parsed data ->
    RouteJs.call_loop w p payload remaining i s
    = (RouteJs.extract p data,
       record s (backoff_log RouteJs.retryDelay p payload i k)).
Proof.
  induction k as [|k IH]; intros remaining i s Hlt H429 E Hok Hbody.
  - destruct remaining as [|remaining]; [lia|].
    rewrite Nat.add_0_r in E.
    now apply route_attempt_success with (resp := resp).
  - destruct remaining as [|remaining]; [lia|].
    rewrite route_attempt_429
      by (specialize (H429 0); rewrite Nat.add_0_r in H429; apply H429; lia).
    apply IH; try assumption; try lia.
    + intros j Hj. cbn [record fold_left observe calls].
      replace (S (calls s) + j) with (calls s + S j) by lia.
      apply H429; lia.
    + cbn [record fold_left observe calls].
      now replace (S (calls s) + k) with (calls s + S k) by lia.
Qed.

(** *** The template edition *)

Lemma part000_attempt_success (payload : Payload) (remaining attempt : nat)
  (s : State) (resp : Response) (data v : Value) :
  respond w (calls s) = Resolved resp ->
  ok resp = true ->
  body resp = Parsed data ->
  Part000.extractResponse p data = Normal v ->
  Part000.callProvider_loop w p payload (S remaining) attempt s
  = (Normal v, observe s (Fetch p (Some payload))).
Proof.
  intros E Hok Hbody Hex.
  cbn [Part000.callProvider_loop]; unfold bind, try_catch, fetch, json, lift.
  rewrite E, Hok, Hbody. cbn. rewrite Hex. reflexivity.
Qed.

Lemma part000_attempt_429 (payload : Payload) (remaining attempt : nat)
  (s : State) :
  answers_status (respond w (calls s)) 429 ->
  Part000.callProvider_loop w p payload (S remaining) attempt s
  = Part000.callProvider_loop w p payload remaining (S attempt)
      (record s [Fetch p (Some payload);
                 Sleep (Part000.retryDelay * Z.of_nat attempt)]).
Proof.
  intros (r & E & Hst).
  cbn [Part000.callProvider_loop]; unfold bind, try_catch, fetch.
  rewrite E, (status_429_not_ok r Hst), Hst. reflexivity.
Qed.

(** A failed attempt that is not the last: wait, then go on. *)
Lemma part000_attempt_retry (payload : Payload) (remaining attempt : nat)
  (s : State) (e : Exn) :
  part000_attempt_error p (respond w (calls s)) = Some e ->
  attempt <> Part000.maxRetries ->
  Part000.callProvider_loop w p payload (S remaining) attempt s
  = Part000.callProvider_loop w p payload remaining (S attempt)
      (record s [Fetch p (Some payload);
                 Sleep (Part000.retryDelay * Z.of_nat attempt)]).
Proof.
  intros E Hne. apply Nat.eqb_neq in Hne.
  cbn [Part000.callProvider_loop];
    unfold bind, try_catch, fetch, json, lift, throw.
  unfold part000_attempt_error in E.
  destruct (respond w (calls s)) as [e0|r].
  - rewrite Hne. reflexivity.
  - destruct (ok r); cbn [negb] in *.
    + destruct (body r) as [|data]; cbn.
      * rewrite Hne. reflexivity.
      * destruct (Part000.extractResponse p data); [discriminate|].
        rewrite Hne. reflexivity.
    + destruct (status r =? 429)%Z; [discriminate|].
      rewrite Hne. reflexivity.
Qed.

(** A failed last attempt: the exception leaves [callProvider]. *)
Lemma part000_attempt_last (payload : Payload) (remaining : nat)
  (s : State) (e : Exn) :
  part000_attempt_error p (respond w (calls s)) = Some e ->
  Part000.callProvider_loop w p payload (S remaining) Part000.maxRetries s
  = (Thrown e, observe s (Fetch p (Some payload))).
Proof.
  intros E.
  cbn [Part000.callProvider_loop];
    unfold bind, try_catch, fetch, json, lift, throw.
  unfold part000_attempt_error in E.
  destruct (respond w (calls s)) as [e0|r].
  - injection E as ->. reflexivity.
  - destruct (ok r); cbn [negb] in *.
    + destruct (body r) as [|data]; cbn.
      * injection E as <-. reflexivity.
      * destruct (Part000.extractResponse p data); [discriminate|].
        injection E as ->. reflexivity.
    + destruct (status r =? 429)%Z; [discriminate|].
      injection E as <-. reflexivity.
Qed.

End Attempts.

(* ================================================================== *)
(** ** The loop over the providers                                     *)
(* ================================================================== *)

Lemma fetches_backoff_log (d : Z) (p : Provider.t) (payload : option Payload)
  (k : nat) :
  forall i, fetches (backoff_log d p payload i k) = repeat p (S k).
Proof.
  induction k as [|k IH]; intros i; [reflexivity|].
  cbn [backoff_log fetches]. now rewrite IH.
Qed.

Lemma sleeps_backoff_log (d : Z) (p : Provider.t) (payload : option Payload)
  (k : nat) :
  forall i,
    sleeps (backoff_log d p payload i k)
    = map (fun a => (d * Z.of_nat a)%Z) (seq i k).
Proof.
  induction k as [|k IH]; intros i; [reflexivity|].
  cbn [backoff_log sleeps seq map]. now rewrite IH.
Qed.

Lemma fetches_exhausted_log (d : Z) (p : Provider.t)
  (payload : option Payload) (n : nat) :
  forall i, fetches (exhausted_log d p payload i n) = repeat p n.
Proof.
  induction n as [|n IH]; intros i; [reflexivity|].
  destruct n as [|n]; [reflexivity|].
  change (exhausted_log d p payload i (S (S n)))
    with (Fetch p payload :: Sleep (d * Z.of_nat i)
            :: exhausted_log d p payload (S i) (S n)).
  cbn [fetches]. rewrite IH. reflexivity.
Qed.

Lemma sleeps_exhausted_log (d : Z) (p : Provider.t)
  (payload : option Payload) (n : nat) :
  forall i,
    sleeps (exhausted_log d p payload i n)
    = map (fun a => (d * Z.of_nat a)%Z) (seq i (pred n)).
Proof.
  induction n as [|n IH]; intros i; [reflexivity|].
  destruct n as [|n]; [reflexivity|].
  change (exhausted_log d p payload i (S (S n)))
    with (Fetch p payload :: Sleep (d * Z.of_nat i)
            :: exhausted_log d p payload (S i) (S n)).
  cbn [sleeps]. rewrite IH. reflexivity.
Qed.

Section Providers.
Context `{Host}.
Variable w : World.
Variable prompt : string.
Variable context : Context.t.

(** *** route.ts, JS edition *)

Lemma route_generateText_unfold (providers : list Provider.t) (s : State) :
  RouteJs.generateText w providers prompt context s
  = match RouteJs.each_provider w providers prompt context s with
    | (Normal (Some result), s') => (Normal result, s')
    | (Normal None, s') =>
        (Normal (GenerationResult (JString "🤖 (fallback response)")
                   "fallback" "local"), s')
    | (Thrown e, s') => (Thrown e, s')
    end.
Proof.
  destruct providers as [|p rest]; [reflexivity|].
  unfold RouteJs.generateText, bind.
  destruct (RouteJs.each_provider w (p :: rest) prompt context s)
    as [[[r|]|e] s']; reflexivity.
Qed.

Lemma route_each_accept (p : Provider.t) (rest : list Provider.t)
  (s s1 : State) (out : Value) :
  RouteJs.call w p prompt context s = (Normal out, s1) ->
  truthy out = true ->
  RouteJs.each_provider w (p :: rest) prompt context s
  = (Normal (Some (GenerationResult out (Provider.name p)
                     (Provider.model p))), s1).
Proof.
  intros E Ht. cbn [RouteJs.each_provider]; unfold bind, try_catch.
  rewrite E, Ht. reflexivity.
Qed.

Lemma route_each_decline (p : Provider.t) (rest : list Provider.t)
  (s s1 : State) (out : Value) :
  RouteJs.call w p prompt context s = (Normal out, s1) ->
  truthy out = false ->
  RouteJs.each_provider w (p :: rest) prompt context s
  = RouteJs.each_provider w rest prompt context s1.
Proof.
  intros E Ht. cbn [RouteJs.each_provider]; unfold bind, try_catch.
  rewrite E, Ht. reflexivity.
Qed.

Lemma route_each_skip (p : Provider.t) (rest : list Provider.t)
  (s s1 : State) (e : Exn) :
  RouteJs.call w p prompt context s = (Thrown e, s1) ->
  RouteJs.each_provider w (p :: rest) prompt context s
  = RouteJs.each_provider w rest prompt context
      (observe s1 (Warn ("LLM " ++ Provider.name p ++ " failed:") e)).
Proof.
  intros E. cbn [RouteJs.each_provider]; unfold bind, try_catch.
  rewrite E. reflexivity.
Qed.

Lemma route_each_app (pre rest : list Provider.t) :
  forall s0 s,
    RouteJs.each_provider w pre prompt context s0 = (Normal None, s) ->
    RouteJs.each_provider w (pre ++ rest)%list prompt context s0
    = RouteJs.each_provider w rest prompt context s.
Proof.
  induction pre as [|q pre IH]; intros s0 s E.
  - cbn in E. injection E as <-. reflexivity.
  - cbn [RouteJs.each_provider app] in *; unfold bind, try_catch in *.
    destruct (RouteJs.call w q prompt context s0) as [[out|err] s1].
    + destruct (truthy out); monad; [discriminate|]. now apply IH.
    + monad. now apply IH.
Qed.

(** *** The template edition *)

Lemma part000_generateText_unfold (p : Provider.t)
  (rest : list Provider.t) (s : State) :
  Part000.generateText w (p :: rest) prompt context s
  = match Part000.each_provider w (p :: rest) prompt context s with
    | (Normal (Some result), s') => (Normal result, s')
    | (Normal None, s') =>
        (Normal (GenerationResult
                   (Part000.getFallbackResponse (random w) prompt context)
                   "fallback" "local"), s')
    | (Thrown e, s') => (Thrown e, s')
    end.
Proof.
  unfold Part000.generateText, bind.
  destruct (Part000.each_provider w (p :: rest) prompt context s)
    as [[[r|]|e] s']; reflexivity.
Qed.

Lemma part000_each_accept (p : Provider.t) (rest : list Provider.t)
  (s s1 : State) (out : Value) :
  Part000.callProvider w p prompt context s = (Normal out, s1) ->
  Part000.usable out = Normal true ->
  Part000.each_provider w (p :: rest) prompt context s
  = (Normal (Some (GenerationResult out (Provider.name p)
                     (Provider.model p))), s1).
Proof.
  intros E Hu. cbn [Part000.each_provider]; unfold bind, try_catch, lift.
  rewrite E, Hu. reflexivity.
Qed.

Lemma part000_each_decline (p : Provider.t) (rest : list Provider.t)
  (s s1 : State) (out : Value) :
  Part000.callProvider w p prompt context s = (Normal out, s1) ->
  Part000.usable out = Normal false ->
  Part000.each_provider w (p :: rest) prompt context s
  = Part000.each_provider w rest prompt context s1.
Proof.
  intros E Hu. cbn [Part000.each_provider]; unfold bind, try_catch, lift.
  rewrite E, Hu. reflexivity.
Qed.

Lemma part000_each_skip (p : Provider.t) (rest : list Provider.t)
  (s s1 : State) (e : Exn) :
  Part000.callProvider w p prompt context s = (Thrown e, s1) ->
  Part000.each_provider w (p :: rest) prompt context s
  = Part000.each_provider w rest prompt context
      (observe s1 (Warn ("Provider " ++ Provider.name p ++ " failed:") e)).
Proof.
  intros E. cbn [Part000.each_provider]; unfold bind, try_catch, lift.
  rewrite E. reflexivity.
Qed.

Lemma part000_each_app (pre rest : list Provider.t) :
  forall s0 s,
    Part000.each_provider w pre prompt context s0 = (Normal None, s) ->
    Part000.each_provider w (pre ++ rest)%list prompt context s0
    = Part000.each_provider w rest prompt context s.
Proof.
  induction pre as [|q pre IH]; intros s0 s E.
  - cbn in E. injection E as <-. reflexivity.
  - cbn [Part000.each_provider app] in *; unfold bind, try_catch, lift in *.
    destruct (Part000.callProvider w q prompt context s0) as [[out|err] s1].
    + destruct (Part000.usable out) as [[|]|err]; monad;
        [discriminate| |]; now apply IH.
    + monad. now apply IH.
Qed.

End Providers.

(* ================================================================== *)
(** ** Rate limiting and the first success                             *)
(* ================================================================== *)

Lemma nonempty_length (s : string) :
  s <> "" -> (0 <? String.length s)%nat = true.
Proof. destruct s; [congruence|reflexivity]. Qed.

Lemma nonempty_truthy (t : string) : t <> "" -> truthy (JString t) = true.
Proof.
  intros Hne; cbn. destruct (String.eqb_spec t ""); [contradiction|reflexivity].
Qed.

Lemma trim_empty : trim "" = "".
Proof. reflexivity. Qed.

Lemma trim_nonempty (t : string) : trim t <> "" -> t <> "".
Proof. intros Hne ->. now apply Hne. Qed.

Lemma part000_usable_text (t : string) :
  trim t <> "" -> Part000.usable (JString t) = Normal true.
Proof.
  intros Hne. unfold Part000.usable.
  rewrite (nonempty_truthy t (trim_nonempty t Hne)).
  unfold call_trim, cbind.
  now rewrite nonempty_length.
Qed.

Section Backoff.
Context `{Host}.
Variable w : World.
Variable prompt : string.
Variable context : Context.t.

(** In the template edition only the ["openai"] branch of
    [extractResponse] can return anything but the empty string. *)
Lemma part000_extract_truthy_openai (p : Provider.t) (data v : Value) :
  Part000.extractResponse p data = Normal v ->
  truthy v = true ->
  Provider.name p = "openai".
Proof.
  unfold Part000.extractResponse.
  destruct (String.eqb_spec (Provider.name p) "openai") as [E|_];
    [intros; exact E|].
  destruct (Provider.name p =? "huggingface").
  - destruct data; cbn; intros [= <-]; discriminate.
  - intros [= <-]; discriminate.
Qed.

Lemma part000_formatPayload_openai (p : Provider.t) :
  Provider.name p = "openai" ->
  exists payload, Part000.formatPayload p prompt context = Normal payload.
Proof.
  intros E. unfold Part000.formatPayload. rewrite E. cbn. eauto.
Qed.

Lemma part000_callProvider_unfold (p : Provider.t) (payload : Payload)
  (s : State) :
  Part000.formatPayload p prompt context = Normal payload ->
  Part000.callProvider w p prompt context s
  = Part000.callProvider_loop w p payload Part000.maxRetries 1 s.
Proof.
  intros E. unfold Part000.callProvider, bind, lift. now rewrite E.
Qed.

Lemma part000_callProvider_loop_backoff (p : Provider.t) (payload : Payload)
  (resp : Response) (data v : Value) (k : nat) :
  forall (remaining attempt : nat) (s : State),
    k < remaining ->
    (forall j, j < k -> answers_status (respond w (calls s + j)) 429) ->
    respond w (calls s + k) = Resolved resp ->
    ok resp = true ->
    body resp = Parsed data ->
    Part000.extractResponse p data = Normal v ->
    Part000.callProvider_loop w p payload remaining attempt s
    = (Normal v,
       record s (backoff_log Part000.retryDelay p (Some payload) attempt k)).
Proof.
  induction k as [|k IH]; intros remaining i s Hlt H429 E Hok Hbody Hex.
  - destruct remaining as [|remaining]; [lia|].
    rewrite Nat.add_0_r in E.
    now apply part000_attempt_success with (resp := resp) (data := data).
  - destruct remaining as [|remaining]; [lia|].
    rewrite part000_attempt_429
      by (specialize (H429 0); rewrite Nat.add_0_r in H429; apply H429; lia).
    apply IH; try assumption; try lia.
    + intros j Hj. cbn [record fold_left observe calls].
      replace (S (calls s) + j) with (calls s + S j) by lia.
      apply H429; lia.
    + cbn [record fold_left observe calls].
      now replace (S (calls s) + k) with (calls s + S k) by lia.
Qed.

(** C4, as amended.  Let every provider before [p] have failed, leaving
    the run in state [s].  If the next [k < maxRetries] calls are
    answered 429 and the one after them by a success from whose body the
    edition extracts the string [t], where [t] is not empty (route.ts)
    or is not empty once trimmed (template edition), then [generateText]
    returns [t] under [p]'s name and model, exactly [k+1] calls were
    made, all to [p], and the waits were [retryDelay * i] for
    [i = 1..k], with [retryDelay = 1000]. *)
Theorem rate_limited_then_success :
  (forall (pre : list Provider.t) (p : Provider.t) (post : list Provider.t)
          (s0 s : State) (k : nat) (resp : Response) (data : Value)
          (t : string),
      RouteJs.each_provider w pre prompt context s0 = (Normal None, s) ->
      k < RouteJs.maxRetries ->
      (forall j, j < k -> answers_status (respond w (calls s + j)) 429) ->
      respond w (calls s + k) = Resolved resp ->
      ok resp = true ->
      body resp = Parsed data ->
      RouteJs.extract p data = Normal (JString t) ->
      t <> "" ->
      exists events,
        RouteJs.generateText w (pre ++ p :: post)%list prompt context s0
        = (Normal (GenerationResult (JString t) (Provider.name p)
                     (Provider.model p)),
           record s events)
        /\ fetches events = repeat p (k + 1)
        /\ sleeps events = map (fun i => (1000 * Z.of_nat i)%Z) (seq 1 k))
  /\
  (forall (pre : list Provider.t) (p : Provider.t) (post : list Provider.t)
          (s0 s : State) (k : nat) (resp : Response) (data : Value)
          (t : string),
      Part000.each_provider w pre prompt context s0 = (Normal None, s) ->
      k < Part000.maxRetries ->
      (forall j, j < k -> answers_status (respond w (calls s + j)) 429) ->
      respond w (calls s + k) = Resolved resp ->
      ok resp = true ->
      body resp = Parsed data ->
      Part000.extractResponse p data = Normal (JString t) ->
      trim t <> "" ->
      exists events,
        Part000.generateText w (pre ++ p :: post)%list prompt context s0
        = (Normal (GenerationResult (JString t) (Provider.name p)
                     (Provider.model p)),
           record s events)
        /\ fetches events = repeat p (k + 1)
        /\ sleeps events = map (fun i => (1000 * Z.of_nat i)%Z) (seq 1 k)).
Proof.
  split.
  - intros pre p post s0 s k resp data t Hpre Hk H429 E Hok Hbody Hex Hne.
    exists (backoff_log RouteJs.retryDelay p
              (RouteJs.makePayload p prompt context) 1 k).
    rewrite fetches_backoff_log, sleeps_backoff_log, Nat.add_1_r.
    repeat split.
    rewrite route_generateText_unfold, (route_each_app w prompt context
      pre (p :: post) s0 s Hpre).
    erewrite route_each_accept; [reflexivity| |now apply nonempty_truthy].
    unfold RouteJs.call.
    rewrite (route_call_loop_backoff w p _ resp data k); auto.
    now rewrite Hex.
  - intros pre p post s0 s k resp data t Hpre Hk H429 E Hok Hbody Hex Hne.
    destruct (part000_formatPayload_openai p) as [payload Hpay].
    { apply (part000_extract_truthy_openai p data (JString t) Hex).
      apply nonempty_truthy. now apply trim_nonempty. }
    exists (backoff_log Part000.retryDelay p (Some payload) 1 k).
    rewrite fetches_backoff_log, sleeps_backoff_log, Nat.add_1_r.
    repeat split.
    assert (Hgen : exists q l, (pre ++ p :: post)%list = q :: l)
      by (destruct pre; cbn; eauto).
    destruct Hgen as (q & l & Hgen). rewrite Hgen.
    rewrite part000_generateText_unfold. rewrite <- Hgen.
    rewrite (part000_each_app w prompt context pre (p :: post) s0 s Hpre).
    erewrite part000_each_accept;
      [reflexivity| |now apply part000_usable_text].
    rewrite (part000_callProvider_unfold p payload s Hpay).
    now apply part000_callProvider_loop_backoff
      with (resp := resp) (data := data).
Qed.

(** C5, as amended.  If the first call of the run, made to the first
    provider, is answered by a success from whose body the edition
    extracts the string [t], where [t] is not empty (route.ts) or is
    not empty once trimmed (template edition), then [generateText]
    returns [t] under that provider's name and model, and that one call
    is all that happened: no other provider is invoked. *)
Theorem first_success_short_circuits :
  (forall (p : Provider.t) (rest : list Provider.t) (s : State)
          (resp : Response) (data : Value) (t : string),
      respond w (calls s) = Resolved resp ->
      ok resp = true ->
      body resp = Parsed data ->
      RouteJs.extract p data = Normal (JString t) ->
      t <> "" ->
      RouteJs.generateText w (p :: rest) prompt context s
      = (Normal (GenerationResult (JString t) (Provider.name p)
                   (Provider.model p)),
         observe s (Fetch p (RouteJs.makePayload p prompt context))))
  /\
  (forall (p : Provider.t) (rest : list Provider.t) (s : State)
          (resp : Response) (data : Value) (t : string),
      respond w (calls s) = Resolved resp ->
      ok resp = true ->
      body resp = Parsed data ->
      Part000.extractResponse p data = Normal (JString t) ->
      trim t <> "" ->
      exists payload,
        Part000.formatPayload p prompt context = Normal payload
        /\ Part000.generateText w (p :: rest) prompt context s
           = (Normal (GenerationResult (JString t) (Provider.name p)
                        (Provider.model p)),
              observe s (Fetch p (Some payload)))).
Proof.
  split.
  - intros p rest s resp data t E Hok Hbody Hex Hne.
    rewrite route_generateText_unfold.
    erewrite route_each_accept; [reflexivity| |now apply nonempty_truthy].
    unfold RouteJs.call.
    change RouteJs.maxRetries with 3.
    rewrite (route_attempt_success w p _ 2 1 s resp data E Hok Hbody).
    now rewrite Hex.
  - intros p rest s resp data t E Hok Hbody Hex Hne.
    destruct (part000_formatPayload_openai p) as [payload Hpay].
    { apply (part000_extract_truthy_openai p data (JString t) Hex).
      apply nonempty_truthy. now apply trim_nonempty. }
    exists payload. split; [assumption|].
    rewrite part000_generateText_unfold.
    erewrite part000_each_accept;
      [reflexivity| |now apply part000_usable_text].
    rewrite (part000_callProvider_unfold p payload s Hpay).
    change Part000.maxRetries with 3.
    now apply part000_attempt_success with (resp := resp) (data := data).
Qed.

End Backoff.

(* ================================================================== *)
(** ** Failed attempts: transport errors and error statuses            *)
(* ================================================================== *)

Section Failures.
Context `{Host}.
Variable w : World.
Variable prompt : string.
Variable context : Context.t.

Lemma rejected_attempt_error (p : Provider.t) (o : FetchOutcome) :
  is_rejected o -> exists e, part000_attempt_error p o = Some e.
Proof. intros [e ->]. now exists e. Qed.

Lemma failure_attempt_error (p : Provider.t) (o : FetchOutcome) :
  answers_failure o -> exists e, part000_attempt_error p o = Some e.
Proof.
  intros (r & -> & Hok & Hst). apply Z.eqb_neq in Hst.
  unfold part000_attempt_error. rewrite Hok, Hst. cbn. eauto.
Qed.

(** Failing on every attempt left uses up the budget: a call per
    attempt, a wait after each but the last, then the last exception
    leaves [callProvider]. *)
Lemma part000_callProvider_loop_exhausted (p : Provider.t)
  (payload : Payload) (n : nat) :
  forall (attempt : nat) (s : State),
    attempt + n = S Part000.maxRetries ->
    0 < n ->
    (forall j, j < n ->
       exists e, part000_attempt_error p (respond w (calls s + j)) = Some e) ->
    exists e,
      Part000.callProvider_loop w p payload n attempt s
      = (Thrown e,
         record s (exhausted_log Part000.retryDelay p (Some payload)
                     attempt n)).
Proof.
  induction n as [|n IH]; intros attempt s Hsum Hpos Hfail; [lia|].
  destruct n as [|n].
  - destruct (Hfail 0) as [e He]; [lia|]. rewrite Nat.add_0_r in He.
    exists e. replace attempt with Part000.maxRetries by lia.
    now apply part000_attempt_last.
  - destruct (Hfail 0) as [e He]; [lia|]. rewrite Nat.add_0_r in He.
    destruct (IH (S attempt)
                (record s [Fetch p (Some payload);
                           Sleep (Part000.retryDelay * Z.of_nat attempt)]))
      as [e' He']; [lia|lia| |].
    + intros j Hj. cbn [record fold_left observe calls].
      replace (S (calls s) + j) with (calls s + S j) by lia.
      apply Hfail; lia.
    + exists e'.
      rewrite (part000_attempt_retry w p payload (S n) attempt s e He)
        by lia.
      exact He'.
Qed.

Lemma part000_callProvider_exhausted (p : Provider.t) (payload : Payload)
  (s : State) :
  Part000.formatPayload p prompt context = Normal payload ->
  (forall j, j < Part000.maxRetries ->
     exists e, part000_attempt_error p (respond w (calls s + j)) = Some e) ->
  exists e,
    Part000.callProvider w p prompt context s
    = (Thrown e,
       record s [Fetch p (Some payload); Sleep 1000;
                 Fetch p (Some payload); Sleep 2000;
                 Fetch p (Some payload)]).
Proof.
  intros Hpay Hfail.
  rewrite (part000_callProvider_unfold w prompt context p payload s Hpay).
  apply (part000_callProvider_loop_exhausted p payload Part000.maxRetries 1 s);
    [reflexivity|unfold Part000.maxRetries; lia|exact Hfail].
Qed.

(** C6, as amended.  In the template edition a rejected [fetch]
    (transport error, timeout) on an attempt that is not the last is
    handled as a 429 is: wait [retryDelay * attempt], then try again;
    when all [maxRetries] attempts are rejected, three calls and the
    waits 1000 and 2000 have happened, and the loop over the providers
    goes on with the next one.  In the JS edition of route.ts a rejected
    [fetch] ends [call] at once: one call, no wait, and the loop goes on
    with the next provider. *)
Theorem transport_error_handling :
  (forall (p : Provider.t) (payload : Payload) (remaining attempt : nat)
          (s : State),
      attempt <> Part000.maxRetries ->
      is_rejected (respond w (calls s))
      \/ answers_status (respond w (calls s)) 429 ->
      Part000.callProvider_loop w p payload (S remaining) attempt s
      = Part000.callProvider_loop w p payload remaining (S attempt)
          (record s [Fetch p (Some payload);
                     Sleep (1000 * Z.of_nat attempt)]))
  /\
  (forall (p : Provider.t) (rest : list Provider.t) (payload : Payload)
          (s : State),
      Part000.formatPayload p prompt context = Normal payload ->
      (forall j, j < Part000.maxRetries ->
         is_rejected (respond w (calls s + j))) ->
      exists e,
        Part000.callProvider w p prompt context s
        = (Thrown e,
           record s [Fetch p (Some payload); Sleep 1000;
                     Fetch p (Some payload); Sleep 2000;
                     Fetch p (Some payload)])
        /\ Part000.each_provider w (p :: rest) prompt context s
           = Part000.each_provider w rest prompt context
               (record s [Fetch p (Some payload); Sleep 1000;
                          Fetch p (Some payload); Sleep 2000;
                          Fetch p (Some payload);
                          Warn ("Provider " ++ Provider.name p ++ " failed:")
                            e]))
  /\
  (forall (p : Provider.t) (rest : list Provider.t) (s : State) (e : Exn),
      respond w (calls s) = Rejected e ->
      RouteJs.call w p prompt context s
      = (Thrown e,
         observe s (Fetch p (RouteJs.makePayload p prompt context)))
      /\ RouteJs.each_provider w (p :: rest) prompt context s
         = RouteJs.each_provider w rest prompt context
             (record s [Fetch p (RouteJs.makePayload p prompt context);
                        Warn ("LLM " ++ Provider.name p ++ " failed:") e])).
Proof.
  split; [|split].
  - intros p payload remaining attempt s Hne [Hrej|H429].
    + destruct (rejected_attempt_error p _ Hrej) as [e He].
      now apply part000_attempt_retry with (e := e).
    + now apply part000_attempt_429.
  - intros p rest payload s Hpay Hrej.
    destruct (part000_callProvider_exhausted p payload s Hpay) as [e He].
    { intros j Hj. apply rejected_attempt_error. now apply Hrej. }
    exists e. split; [exact He|].
    now rewrite (part000_each_skip w prompt context p rest s _ e He).
  - intros p rest s e E.
    assert (Hcall : RouteJs.call w p prompt context s
                    = (Thrown e,
                       observe s
                         (Fetch p (RouteJs.makePayload p prompt context)))).
    { unfold RouteJs.call. change RouteJs.maxRetries with 3.
      now apply route_attempt_rejected. }
    split; [exact Hcall|].
    now rewrite (route_each_skip w prompt context p rest s _ e Hcall).
Qed.

(** C7, as amended.  In the JS edition of route.ts an answer that is
    neither a success nor a 429 ends [call] at once -- one call, no
    wait -- and the loop goes on with the next provider.  In the
    template edition such an answer on an attempt that is not the last
    is followed by a wait of [retryDelay * attempt] and another attempt;
    when all [maxRetries] attempts are answered so, three calls and the
    waits 1000 and 2000 have happened before the loop goes on with the
    next provider.  In both editions [generateText] completes
    normally. *)
Theorem error_status_handling :
  (forall (p : Provider.t) (rest : list Provider.t) (s : State)
          (r : Response),
      respond w (calls s) = Resolved r ->
      ok r = false ->
      status r <> 429%Z ->
      RouteJs.each_provider w (p :: rest) prompt context s
      = RouteJs.each_provider w rest prompt context
          (record s [Fetch p (RouteJs.makePayload p prompt context);
                     Warn ("LLM " ++ Provider.name p ++ " failed:")
                       (Error (Provider.name p ++ " HTTP "
                               ++ show_int (status r)))])
      /\ exists v s',
           RouteJs.generateText w (p :: rest) prompt context s
           = (Normal v, s'))
  /\
  (forall (p : Provider.t) (payload : Payload) (remaining attempt : nat)
          (s : State),
      attempt <> Part000.maxRetries ->
      answers_failure (respond w (calls s)) ->
      Part000.callProvider_loop w p payload (S remaining) attempt s
      = Part000.callProvider_loop w p payload remaining (S attempt)
          (record s [Fetch p (Some payload);
                     Sleep (1000 * Z.of_nat attempt)]))
  /\
  (forall (p : Provider.t) (rest : list Provider.t) (payload : Payload)
          (s : State),
      Part000.formatPayload p prompt context = Normal payload ->
      (forall j, j < Part000.maxRetries ->
         answers_failure (respond w (calls s + j))) ->
      (exists e,
         Part000.each_provider w (p :: rest) prompt context s
         = Part000.each_provider w rest prompt context
             (record s [Fetch p (Some payload); Sleep 1000;
                        Fetch p (Some payload); Sleep 2000;
                        Fetch p (Some payload);
                        Warn ("Provider " ++ Provider.name p ++ " failed:")
                          e]))
      /\ exists v s',
           Part000.generateText w (p :: rest) prompt context s
           = (Normal v, s')).
Proof.
  split; [|split].
  - intros p rest s r E Hok Hst. split.
    + assert (Hcall : RouteJs.call w p prompt context s
                      = (Thrown (Error (Provider.name p ++ " HTTP "
                                        ++ show_int (status r))),
                         observe s
                           (Fetch p (RouteJs.makePayload p prompt context)))).
      { unfold RouteJs.call. change RouteJs.maxRetries with 3.
        now apply route_attempt_failure. }
      now rewrite (route_each_skip w prompt context p rest s _ _ Hcall).
    + apply route_generateText_normal.
  - intros p payload remaining attempt s Hne Hfail.
    destruct (failure_attempt_error p _ Hfail) as [e He].
    now apply part000_attempt_retry with (e := e).
  - intros p rest payload s Hpay Hfail. split.
    + destruct (part000_callProvider_exhausted p payload s Hpay) as [e He].
      { intros j Hj. apply failure_attempt_error. now apply Hfail. }
      exists e.
      now rewrite (part000_each_skip w prompt context p rest s _ e He).
    + apply part000_generateText_normal.
Qed.

End Failures.

(* ================================================================== *)
(** ** The local fallback                                              *)
(* ================================================================== *)

Lemma pickRandom_member (r : Q) (array : list string) :
  (0 <= r)%Q -> (r < 1)%Q -> array <> [] ->
  exists t, Part000.pickRandom r array = JString t /\ In t array.
Proof.
  intros H0 H1 Hne. unfold Part000.pickRandom.
  set (n := Z.of_nat (List.length array)).
  assert (Hn : (0 < n)%Z) by (destruct array; [congruence|subst n; cbn; lia]).
  assert (Hlo : (0 <= Qfloor (r * inject_Z n))%Z).
  { change 0%Z with (Qfloor (inject_Z 0)) at 1.
    apply Qfloor_resp_le. apply Qmult_le_0_compat; [exact H0|].
    change 0%Q with (inject_Z 0). rewrite <- Zle_Qle. lia. }
  assert (Hhi : (Qfloor (r * inject_Z n) < n)%Z).
  { rewrite Zlt_Qlt.
    apply Qle_lt_trans with (y := (r * inject_Z n)%Q); [apply Qfloor_le|].
    apply Qlt_le_trans with (y := (1 * inject_Z n)%Q).
    - apply Qmult_lt_compat_r; [|exact H1].
      change 0%Q with (inject_Z 0). rewrite <- Zlt_Qlt. exact Hn.
    - rewrite Qmult_1_l. apply Qle_refl. }
  destruct (Z.ltb_spec (Qfloor (r * inject_Z n)) 0) as [Hneg|_]; [lia|].
  destruct (nth_error array (Z.to_nat (Qfloor (r * inject_Z n)))) as [t|] eqn:E.
  - exists t. split; [reflexivity|]. eapply nth_error_In; eassumption.
  - apply nth_error_None in E. subst n. lia.
Qed.

Lemma pickup_templates_nonempty (context : Context.t) (t : string) :
  In t (Part000.pickup_templates context) -> t <> "".
Proof.
  unfold Part000.pickup_templates.
  intros [<-|[<-|[<-|[]]]]; cbn [append]; discriminate.
Qed.

Section Fallback.
Context `{Host}.

Lemma getFallbackResponse_text (r : Q) (prompt : string)
  (context : Context.t) :
  (0 <= r)%Q -> (r < 1)%Q ->
  exists t,
    Part000.getFallbackResponse r prompt context = JString t /\ t <> "".
Proof.
  intros H0 H1. unfold Part000.getFallbackResponse.
  destruct (type_is context "pickup_line").
  - destruct (pickRandom_member r (Part000.pickup_templates context) H0 H1)
      as (t & E & Hin); [discriminate|].
    exists t. split; [exact E|].
    now apply (pickup_templates_nonempty context).
  - destruct (type_is context "flirty_reply").
    + destruct (includes (toLowerCase prompt) "hello"
                || includes (toLowerCase prompt) "hi").
      * eexists; split; [reflexivity|cbn [append]; discriminate].
      * destruct (includes (toLowerCase prompt) "thank");
          (eexists; split; [reflexivity|cbn [append]; discriminate]).
    + eexists; split; [reflexivity|discriminate].
Qed.

(** C8, as amended.  In the template edition the local fallback, for
    [context.type = "pickup_line"], returns one of the three templates,
    whose placeholder is [context.userInfo] when that is present and not
    empty and the word "you", "beautiful" or "gorgeous" otherwise; for a
    type that is neither "pickup_line" nor "flirty_reply" it returns the
    fixed generic string; in every case the text is not empty.  In the
    JS edition of route.ts [fallback] returns the one fixed string
    "🤖 (fallback response)" for every prompt and context. *)
Theorem local_fallback_rendering :
  (forall (r : Q) (prompt : string) (context : Context.t),
      type_is context "pickup_line" = true ->
      (0 <= r)%Q -> (r < 1)%Q ->
      exists t,
        Part000.getFallbackResponse r prompt context = JString t
        /\ In t (Part000.pickup_templates context)
        /\ t <> "")
  /\ (forall (context : Context.t),
        Part000.pickup_templates context
        = [ "Just like Shah Rukh Khan in his movies, "
              ++ str_or (Context.userInfo context) "you"
              ++ " have made my heart skip a beat!";
            "If I were to write a love story, "
              ++ str_or (Context.userInfo context) "beautiful"
              ++ ", you would be both the beginning and the happy ending.";
            "Main hoon na, "
              ++ str_or (Context.userInfo context) "gorgeous"
              ++ "? Because like SRK, I promise to always be there for you." ]
        /\ (forall d, Context.userInfo context = None
                      \/ Context.userInfo context = Some "" ->
                      str_or (Context.userInfo context) d = d)
        /\ (forall d u, Context.userInfo context = Some u -> u <> "" ->
                        str_or (Context.userInfo context) d = u))
  /\ (forall (r : Q) (prompt : string) (context : Context.t),
        type_is context "pickup_line" = false ->
        type_is context "flirty_reply" = false ->
        Part000.getFallbackResponse r prompt context
        = JString "I'm here to help! Let me know what you'd like to know.")
  /\ (forall (r : Q) (prompt : string) (context : Context.t),
        (0 <= r)%Q -> (r < 1)%Q ->
        exists t,
          Part000.getFallbackResponse r prompt context = JString t
          /\ t <> "")
  /\ (forall (prompt : string) (context : Context.t),
        RouteJs.fallback prompt context = "🤖 (fallback response)"
        /\ RouteJs.fallback prompt context <> "").
Proof.
  repeat apply conj.
  - intros r prompt context Hty H0 H1.
    unfold Part000.getFallbackResponse. rewrite Hty.
    destruct (pickRandom_member r (Part000.pickup_templates context) H0 H1)
      as (t & E & Hin); [discriminate|].
    exists t. repeat split; try assumption.
    now apply (pickup_templates_nonempty context).
  - intros context. repeat split.
    + intros d [->| ->]; reflexivity.
    + intros d u -> Hu. cbn.
      destruct (String.eqb_spec u ""); [contradiction|reflexivity].
  - intros r prompt context Hp Hf.
    unfold Part000.getFallbackResponse. now rewrite Hp, Hf.
  - intros r prompt context. apply getFallbackResponse_text.
  - intros prompt context. split; [reflexivity|discriminate].
Qed.

End Fallback.

(* ================================================================== *)
(** ** Which runs end in the fallback                                  *)
(* ================================================================== *)

Lemma any_productive_app
  (extractor : Provider.t -> Value -> Completion Value)
  (accepts : Value -> bool) (w : World) (l1 l2 : list Provider.t) :
  forall n,
    any_productive extractor accepts w n (l1 ++ l2)
    = any_productive extractor accepts w n l1
      || any_productive extractor accepts w (n + List.length l1) l2.
Proof.
  induction l1 as [|p l1 IH]; intros n; cbn.
  - now rewrite Nat.add_0_r.
  - rewrite IH, orb_assoc. now replace (S n + List.length l1)
      with (n + S (List.length l1)) by lia.
Qed.

Lemma part000_accepts_text (v : Value) :
  part000_accepts v = true ->
  exists t, v = JString t /\ trim t <> "".
Proof.
  unfold part000_accepts, Part000.usable, call_trim, cbind.
  destruct v as [| |b|q|t|l|l]; cbn [truthy]; try discriminate.
  - destruct b; discriminate.
  - destruct (negb (Qeq_bool q 0)); discriminate.
  - destruct (negb (t =? "")); [|discriminate].
    intros Hlen. exists t. split; [reflexivity|].
    intros E. rewrite E in Hlen. discriminate.
Qed.

Section Productive.
Context `{Host}.
Variable w : World.
Variable prompt : string.
Variable context : Context.t.

(** *** route.ts, JS edition *)

Lemma route_call_loop_productive (p : Provider.t)
  (payload : option Payload) (remaining : nat) :
  forall (i : nat) (s : State),
    exists c events,
      RouteJs.call_loop w p payload remaining i s = (c, record s events)
      /\ accepted route_accepts c
         = any_productive RouteJs.extract route_accepts w (calls s)
             (fetches events).
Proof.
  induction remaining as [|remaining IH]; intros i s.
  - exists (Normal JUndefined), []. split; reflexivity.
  - destruct (respond w (calls s)) as [e|r] eqn:E.
    + exists (Thrown e), [Fetch p payload]. split.
      * now apply route_attempt_rejected.
      * cbn. unfold productive. now rewrite E.
    + destruct (ok r) eqn:Hok.
      * destruct (body r) as [|data] eqn:Hb.
        -- exists (Thrown (SyntaxError "JSON.parse")), [Fetch p payload].
           split; [now apply route_attempt_unparseable with (resp := r)|].
           cbn. unfold productive. now rewrite E, Hok, Hb.
        -- exists (RouteJs.extract p data), [Fetch p payload].
           split; [now apply route_attempt_success with (resp := r)|].
           cbn [fetches any_productive]. unfold productive.
           rewrite E, Hok, Hb. cbn [andb].
           destruct (RouteJs.extract p data); cbn;
             now rewrite ?orb_false_r.
      * destruct (Z.eq_dec (status r) 429) as [Hst|Hst].
        -- rewrite route_attempt_429 by (exists r; auto).
           destruct (IH (S i)
                       (record s [Fetch p payload;
                                  Sleep (RouteJs.retryDelay * Z.of_nat i)]))
             as (c & events & Eq & Hacc).
           exists c,
             (Fetch p payload :: Sleep (RouteJs.retryDelay * Z.of_nat i)
                :: events).
           split; [exact Eq|].
           cbn [fetches any_productive]. unfold productive at 1.
           rewrite E, Hok. cbn [andb orb]. exact Hacc.
        -- exists (Thrown (Error (Provider.name p ++ " HTTP "
                                  ++ show_int (status r)))),
             [Fetch p payload].
           split; [now apply route_attempt_failure|].
           cbn. unfold productive. now rewrite E, Hok.
Qed.

Lemma route_each_provider_productive (providers : list Provider.t) :
  forall s,
    exists r events,
      RouteJs.each_provider w providers prompt context s
      = (Normal r, record s events)
      /\ is_some r
         = any_productive RouteJs.extract route_accepts w (calls s)
             (fetches events)
      /\ (forall result, r = Some result ->
            exists p out,
              In p providers /\ truthy out = true
              /\ result = GenerationResult out (Provider.name p)
                            (Provider.model p)).
Proof.
  induction providers as [|p rest IH]; intros s.
  - exists None, []. repeat split. discriminate.
  - destruct (route_call_loop_productive p
                (RouteJs.makePayload p prompt context) RouteJs.maxRetries 1 s)
      as (c & ev1 & Ecall & Hacc).
    fold (RouteJs.call w p prompt context s) in Ecall.
    destruct c as [out|e].
    + cbn [accepted] in Hacc. unfold route_accepts in Hacc at 1.
      destruct (truthy out) eqn:Ht.
      * exists (Some (GenerationResult out (Provider.name p)
                        (Provider.model p))), ev1.
        split; [now apply route_each_accept|]. split; [exact Hacc|].
        intros result [= <-]. exists p, out. cbn; auto.
      * rewrite (route_each_decline w prompt context p rest s _ out Ecall Ht).
        destruct (IH (record s ev1)) as (r & ev2 & Eq & Hsome & Hres).
        exists r, (ev1 ++ ev2)%list. rewrite record_app. split; [exact Eq|].
        split.
        -- rewrite fetches_app, any_productive_app, <- Hacc.
           rewrite calls_record in Hsome. exact Hsome.
        -- intros result Hr. destruct (Hres result Hr) as (q & o & Hin & Hq).
           exists q, o. cbn; auto.
    + rewrite (route_each_skip w prompt context p rest s _ e Ecall).
      destruct (IH (observe (record s ev1)
                      (Warn ("LLM " ++ Provider.name p ++ " failed:") e)))
        as (r & ev2 & Eq & Hsome & Hres).
      exists r,
        (ev1 ++ Warn ("LLM " ++ Provider.name p ++ " failed:") e :: ev2)%list.
      rewrite record_app. split; [exact Eq|]. split.
      * rewrite fetches_app, any_productive_app, <- Hacc.
        cbn [fetches accepted orb].
        cbn [observe calls] in Hsome. rewrite calls_record in Hsome.
        exact Hsome.
      * intros result Hr. destruct (Hres result Hr) as (q & o & Hin & Hq).
        exists q, o. cbn; auto.
Qed.

(** *** The template edition *)

Lemma part000_error_unproductive (p : Provider.t) (n : nat) (e : Exn) :
  part000_attempt_error p (respond w n) = Some e ->
  productive Part000.extractResponse part000_accepts w n p = false.
Proof.
  unfold part000_attempt_error, productive.
  destruct (respond w n) as [e0|r]; [reflexivity|].
  destruct (ok r); cbn [negb andb]; [|reflexivity].
  destruct (body r) as [|data]; [reflexivity|].
  destruct (Part000.extractResponse p data); [discriminate|reflexivity].
Qed.

Lemma part000_attempt_cases (p : Provider.t) (o : FetchOutcome) :
  (exists e, part000_attempt_error p o = Some e)
  \/ answers_status o 429
  \/ (exists r data v,
        o = Resolved r /\ ok r = true /\ body r = Parsed data
        /\ Part000.extractResponse p data = Normal v).
Proof.
  destruct o as [e|r]; [left; now exists e|].
  unfold part000_attempt_error.
  destruct (ok r) eqn:Hok; cbn [negb].
  - destruct (body r) as [|data] eqn:Hb; [left; eauto|].
    destruct (Part000.extractResponse p data) as [v|e] eqn:Hex;
      [|left; eauto].
    right; right. exists r, data, v. auto.
  - destruct (Z.eqb_spec (status r) 429) as [Hst|Hst]; [|left; eauto].
    right; left. exists r. auto.
Qed.

Lemma part000_callProvider_loop_productive (p : Provider.t)
  (payload : Payload) (remaining : nat) :
  forall (attempt : nat) (s : State),
    exists c events,
      Part000.callProvider_loop w p payload remaining attempt s
      = (c, record s events)
      /\ accepted part000_accepts c
         = any_productive Part000.extractResponse part000_accepts w
             (calls s) (fetches events).
Proof.
  induction remaining as [|remaining IH]; intros attempt s.
  - exists (Normal JUndefined), []. split; reflexivity.
  - destruct (part000_attempt_cases p (respond w (calls s)))
      as [[e He]|[H429|(r & data & v & E & Hok & Hb & Hex)]].
    + pose proof (part000_error_unproductive p (calls s) e He) as Hun.
      destruct (Nat.eq_dec attempt Part000.maxRetries) as [->|Hne].
      * exists (Thrown e), [Fetch p (Some payload)]. split.
        -- now apply part000_attempt_last.
        -- cbn. now rewrite Hun.
      * rewrite (part000_attempt_retry w p payload remaining attempt s e He Hne).
        destruct (IH (S attempt)
                    (record s [Fetch p (Some payload);
                               Sleep (Part000.retryDelay
                                      * Z.of_nat attempt)]))
          as (c & events & Eq & Hacc).
        exists c,
          (Fetch p (Some payload)
             :: Sleep (Part000.retryDelay * Z.of_nat attempt) :: events).
        split; [exact Eq|].
        cbn [fetches any_productive]. rewrite Hun. exact Hacc.
    + rewrite (part000_attempt_429 w p payload remaining attempt s H429).
      destruct (IH (S attempt)
                  (record s [Fetch p (Some payload);
                             Sleep (Part000.retryDelay * Z.of_nat attempt)]))
        as (c & events & Eq & Hacc).
      exists c,
        (Fetch p (Some payload)
           :: Sleep (Part000.retryDelay * Z.of_nat attempt) :: events).
      split; [exact Eq|].
      cbn [fetches any_productive]. unfold productive at 1.
      destruct H429 as (r & -> & Hst).
      rewrite (status_429_not_ok r Hst). exact Hacc.
    + exists (Normal v), [Fetch p (Some payload)]. split.
      * now apply part000_attempt_success with (resp := r) (data := data).
      * cbn. unfold productive. rewrite E, Hok, Hb, Hex. cbn.
        now rewrite orb_false_r.
Qed.

Lemma part000_callProvider_productive (p : Provider.t) (s : State) :
  exists c events,
    Part000.callProvider w p prompt context s = (c, record s events)
    /\ accepted part000_accepts c
       = any_productive Part000.extractResponse part000_accepts w
           (calls s) (fetches events).
Proof.
  unfold Part000.callProvider, bind, lift.
  destruct (Part000.formatPayload p prompt context) as [payload|e].
  - apply part000_callProvider_loop_productive.
  - exists (Thrown e), []. split; reflexivity.
Qed.

Lemma part000_each_usable_throws (p : Provider.t) (rest : list Provider.t)
  (s s1 : State) (out : Value) (e : Exn) :
  Part000.callProvider w p prompt context s = (Normal out, s1) ->
  Part000.usable out = Thrown e ->
  Part000.each_provider w (p :: rest) prompt context s
  = Part000.each_provider w rest prompt context
      (observe s1 (Warn ("Provider " ++ Provider.name p ++ " failed:") e)).
Proof.
  intros E Hu. cbn [Part000.each_provider]; unfold bind, try_catch, lift.
  rewrite E, Hu. reflexivity.
Qed.

Lemma part000_each_provider_productive (providers : list Provider.t) :
  forall s,
    exists r events,
      Part000.each_provider w providers prompt context s
      = (Normal r, record s events)
      /\ is_some r
         = any_productive Part000.extractResponse part000_accepts w
             (calls s) (fetches events)
      /\ (forall result, r = Some result ->
            exists p t,
              In p providers /\ trim t <> ""
              /\ result = GenerationResult (JString t) (Provider.name p)
                            (Provider.model p)).
Proof.
  induction providers as [|p rest IH]; intros s.
  - exists None, []. repeat split. discriminate.
  - destruct (part000_callProvider_productive p s)
      as (c & ev1 & Ecall & Hacc).
    destruct c as [out|e].
    + cbn [accepted] in Hacc.
      destruct (Part000.usable out) as [[|]|e] eqn:Hu.
      * exists (Some (GenerationResult out (Provider.name p)
                        (Provider.model p))), ev1.
        split; [now apply part000_each_accept|].
        assert (Hpa : part000_accepts out = true)
          by (unfold part000_accepts; now rewrite Hu).
        split; [now rewrite <- Hacc, Hpa|].
        intros result [= <-].
        destruct (part000_accepts_text out Hpa) as (t & -> & Ht).
        exists p, t. cbn; auto.
      * rewrite (part000_each_decline w prompt context p rest s _ out
                   Ecall Hu).
        destruct (IH (record s ev1)) as (r & ev2 & Eq & Hsome & Hres).
        exists r, (ev1 ++ ev2)%list. rewrite record_app. split; [exact Eq|].
        split.
        -- rewrite fetches_app, any_productive_app, <- Hacc.
           unfold part000_accepts at 1. rewrite Hu.
           rewrite calls_record in Hsome. exact Hsome.
        -- intros result Hr. destruct (Hres result Hr) as (q & o & Hin & Hq).
           exists q, o. cbn; auto.
      * rewrite (part000_each_usable_throws p rest s _ out e Ecall Hu).
        destruct (IH (observe (record s ev1)
                        (Warn ("Provider " ++ Provider.name p ++ " failed:")
                           e)))
          as (r & ev2 & Eq & Hsome & Hres).
        exists r,
          (ev1 ++ Warn ("Provider " ++ Provider.name p ++ " failed:") e
             :: ev2)%list.
        rewrite record_app. split; [exact Eq|]. split.
        -- rewrite fetches_app, any_productive_app, <- Hacc.
           unfold part000_accepts at 1. rewrite Hu.
           cbn [fetches orb].
           cbn [observe calls] in Hsome. rewrite calls_record in Hsome.
           exact Hsome.
        -- intros result Hr. destruct (Hres result Hr) as (q & o & Hin & Hq).
           exists q, o. cbn; auto.
    + rewrite (part000_each_skip w prompt context p rest s _ e Ecall).
      destruct (IH (observe (record s ev1)
                      (Warn ("Provider " ++ Provider.name p ++ " failed:")
                         e)))
        as (r & ev2 & Eq & Hsome & Hres).
      exists r,
        (ev1 ++ Warn ("Provider " ++ Provider.name p ++ " failed:") e
           :: ev2)%list.
      rewrite record_app. split; [exact Eq|]. split.
      * rewrite fetches_app, any_productive_app, <- Hacc.
        cbn [fetches accepted orb].
        cbn [observe calls] in Hsome. rewrite calls_record in Hsome.
        exact Hsome.
      * intros result Hr. destruct (Hres result Hr) as (q & o & Hin & Hq).
        exists q, o. cbn; auto.
Qed.

End Productive.

(** The registry built from the environment names no provider
    "fallback". *)
Lemma registry_names (env : Env) :
  Forall (fun p => Provider.name p <> "fallback") (build_registry env).
Proof.
  unfold build_registry, push_if, present.
  destruct (OPENAI_API_KEY env) as [k1|];
    destruct (ANTHROPIC_API_KEY env) as [k2|];
    destruct (HF_TOKEN env) as [k3|];
    repeat match goal with
           | |- context [negb (?k =? "")] => destruct (negb (k =? ""))
           end;
    cbn; repeat constructor; discriminate.
Qed.

Section ResultInvariant.
Context `{Host}.
Variable w : World.
Variable prompt : string.
Variable context : Context.t.

Lemma route_result_invariant (providers : list Provider.t) (s : State) :
  Forall (fun p => Provider.name p <> "fallback") providers ->
  exists text provider model events,
    RouteJs.generateText w providers prompt context s
    = (Normal (GenerationResult text provider model), record s events)
    /\ truthy text = true
    /\ (provider = "fallback"
        <-> any_productive RouteJs.extract route_accepts w (calls s)
              (fetches events) = false).
Proof.
  intros Hnames.
  rewrite route_generateText_unfold.
  destruct (route_each_provider_productive w prompt context providers s)
    as (r & events & Eq & Hsome & Hres).
  rewrite Eq. destruct r as [result|].
  - destruct (Hres result eq_refl) as (p & out & Hin & Ht & ->).
    exists out, (Provider.name p), (Provider.model p), events.
    split; [reflexivity|]. split; [exact Ht|].
    rewrite Forall_forall in Hnames. specialize (Hnames p Hin).
    cbn [is_some] in Hsome. rewrite <- Hsome.
    split; [intros E; contradiction|discriminate].
  - exists (JString "🤖 (fallback response)"), "fallback", "local", events.
    split; [reflexivity|]. split; [reflexivity|].
    cbn [is_some] in Hsome. rewrite <- Hsome. split; reflexivity.
Qed.

Lemma part000_result_invariant (providers : list Provider.t) (s : State) :
  providers <> [] ->
  Forall (fun p => Provider.name p <> "fallback") providers ->
  (0 <= random w)%Q -> (random w < 1)%Q ->
  exists t provider model events,
    Part000.generateText w providers prompt context s
    = (Normal (GenerationResult (JString t) provider model),
       record s events)
    /\ t <> ""
    /\ (provider = "fallback"
        <-> any_productive Part000.extractResponse part000_accepts w
              (calls s) (fetches events) = false).
Proof.
  intros Hne Hnames H0 H1.
  destruct providers as [|p0 rest]; [contradiction|].
  rewrite part000_generateText_unfold.
  destruct (part000_each_provider_productive w prompt context
              (p0 :: rest) s)
    as (r & events & Eq & Hsome & Hres).
  rewrite Eq. destruct r as [result|].
  - destruct (Hres result eq_refl) as (p & t & Hin & Ht & ->).
    exists t, (Provider.name p), (Provider.model p), events.
    split; [reflexivity|]. split; [now apply trim_nonempty|].
    rewrite Forall_forall in Hnames. specialize (Hnames p Hin).
    cbn [is_some] in Hsome. rewrite <- Hsome.
    split; [intros E; contradiction|discriminate].
  - destruct (getFallbackResponse_text (random w) prompt context H0 H1)
      as (t & Et & Hnt).
    exists t, "fallback", "local", events. rewrite Et.
    split; [reflexivity|]. split; [exact Hnt|].
    cbn [is_some] in Hsome. rewrite <- Hsome. split; reflexivity.
Qed.


(** C2, as amended.  On the registry built from any environment: in the
    JS edition of route.ts the result's [text] is truthy (so it is not
    empty when it is a string), and in the template edition, when the
    registry is not empty, it is a string that is not empty; in both
    the result's [provider] is "fallback" exactly when no HTTP call of
    the run was answered by a success from whose body the edition
    extracts a value it accepts -- a truthy value in route.ts, a string
    that is not empty once trimmed in the template edition. *)
Theorem result_text_and_fallback_tag (env : Env) :
  (forall (s : State),
      exists text provider model events,
        RouteJs.generateText w (RouteJs.initProviders env) prompt context s
        = (Normal (GenerationResult text provider model), record s events)
        /\ truthy text = true
        /\ (provider = "fallback"
            <-> any_productive RouteJs.extract route_accepts w (calls s)
                  (fetches events) = false))
  /\
  (forall (s : State),
      Part000.initializeProviders env <> [] ->
      (0 <= random w)%Q -> (random w < 1)%Q ->
      exists t provider model events,
        Part000.generateText w (Part000.initializeProviders env) prompt
          context s
        = (Normal (GenerationResult (JString t) provider model),
           record s events)
        /\ t <> ""
        /\ (provider = "fallback"
            <-> any_productive Part000.extractResponse part000_accepts w
                  (calls s) (fetches events) = false)).
Proof.
  split.
  - intros s. apply route_result_invariant. apply registry_names.
  - intros s Hne H0 H1.
    apply part000_result_invariant; try assumption. apply registry_names.
Qed.

End ResultInvariant.

(* ================================================================== *)
(** ** Payload defaults                                                *)
(* ================================================================== *)

Lemma int_or_supplied (n d : Z) : n <> 0%Z -> int_or (Some n) d = n.
Proof. intros Hn; cbn. now destruct (Z.eqb_spec n 0). Qed.

Lemma num_or_supplied (q d : Q) : ~ (q == 0)%Q -> num_or (Some q) d = q.
Proof.
  intros Hq; cbn. destruct (Qeq_bool q 0) eqn:E; [|reflexivity].
  now apply Qeq_bool_eq in E.
Qed.

(** What the payloads carry for a supplied positive [maxTokens] and a
    supplied non-zero [temperature], and for absent fields. *)
Lemma payload_fields (prompt : string) (context : Context.t)
  (p : Provider.t) (payload : Payload) :
  RouteJs.makePayload p prompt context = Some payload
  \/ Part000.formatPayload p prompt context = Normal payload ->
  payload_max_tokens payload = int_or (Context.maxTokens context) 150
  /\ payload_temperature payload
     = num_or (Context.temperature context) (8 # 10).
Proof.
  unfold RouteJs.makePayload, Part000.formatPayload.
  destruct (Provider.name p =? "openai");
    [intros [[= <-]|[= <-]]; split; reflexivity|].
  destruct (Provider.name p =? "anthropic");
    [intros [[= <-]|[= <-]]; split; reflexivity|].
  destruct (Provider.name p =? "huggingface");
    [intros [[= <-]|[= <-]]; split; reflexivity|].
  intros [|]; discriminate.
Qed.

(** C9 (the code at the failing input).  A caller that supplies
    [temperature: 0] gets the default 0.8 in the payload of every
    provider, in both editions: [context.temperature || 0.8] takes the
    default whenever the supplied value is falsy. *)
Theorem zero_temperature_replaced_by_default (prompt key : string)
  (systemPrompt : option string) (maxTokens : option Z)
  (type userInfo name : option string) :
  let context :=
    {| Context.systemPrompt := systemPrompt;
       Context.maxTokens := maxTokens;
       Context.temperature := Some 0%Q;
       Context.type := type;
       Context.userInfo := userInfo;
       Context.name := name |} in
  Forall (fun p =>
            (exists payload,
                RouteJs.makePayload p prompt context = Some payload
                /\ payload_temperature payload = (8 # 10)%Q)
            /\ (exists payload,
                   Part000.formatPayload p prompt context = Normal payload
                   /\ payload_temperature payload = (8 # 10)%Q))
    [openai_provider key; anthropic_provider key; huggingface_provider key]
  /\ ~ (8 # 10 == 0)%Q.
Proof.
  cbv zeta. split; [|discriminate].
  repeat constructor; eexists; split; reflexivity.
Qed.

(* ================================================================== *)
(** ** Extraction                                                      *)
(* ================================================================== *)

(** C10 (the code at the failing input).  On the body [null] the
    ["openai"] branch of the extraction reads [data.choices] and throws
    a [TypeError], in all three editions; the ["huggingface"] branch of
    route.ts throws when [generated_text] is a number; and the
    ["openai"] and ["anthropic"] branches return a number when the field
    holds one. *)
Theorem extraction_not_total (host : Host) (key : string) :
  RouteJs.extract (openai_provider key) JNull = Thrown (TypeError "choices")
  /\ Part000.extractResponse (openai_provider key) JNull
     = Thrown (TypeError "choices")
  /\ RouteTs.extract_openai JNull = Thrown (TypeError "choices")
  /\ RouteJs.extract (huggingface_provider key)
       (JArray [JObject [("generated_text", JNumber 5)]])
     = Thrown (TypeError "replace")
  /\ RouteJs.extract (openai_provider key)
       (JObject [("choices",
          JArray [JObject [("message", JObject [("content", JNumber 5)])]])])
     = Normal (JNumber 5)
  /\ RouteJs.extract (anthropic_provider key)
       (JObject [("content", JArray [JObject [("text", JNumber 5)]])])
     = Normal (JNumber 5).
Proof. repeat split. Qed.

(* ================================================================== *)
(** ** Concrete runs                                                   *)
(* ================================================================== *)

(** C2, the claim as stated fails.  Template edition: the only call of
    the run is answered by a success whose extracted text, one space, is
    a string that is not empty, and yet the result is tagged "fallback".
    JS edition of route.ts: a body whose content field is the number 5
    gives a result whose [text] is that number, not a string. *)
Lemma fallback_tag_counterexample :
  let w := always (reply 200 (chat_body (JString " "))) in
  let run :=
    @Part000.generateText ascii_host w [sample_openai] "hi" pickup_context
      initial in
  productive (@Part000.extractResponse ascii_host) nonempty_text w 0
    sample_openai = true
  /\ fetches (log (snd run)) = [sample_openai]
  /\ opt_get (match fst run with Normal v => v | Thrown _ => JUndefined end)
       "provider" = JString "fallback"
  /\ fst (@RouteJs.generateText ascii_host
            (always (reply 200 (chat_body (JNumber 5)))) [sample_openai]
            "hi" pickup_context initial)
     = Normal (GenerationResult (JNumber 5) "openai" "gpt-3.5-turbo").
Proof. vm_compute. repeat split. Qed.

(** C4, the claim as stated fails.  Template edition: the provider
    answers 429 once ([k = 1 < maxRetries]) and then succeeds with the
    extracted text of one space, which is not empty; [generateText]
    does not return that provider's result but the fallback. *)
Lemma rate_limited_blank_text_counterexample :
  let w := limited 1 (reply 200 (chat_body (JString " "))) in
  let run :=
    @Part000.generateText ascii_host w [sample_openai] "hi" pickup_context
      initial in
  1 < Part000.maxRetries
  /\ respond w 0 = reply 429 Unparseable
  /\ productive (@Part000.extractResponse ascii_host) nonempty_text w 1
       sample_openai = true
  /\ fetches (log (snd run)) = [sample_openai; sample_openai]
  /\ fst run
     <> Normal (GenerationResult (JString " ") (Provider.name sample_openai)
                  (Provider.model sample_openai))
  /\ opt_get (match fst run with Normal v => v | Thrown _ => JUndefined end)
       "provider" = JString "fallback".
Proof.
  vm_compute. repeat split; try discriminate.
  constructor. constructor.
Qed.

(** C5, the claim as stated fails.  Template edition: the first provider
    yields the text of one space, which is not empty, on its first
    attempt; [generateText] does not return it and goes on to call the
    second provider. *)
Lemma first_success_blank_counterexample :
  let w := always (reply 200 (chat_body (JString " "))) in
  let run :=
    @Part000.generateText ascii_host w [sample_openai; sample_anthropic]
      "hi" pickup_context initial in
  productive (@Part000.extractResponse ascii_host) nonempty_text w 0
    sample_openai = true
  /\ fetches (log (snd run)) = [sample_openai; sample_anthropic]
  /\ fst run
     <> Normal (GenerationResult (JString " ") (Provider.name sample_openai)
                  (Provider.model sample_openai)).
Proof. vm_compute. repeat split; discriminate. Qed.

(** C6, the claim as stated fails.  JS edition of route.ts: when every
    [fetch] times out, the provider is called once, with no wait and no
    second attempt, not [maxRetries] times. *)
Lemma transport_error_not_retried_counterexample :
  let run :=
    @RouteJs.generateText ascii_host (always (Rejected timeout_error))
      [sample_openai] "hi" pickup_context initial in
  fetches (log (snd run)) = [sample_openai]
  /\ sleeps (log (snd run)) = []
  /\ List.length (fetches (log (snd run))) <> RouteJs.maxRetries.
Proof. vm_compute. repeat split; discriminate. Qed.

(** C7, the claim as stated fails.  Template edition: when every answer
    is HTTP 500, the provider is not skipped at once: it is called three
    times, with waits of 1000 and 2000 in between. *)
Lemma error_status_retried_counterexample :
  let run :=
    @Part000.generateText ascii_host (always (reply 500 Unparseable))
      [sample_openai] "hi" pickup_context initial in
  fetches (log (snd run)) = [sample_openai; sample_openai; sample_openai]
  /\ sleeps (log (snd run)) = [1000%Z; 2000%Z]
  /\ List.length (fetches (log (snd run))) <> 1.
Proof. vm_compute. repeat split; discriminate. Qed.

(** C8, the claim as stated fails.  JS edition of route.ts: for
    ["pickup_line"] the fallback text is none of the templates, and for
    a context without a type it is not the generic helpful-assistant
    string. *)
Lemma route_fallback_counterexample :
  ~ In (RouteJs.fallback "hi" pickup_context)
      (Part000.pickup_templates pickup_context)
  /\ RouteJs.fallback "hi" Context.empty <> Part000.generic_fallback.
Proof.
  split; [|discriminate].
  intros [E|[E|[E|[]]]]; discriminate.
Qed.

(** *** The theorems at concrete inputs *)

Lemma result_text_and_fallback_tag_witness :
  (exists text provider model events,
      @RouteJs.generateText ascii_host (limited 3 hello)
        (RouteJs.initProviders sample_env) "hi" pickup_context initial
      = (Normal (GenerationResult text provider model),
         record initial events)
      /\ truthy text = true
      /\ (provider = "fallback"
          <-> any_productive (@RouteJs.extract ascii_host) route_accepts
                (limited 3 hello) (calls initial) (fetches events) = false))
  /\ (exists t provider model events,
        @Part000.generateText ascii_host (limited 3 hello)
          (Part000.initializeProviders sample_env) "hi" pickup_context
          initial
        = (Normal (GenerationResult (JString t) provider model),
           record initial events)
        /\ t <> ""
        /\ (provider = "fallback"
            <-> any_productive (@Part000.extractResponse ascii_host)
                  part000_accepts (limited 3 hello) (calls initial)
                  (fetches events) = false)).
Proof.
  destruct (@result_text_and_fallback_tag ascii_host (limited 3 hello) "hi"
              pickup_context sample_env) as [Hroute Hpart].
  split.
  - apply Hroute.
  - apply Hpart.
    + discriminate.
    + discriminate.
    + reflexivity.
Defined.

Lemma rate_limited_then_success_witness :
  (exists events,
      @RouteJs.generateText ascii_host (limited 2 hello)
        ([] ++ sample_openai :: [sample_anthropic])%list "hi" pickup_context
        initial
      = (Normal (GenerationResult (JString "Hello")
                   (Provider.name sample_openai)
                   (Provider.model sample_openai)),
         record initial events)
      /\ fetches events = repeat sample_openai (2 + 1)
      /\ sleeps events = map (fun i => (1000 * Z.of_nat i)%Z) (seq 1 2))
  /\ (exists events,
        @Part000.generateText ascii_host (limited 2 hello)
          ([] ++ sample_openai :: [sample_anthropic])%list "hi"
          pickup_context initial
        = (Normal (GenerationResult (JString "Hello")
                     (Provider.name sample_openai)
                     (Provider.model sample_openai)),
           record initial events)
        /\ fetches events = repeat sample_openai (2 + 1)
        /\ sleeps events = map (fun i => (1000 * Z.of_nat i)%Z) (seq 1 2)).
Proof.
  destruct (@rate_limited_then_success ascii_host (limited 2 hello) "hi"
              pickup_context) as [Hroute Hpart].
  assert (H429 : forall j, j < 2 ->
            answers_status (respond (limited 2 hello) (calls initial + j)) 429).
  { intros [|[|j]] Hj; [| |lia];
      (exists {| status := 429; statusText := "-"; body := Unparseable |});
      split; reflexivity. }
  split.
  - apply (Hroute [] sample_openai [sample_anthropic] initial initial 2
             hello_response hello_data "Hello");
      [reflexivity|unfold RouteJs.maxRetries; lia|exact H429|reflexivity
      |reflexivity|reflexivity|reflexivity|discriminate].
  - apply (Hpart [] sample_openai [sample_anthropic] initial initial 2
             hello_response hello_data "Hello");
      [reflexivity|unfold Part000.maxRetries; lia|exact H429|reflexivity
      |reflexivity|reflexivity|reflexivity|vm_compute; discriminate].
Defined.

Lemma first_success_short_circuits_witness :
  @RouteJs.generateText ascii_host (always hello)
    [sample_openai; sample_anthropic] "hi" pickup_context initial
  = (Normal (GenerationResult (JString "Hello")
               (Provider.name sample_openai) (Provider.model sample_openai)),
     observe initial
       (Fetch sample_openai
          (RouteJs.makePayload sample_openai "hi" pickup_context)))
  /\ (exists payload,
        Part000.formatPayload sample_openai "hi" pickup_context
        = Normal payload
        /\ @Part000.generateText ascii_host (always hello)
             [sample_openai; sample_anthropic] "hi" pickup_context initial
           = (Normal (GenerationResult (JString "Hello")
                        (Provider.name sample_openai)
                        (Provider.model sample_openai)),
              observe initial (Fetch sample_openai (Some payload)))).
Proof.
  destruct (@first_success_short_circuits ascii_host (always hello) "hi"
              pickup_context) as [Hroute Hpart].
  split.
  - apply (Hroute sample_openai [sample_anthropic] initial hello_response
             hello_data "Hello");
      [reflexivity|reflexivity|reflexivity|reflexivity|discriminate].
  - apply (Hpart sample_openai [sample_anthropic] initial hello_response
             hello_data "Hello");
      [reflexivity|reflexivity|reflexivity|reflexivity
      |vm_compute; discriminate].
Defined.

Lemma transport_error_handling_witness :
  @Part000.callProvider_loop ascii_host (always (Rejected timeout_error))
    sample_openai sample_payload 3 1 initial
  = @Part000.callProvider_loop ascii_host (always (Rejected timeout_error))
      sample_openai sample_payload 2 2
      (record initial [Fetch sample_openai (Some sample_payload);
                       Sleep (1000 * Z.of_nat 1)])
  /\ (exists e,
        @Part000.callProvider ascii_host (always (Rejected timeout_error))
          sample_openai "hi" pickup_context initial
        = (Thrown e,
           record initial
             [Fetch sample_openai (Some sample_payload); Sleep 1000;
              Fetch sample_openai (Some sample_payload); Sleep 2000;
              Fetch sample_openai (Some sample_payload)])
        /\ @Part000.each_provider ascii_host
             (always (Rejected timeout_error))
             [sample_openai; sample_anthropic] "hi" pickup_context initial
           = @Part000.each_provider ascii_host
               (always (Rejected timeout_error)) [sample_anthropic] "hi"
               pickup_context
               (record initial
                  [Fetch sample_openai (Some sample_payload); Sleep 1000;
                   Fetch sample_openai (Some sample_payload); Sleep 2000;
                   Fetch sample_openai (Some sample_payload);
                   Warn ("Provider " ++ Provider.name sample_openai
                         ++ " failed:") e]))
  /\ (@RouteJs.call ascii_host (always (Rejected timeout_error))
        sample_openai "hi" pickup_context initial
      = (Thrown timeout_error,
         observe initial
           (Fetch sample_openai
              (RouteJs.makePayload sample_openai "hi" pickup_context)))
      /\ @RouteJs.each_provider ascii_host (always (Rejected timeout_error))
           [sample_openai; sample_anthropic] "hi" pickup_context initial
         = @RouteJs.each_provider ascii_host
             (always (Rejected timeout_error)) [sample_anthropic] "hi"
             pickup_context
             (record initial
                [Fetch sample_openai
                   (RouteJs.makePayload sample_openai "hi" pickup_context);
                 Warn ("LLM " ++ Provider.name sample_openai ++ " failed:")
                   timeout_error])).
Proof.
  destruct (@transport_error_handling ascii_host
              (always (Rejected timeout_error)) "hi" pickup_context)
    as (Hstep & Hall & Hroute).
  split; [|split].
  - apply (Hstep sample_openai sample_payload 2 1 initial).
    + unfold Part000.maxRetries; lia.
    + left. exists timeout_error. reflexivity.
  - apply (Hall sample_openai [sample_anthropic] sample_payload initial).
    + reflexivity.
    + intros j Hj. exists timeout_error. reflexivity.
  - apply (Hroute sample_openai [sample_anthropic] initial timeout_error).
    reflexivity.
Defined.

Lemma error_status_handling_witness :
  (@RouteJs.each_provider ascii_host (always (Resolved sample_500))
     [sample_openai; sample_anthropic] "hi" pickup_context initial
   = @RouteJs.each_provider ascii_host (always (Resolved sample_500))
       [sample_anthropic] "hi" pickup_context
       (record initial
          [Fetch sample_openai
             (RouteJs.makePayload sample_openai "hi" pickup_context);
           Warn ("LLM " ++ Provider.name sample_openai ++ " failed:")
             (Error (Provider.name sample_openai ++ " HTTP "
                     ++ show_int (status sample_500)))])
   /\ exists v s',
        @RouteJs.generateText ascii_host (always (Resolved sample_500))
          [sample_openai; sample_anthropic] "hi" pickup_context initial
        = (Normal v, s'))
  /\ @Part000.callProvider_loop ascii_host (always (Resolved sample_500))
       sample_openai sample_payload 3 1 initial
     = @Part000.callProvider_loop ascii_host (always (Resolved sample_500))
         sample_openai sample_payload 2 2
         (record initial [Fetch sample_openai (Some sample_payload);
                          Sleep (1000 * Z.of_nat 1)])
  /\ ((exists e,
         @Part000.each_provider ascii_host (always (Resolved sample_500))
           [sample_openai; sample_anthropic] "hi" pickup_context initial
         = @Part000.each_provider ascii_host (always (Resolved sample_500))
             [sample_anthropic] "hi" pickup_context
             (record initial
                [Fetch sample_openai (Some sample_payload); Sleep 1000;
                 Fetch sample_openai (Some sample_payload); Sleep 2000;
                 Fetch sample_openai (Some sample_payload);
                 Warn ("Provider " ++ Provider.name sample_openai
                       ++ " failed:") e]))
      /\ exists v s',
           @Part000.generateText ascii_host (always (Resolved sample_500))
             [sample_openai; sample_anthropic] "hi" pickup_context initial
           = (Normal v, s')).
Proof.
  destruct (@error_status_handling ascii_host (always (Resolved sample_500))
              "hi" pickup_context) as (Hroute & Hstep & Hall).
  assert (Hfail : answers_failure (Resolved sample_500)).
  { exists sample_500. repeat split. discriminate. }
  split; [|split].
  - apply (Hroute sample_openai [sample_anthropic] initial sample_500);
      [reflexivity|reflexivity|discriminate].
  - apply (Hstep sample_openai sample_payload 2 1 initial).
    + unfold Part000.maxRetries; lia.
    + exact Hfail.
  - apply (Hall sample_openai [sample_anthropic] sample_payload initial).
    + reflexivity.
    + intros j Hj. exact Hfail.
Defined.

Lemma local_fallback_rendering_witness :
  (exists t,
      @Part000.getFallbackResponse ascii_host (1 # 2) "hi" pickup_context
      = JString t
      /\ In t (Part000.pickup_templates pickup_context)
      /\ t <> "")
  /\ @Part000.getFallbackResponse ascii_host (1 # 2) "hi" Context.empty
     = JString "I'm here to help! Let me know what you'd like to know."
  /\ (exists t,
        @Part000.getFallbackResponse ascii_host (1 # 2) "Thank you"
          {| Context.systemPrompt := None; Context.maxTokens := None;
             Context.temperature := None;
             Context.type := Some "flirty_reply";
             Context.userInfo := None; Context.name := Some "Simran" |}
        = JString t
        /\ t <> "").
Proof.
  destruct (@local_fallback_rendering ascii_host)
    as (Hpick & _ & Hgeneric & Hany & _).
  split; [|split].
  - apply Hpick; [reflexivity|discriminate|reflexivity].
  - apply Hgeneric; reflexivity.
  - apply Hany; [discriminate|reflexivity].
Defined.

(* ================================================================== *)
(** ** The registry                                                    *)
(* ================================================================== *)

Lemma registry_shape (env : Env) :
  build_registry env
  = (push_if (OPENAI_API_KEY env) openai_provider []
     ++ push_if (ANTHROPIC_API_KEY env) anthropic_provider []
     ++ push_if (HF_TOKEN env) huggingface_provider [])%list.
Proof.
  unfold build_registry, push_if, present.
  destruct (OPENAI_API_KEY env) as [k1|];
    destruct (ANTHROPIC_API_KEY env) as [k2|];
    destruct (HF_TOKEN env) as [k3|];
    repeat match goal with
           | |- context [negb (?k =? "")] => destruct (negb (k =? ""))
           end;
    reflexivity.
Qed.

Lemma In_push_if (key : option string) (mk : string -> Provider.t)
  (p : Provider.t) :
  In p (push_if key mk []) <-> configured key mk p.
Proof.
  unfold push_if, present, configured.
  destruct key as [k|].
  - destruct (String.eqb_spec k "") as [->|Hne]; cbn.
    + split; [tauto|]. intros (k & [= <-] & Hk & _). congruence.
    + split.
      * intros [<-|[]]. now exists k.
      * intros (k' & [= <-] & _ & ->). now left.
  - cbn. split; [tauto|]. intros (k & E & _). discriminate.
Qed.

Lemma length_push_if (key : option string) (mk : string -> Provider.t) :
  List.length (push_if key mk []) = bit (present key).
Proof.
  unfold push_if, present. destruct key as [k|]; [|reflexivity].
  destruct (negb (k =? "")); reflexivity.
Qed.

Lemma registry_nodup (env : Env) :
  NoDup (map Provider.name (build_registry env)).
Proof.
  rewrite registry_shape. unfold push_if, present.
  destruct (OPENAI_API_KEY env) as [k1|];
    destruct (ANTHROPIC_API_KEY env) as [k2|];
    destruct (HF_TOKEN env) as [k3|];
    repeat match goal with
           | |- context [negb (?k =? "")] => destruct (negb (k =? ""))
           end;
    cbn; repeat (constructor; [cbn; intuition discriminate|]); constructor.
Qed.

Lemma registry_length (env : Env) :
  List.length (build_registry env)
  = bit (present (OPENAI_API_KEY env))
    + bit (present (ANTHROPIC_API_KEY env))
    + bit (present (HF_TOKEN env)).
Proof. rewrite registry_shape, !length_app, !length_push_if. lia. Qed.

(** X1.  Whatever credentials are set, the registry is in strictly
    ascending priority order, and no two of its entries have the same
    name. *)
Theorem registry_sorted (env : Env) :
  StronglySorted (fun a b => (Provider.priority a < Provider.priority b)%Z)
    (build_registry env)
  /\ NoDup (map Provider.name (build_registry env)).
Proof.
  split; [|apply registry_nodup].
  rewrite registry_shape. unfold push_if, present.
  destruct (OPENAI_API_KEY env) as [k1|];
    destruct (ANTHROPIC_API_KEY env) as [k2|];
    destruct (HF_TOKEN env) as [k3|];
    repeat match goal with
           | |- context [negb (?k =? "")] => destruct (negb (k =? ""))
           end;
    cbn;
    repeat first [ apply SSorted_nil | apply SSorted_cons | apply Forall_nil
                 | apply Forall_cons | reflexivity ].
Qed.

(** X2.  A backend is in the registry exactly when its credential is
    set and not empty, with that credential in its descriptor; the
    registry has as many entries as there are such credentials, and is
    empty exactly when there is none. *)
Theorem registry_membership (env : Env) :
  (forall p,
      In p (build_registry env)
      <-> configured (OPENAI_API_KEY env) openai_provider p
          \/ configured (ANTHROPIC_API_KEY env) anthropic_provider p
          \/ configured (HF_TOKEN env) huggingface_provider p)
  /\ List.length (build_registry env)
     = bit (present (OPENAI_API_KEY env))
       + bit (present (ANTHROPIC_API_KEY env))
       + bit (present (HF_TOKEN env))
  /\ (build_registry env = []
      <-> present (OPENAI_API_KEY env) = false
          /\ present (ANTHROPIC_API_KEY env) = false
          /\ present (HF_TOKEN env) = false).
Proof.
  assert (Hlen : List.length (build_registry env)
                 = bit (present (OPENAI_API_KEY env))
                   + bit (present (ANTHROPIC_API_KEY env))
                   + bit (present (HF_TOKEN env))).
  { apply registry_length. }
  split; [|split].
  - intros p. rewrite registry_shape, !in_app_iff, !In_push_if. tauto.
  - exact Hlen.
  - split.
    + intros E. rewrite E in Hlen. cbn in Hlen.
      destruct (present (OPENAI_API_KEY env)),
        (present (ANTHROPIC_API_KEY env)), (present (HF_TOKEN env));
        cbn in Hlen; try discriminate; auto.
    + intros (E1 & E2 & E3). rewrite E1, E2, E3 in Hlen.
      destruct (build_registry env); [reflexivity|discriminate].
Qed.

(* ================================================================== *)
(** ** Order and budget of the HTTP calls                              *)
(* ================================================================== *)

Lemma total_app (a b : list Z) : total (a ++ b) = (total a + total b)%Z.
Proof.
  unfold total.
  induction a as [|x a IH]; cbn; [reflexivity|]. rewrite IH. lia.
Qed.

Lemma blocks_nil_r (ps : list Provider.t) : blocks ps [] = [].
Proof. destruct ps; reflexivity. Qed.

Lemma length_blocks (ps : list Provider.t) :
  forall counts,
    Forall (fun n => n <= 3) counts ->
    List.length (blocks ps counts) <= 3 * List.length ps.
Proof.
  induction ps as [|p ps IH]; intros counts Hc; [cbn; lia|].
  destruct counts as [|n counts]; [cbn; lia|].
  inversion Hc as [|? ? Hn Hrest]; subst.
  cbn [blocks]. rewrite length_app, repeat_length.
  specialize (IH counts Hrest). cbn [List.length]. lia.
Qed.

Lemma turn_waits (m : nat) :
  m <= 3 ->
  Forall (fun ms => In ms [1000; 2000; 3000]%Z)
    (map (fun a => (1000 * Z.of_nat a)%Z) (seq 1 m))
  /\ (total (map (fun a => (1000 * Z.of_nat a)%Z) (seq 1 m)) <= 6000)%Z.
Proof.
  intros Hm. destruct m as [|[|[|[|m]]]]; [| | | |lia];
    (split;
     [repeat (apply Forall_cons; [cbn; lia|]); apply Forall_nil
     |cbn; lia]).
Qed.

Lemma run_shape_nil (ps : list Provider.t) : run_shape ps [].
Proof.
  exists []. rewrite blocks_nil_r.
  split; [reflexivity|]. split; [constructor|]. split; [constructor|].
  change (total (sleeps [])) with 0%Z. lia.
Qed.

Lemma run_shape_cons (p : Provider.t) (rest : list Provider.t)
  (ev1 mid ev2 : list Event) :
  attempts_shape p 1 3 ev1 ->
  fetches mid = [] -> sleeps mid = [] ->
  run_shape rest ev2 ->
  run_shape (p :: rest) (ev1 ++ mid ++ ev2).
Proof.
  intros (n & m & Hf & Hs & Hn & Hm) Hmf Hms (counts & Hf2 & Hc & Hin & Htot).
  destruct (turn_waits m) as [Hin1 Htot1]; [lia|].
  exists (n :: counts).
  rewrite !fetches_app, !sleeps_app, Hmf, Hms, Hf, Hs, Hf2. cbn [app blocks].
  repeat split.
  - constructor; [exact Hn|exact Hc].
  - apply Forall_app. split; [exact Hin1|].
    rewrite <- Hs in *. exact Hin.
  - rewrite total_app. cbn [List.length].
    rewrite Nat2Z.inj_succ. lia.
Qed.

Lemma run_shape_last (p : Provider.t) (rest : list Provider.t)
  (ev1 : list Event) :
  attempts_shape p 1 3 ev1 -> run_shape (p :: rest) ev1.
Proof.
  intros Hs.
  pose proof (run_shape_cons p rest ev1 [] [] Hs eq_refl eq_refl
                (run_shape_nil rest)) as Hr.
  now rewrite !app_nil_r in Hr.
Qed.

Section Budget.
Context `{Host}.
Variable w : World.
Variable prompt : string.
Variable context : Context.t.

Lemma route_call_loop_shape (p : Provider.t) (payload : option Payload)
  (remaining : nat) :
  forall (i : nat) (s : State),
    exists c events,
      RouteJs.call_loop w p payload remaining i s = (c, record s events)
      /\ attempts_shape p i remaining events.
Proof.
  induction remaining as [|remaining IH]; intros i s.
  - exists (Normal JUndefined), []. split; [reflexivity|].
    exists 0, 0. repeat split; lia.
  - assert (Hone : attempts_shape p i (S remaining) [Fetch p payload])
      by (exists 1, 0; repeat split; lia).
    destruct (respond w (calls s)) as [e|r] eqn:E.
    + exists (Thrown e), [Fetch p payload].
      split; [now apply route_attempt_rejected|exact Hone].
    + destruct (ok r) eqn:Hok.
      * destruct (body r) as [|data] eqn:Hb.
        -- exists (Thrown (SyntaxError "JSON.parse")), [Fetch p payload].
           split; [now apply route_attempt_unparseable with (resp := r)
                  |exact Hone].
        -- exists (RouteJs.extract p data), [Fetch p payload].
           split; [now apply route_attempt_success with (resp := r)
                  |exact Hone].
      * destruct (Z.eq_dec (status r) 429) as [Hst|Hst].
        -- rewrite route_attempt_429 by (exists r; auto).
           destruct (IH (S i)
                       (record s [Fetch p payload;
                                  Sleep (RouteJs.retryDelay * Z.of_nat i)]))
             as (c & events & Eq & n & m & Hf & Hs & Hn & Hm).
           exists c,
             (Fetch p payload :: Sleep (RouteJs.retryDelay * Z.of_nat i)
                :: events).
           split; [exact Eq|].
           exists (S n), (S m). cbn [fetches sleeps seq map repeat].
           rewrite Hf, Hs. repeat split; lia.
        -- exists (Thrown (Error (Provider.name p ++ " HTTP "
                                  ++ show_int (status r)))),
             [Fetch p payload].
           split; [now apply route_attempt_failure|exact Hone].
Qed.

Lemma route_each_provider_shape (providers : list Provider.t) :
  forall s,
    exists r events,
      RouteJs.each_provider w providers prompt context s
      = (Normal r, record s events)
      /\ run_shape providers events.
Proof.
  induction providers as [|p rest IH]; intros s.
  - exists None, []. split; [reflexivity|apply run_shape_nil].
  - destruct (route_call_loop_shape p
                (RouteJs.makePayload p prompt context) RouteJs.maxRetries 1 s)
      as (c & ev1 & Ecall & Hshape).
    fold (RouteJs.call w p prompt context s) in Ecall.
    destruct c as [out|e].
    + destruct (truthy out) eqn:Ht.
      * exists (Some (GenerationResult out (Provider.name p)
                        (Provider.model p))), ev1.
        split; [now apply route_each_accept|now apply run_shape_last].
      * rewrite (route_each_decline w prompt context p rest s _ out Ecall Ht).
        destruct (IH (record s ev1)) as (r & ev2 & Eq & Hrest).
        exists r, (ev1 ++ [] ++ ev2)%list. cbn [app].
        rewrite record_app. split; [exact Eq|].
        now apply (run_shape_cons p rest ev1 [] ev2).
    + rewrite (route_each_skip w prompt context p rest s _ e Ecall).
      destruct (IH (observe (record s ev1)
                      (Warn ("LLM " ++ Provider.name p ++ " failed:") e)))
        as (r & ev2 & Eq & Hrest).
      exists r,
        (ev1 ++ [Warn ("LLM " ++ Provider.name p ++ " failed:") e]
           ++ ev2)%list.
      rewrite !record_app. split; [exact Eq|].
      now apply run_shape_cons.
Qed.

Lemma part000_callProvider_loop_shape (p : Provider.t) (payload : Payload)
  (remaining : nat) :
  forall (attempt : nat) (s : State),
    exists c events,
      Part000.callProvider_loop w p payload remaining attempt s
      = (c, record s events)
      /\ attempts_shape p attempt remaining events.
Proof.
  induction remaining as [|remaining IH]; intros attempt s.
  - exists (Normal JUndefined), []. split; [reflexivity|].
    exists 0, 0. repeat split; lia.
  - assert (Hone : attempts_shape p attempt (S remaining)
                     [Fetch p (Some payload)])
      by (exists 1, 0; repeat split; lia).
    assert (Hmore : forall c events,
              Part000.callProvider_loop w p payload remaining (S attempt)
                (record s [Fetch p (Some payload);
                           Sleep (Part000.retryDelay * Z.of_nat attempt)])
              = (c, record
                      (record s [Fetch p (Some payload);
                                 Sleep (Part000.retryDelay
                                        * Z.of_nat attempt)]) events) ->
              attempts_shape p (S attempt) remaining events ->
              attempts_shape p attempt (S remaining)
                (Fetch p (Some payload)
                   :: Sleep (Part000.retryDelay * Z.of_nat attempt)
                   :: events)).
    { intros c events _ (n & m & Hf & Hs & Hn & Hm).
      exists (S n), (S m). cbn [fetches sleeps seq map repeat].
      rewrite Hf, Hs. repeat split; lia. }
    destruct (part000_attempt_cases p (respond w (calls s)))
      as [[e He]|[H429|(r & data & v & E & Hok & Hb & Hex)]].
    + destruct (Nat.eq_dec attempt Part000.maxRetries) as [->|Hne].
      * exists (Thrown e), [Fetch p (Some payload)].
        split; [now apply part000_attempt_last|exact Hone].
      * rewrite (part000_attempt_retry w p payload remaining attempt s e
                   He Hne).
        destruct (IH (S attempt)
                    (record s [Fetch p (Some payload);
                               Sleep (Part000.retryDelay
                                      * Z.of_nat attempt)]))
          as (c & events & Eq & Hsh).
        exists c,
          (Fetch p (Some payload)
             :: Sleep (Part000.retryDelay * Z.of_nat attempt) :: events).
        split; [exact Eq|]. now apply (Hmore c).
    + rewrite (part000_attempt_429 w p payload remaining attempt s H429).
      destruct (IH (S attempt)
                  (record s [Fetch p (Some payload);
                             Sleep (Part000.retryDelay * Z.of_nat attempt)]))
        as (c & events & Eq & Hsh).
      exists c,
        (Fetch p (Some payload)
           :: Sleep (Part000.retryDelay * Z.of_nat attempt) :: events).
      split; [exact Eq|]. now apply (Hmore c).
    + exists (Normal v), [Fetch p (Some payload)]. split; [|exact Hone].
      now apply part000_attempt_success with (resp := r) (data := data).
Qed.

Lemma part000_callProvider_shape (p : Provider.t) (prompt' : string)
  (context' : Context.t) (s : State) :
  exists c events,
    Part000.callProvider w p prompt' context' s = (c, record s events)
    /\ attempts_shape p 1 3 events.
Proof.
  unfold Part000.callProvider, bind, lift.
  destruct (Part000.formatPayload p prompt' context') as [payload|e].
  - apply part000_callProvider_loop_shape.
  - exists (Thrown e), []. split; [reflexivity|].
    exists 0, 0. repeat split; lia.
Qed.

Lemma part000_each_provider_shape (providers : list Provider.t) :
  forall s,
    exists r events,
      Part000.each_provider w providers prompt context s
      = (Normal r, record s events)
      /\ run_shape providers events.
Proof.
  induction providers as [|p rest IH]; intros s.
  - exists None, []. split; [reflexivity|apply run_shape_nil].
  - destruct (part000_callProvider_shape p prompt context s)
      as (c & ev1 & Ecall & Hshape).
    assert (Hskip : forall e,
              exists r events,
                Part000.each_provider w rest prompt context
                  (observe (record s ev1)
                     (Warn ("Provider " ++ Provider.name p ++ " failed:") e))
                = (Normal r, record s events)
                /\ run_shape (p :: rest) events).
    { intros e.
      destruct (IH (observe (record s ev1)
                      (Warn ("Provider " ++ Provider.name p ++ " failed:")
                         e)))
        as (r & ev2 & Eq & Hrest).
      exists r,
        (ev1 ++ [Warn ("Provider " ++ Provider.name p ++ " failed:") e]
           ++ ev2)%list.
      rewrite !record_app. split; [exact Eq|].
      now apply run_shape_cons. }
    destruct c as [out|e].
    + destruct (Part000.usable out) as [[|]|e] eqn:Hu.
      * exists (Some (GenerationResult out (Provider.name p)
                        (Provider.model p))), ev1.
        split; [now apply part000_each_accept|now apply run_shape_last].
      * rewrite (part000_each_decline w prompt context p rest s _ out
                   Ecall Hu).
        destruct (IH (record s ev1)) as (r & ev2 & Eq & Hrest).
        exists r, (ev1 ++ [] ++ ev2)%list. cbn [app].
        rewrite record_app. split; [exact Eq|].
        now apply (run_shape_cons p rest ev1 [] ev2).
      * rewrite (part000_each_usable_throws w prompt context p rest s _ out
                   e Ecall Hu).
        apply Hskip.
    + rewrite (part000_each_skip w prompt context p rest s _ e Ecall).
      apply Hskip.
Qed.

Lemma route_generateText_shape (providers : list Provider.t) (s : State) :
  exists v events,
    RouteJs.generateText w providers prompt context s
    = (Normal v, record s events)
    /\ run_shape providers events.
Proof.
  rewrite route_generateText_unfold.
  destruct (route_each_provider_shape providers s) as (r & events & Eq & Hs).
  rewrite Eq. destruct r; eauto.
Qed.

Lemma part000_generateText_shape (providers : list Provider.t) (s : State) :
  exists v events,
    Part000.generateText w providers prompt context s
    = (Normal v, record s events)
    /\ run_shape providers events.
Proof.
  destruct providers as [|p rest].
  - eexists _, []. split; [reflexivity|apply run_shape_nil].
  - rewrite part000_generateText_unfold.
    destruct (part000_each_provider_shape (p :: rest) s)
      as (r & events & Eq & Hs).
    rewrite Eq. destruct r; eauto.
Qed.

(** X3.  In both editions a run of [generateText] calls the providers
    in registry order, each at most [maxRetries] = 3 times in a row and
    never again once it has been left; so a run makes at most three
    HTTP calls per provider. *)
Theorem calls_in_order_within_budget (providers : list Provider.t)
  (s : State) :
  (exists v events counts,
      RouteJs.generateText w providers prompt context s
      = (Normal v, record s events)
      /\ fetches events = blocks providers counts
      /\ Forall (fun n => n <= RouteJs.maxRetries) counts
      /\ List.length (fetches events) <= 3 * List.length providers)
  /\ (exists v events counts,
        Part000.generateText w providers prompt context s
        = (Normal v, record s events)
        /\ fetches events = blocks providers counts
        /\ Forall (fun n => n <= Part000.maxRetries) counts
        /\ List.length (fetches events) <= 3 * List.length providers).
Proof.
  split.
  - destruct (route_generateText_shape providers s)
      as (v & events & Eq & counts & Hf & Hc & _).
    exists v, events, counts. repeat split; try assumption.
    rewrite Hf. now apply length_blocks.
  - destruct (part000_generateText_shape providers s)
      as (v & events & Eq & counts & Hf & Hc & _).
    exists v, events, counts. repeat split; try assumption.
    rewrite Hf. now apply length_blocks.
Qed.

(** X4.  In both editions every wait of a run of [generateText] lasts
    1000, 2000 or 3000 ms, and the waits of a run add up to at most
    6000 ms per provider. *)
Theorem waits_within_budget (providers : list Provider.t) (s : State) :
  (exists v events,
      RouteJs.generateText w providers prompt context s
      = (Normal v, record s events)
      /\ Forall (fun ms => In ms [1000; 2000; 3000]%Z) (sleeps events)
      /\ (total (sleeps events)
          <= 6000 * Z.of_nat (List.length providers))%Z)
  /\ (exists v events,
        Part000.generateText w providers prompt context s
        = (Normal v, record s events)
        /\ Forall (fun ms => In ms [1000; 2000; 3000]%Z) (sleeps events)
        /\ (total (sleeps events)
            <= 6000 * Z.of_nat (List.length providers))%Z).
Proof.
  split.
  - destruct (route_generateText_shape providers s)
      as (v & events & Eq & counts & _ & _ & Hin & Htot).
    exists v, events. auto.
  - destruct (part000_generateText_shape providers s)
      as (v & events & Eq & counts & _ & _ & Hin & Htot).
    exists v, events. auto.
Qed.

End Budget.

(* ================================================================== *)
(** ** Further outcomes of a provider's turn                           *)
(* ================================================================== *)

Lemma record_inj (s : State) (e1 e2 : list Event) :
  record s e1 = record s e2 -> e1 = e2.
Proof.
  intros E. apply (f_equal log) in E. rewrite !log_record in E.
  now apply app_inv_head in E.
Qed.

Lemma In_blocks (ps : list Provider.t) (p : Provider.t) :
  forall counts, In p (blocks ps counts) -> In p ps.
Proof.
  induction ps as [|q ps IH]; intros counts Hin; [destruct Hin|].
  destruct counts as [|n counts]; [destruct Hin|].
  cbn [blocks] in Hin. apply in_app_or in Hin as [Hin|Hin].
  - apply repeat_spec in Hin. subst. now left.
  - right. now apply (IH counts).
Qed.

Lemma any_productive_none
  (extractor : Provider.t -> Value -> Completion Value)
  (accepts : Value -> bool) (w : World) (l : list Provider.t) :
  (forall p n, In p l -> productive extractor accepts w n p = false) ->
  forall n, any_productive extractor accepts w n l = false.
Proof.
  induction l as [|p l IH]; intros Hnone n; [reflexivity|].
  cbn. rewrite Hnone by now left. apply IH.
  intros q m Hq. apply Hnone. now right.
Qed.

Section Turns.
Context `{Host}.
Variable w : World.
Variable prompt : string.
Variable context : Context.t.

Lemma three_429 (s : State) :
  (forall j, j < 3 -> answers_status (respond w (calls s + j)) 429) ->
  answers_status (respond w (calls s)) 429
  /\ answers_status (respond w (S (calls s))) 429
  /\ answers_status (respond w (S (S (calls s)))) 429.
Proof.
  intros H429. repeat split.
  - specialize (H429 0); rewrite Nat.add_0_r in H429; apply H429; lia.
  - specialize (H429 1); rewrite Nat.add_1_r in H429; apply H429; lia.
  - specialize (H429 2).
    replace (calls s + 2) with (S (S (calls s))) in H429 by lia.
    apply H429; lia.
Qed.

Lemma route_call_rate_limited (p : Provider.t) (prompt' : string)
  (context' : Context.t) (s : State) :
  (forall j, j < 3 -> answers_status (respond w (calls s + j)) 429) ->
  RouteJs.call w p prompt' context' s
  = (Normal JUndefined,
     record s [Fetch p (RouteJs.makePayload p prompt' context'); Sleep 1000;
               Fetch p (RouteJs.makePayload p prompt' context'); Sleep 2000;
               Fetch p (RouteJs.makePayload p prompt' context'); Sleep 3000]).
Proof.
  intros H429. destruct (three_429 s H429) as (H0 & H1 & H2).
  unfold RouteJs.call. change RouteJs.maxRetries with 3.
  rewrite (route_attempt_429 w p _ 2 1 s H0).
  rewrite route_attempt_429 by exact H1.
  rewrite route_attempt_429 by exact H2.
  reflexivity.
Qed.

Lemma part000_callProvider_rate_limited (p : Provider.t)
  (prompt' : string) (context' : Context.t) (payload : Payload)
  (s : State) :
  Part000.formatPayload p prompt' context' = Normal payload ->
  (forall j, j < 3 -> answers_status (respond w (calls s + j)) 429) ->
  Part000.callProvider w p prompt' context' s
  = (Normal JUndefined,
     record s [Fetch p (Some payload); Sleep 1000;
               Fetch p (Some payload); Sleep 2000;
               Fetch p (Some payload); Sleep 3000]).
Proof.
  intros Hpay H429. destruct (three_429 s H429) as (H0 & H1 & H2).
  rewrite (part000_callProvider_unfold w prompt' context' p payload s Hpay).
  change Part000.maxRetries with 3.
  rewrite (part000_attempt_429 w p _ 2 1 s H0).
  rewrite part000_attempt_429 by exact H1.
  rewrite part000_attempt_429 by exact H2.
  reflexivity.
Qed.

(** X5.  A provider that answers 429 on all three attempts: in both
    editions its turn ends without an exception and without a warning,
    after three calls and waits of 1000, 2000 and 3000 ms -- the last
    wait comes although no attempt follows it -- and the loop goes on
    with the next provider. *)
Theorem rate_limit_exhausted :
  (forall (p : Provider.t) (rest : list Provider.t) (s : State),
      (forall j, j < 3 -> answers_status (respond w (calls s + j)) 429) ->
      let payload := RouteJs.makePayload p prompt context in
      let after :=
        record s [Fetch p payload; Sleep 1000; Fetch p payload; Sleep 2000;
                  Fetch p payload; Sleep 3000] in
      RouteJs.call w p prompt context s = (Normal JUndefined, after)
      /\ RouteJs.each_provider w (p :: rest) prompt context s
         = RouteJs.each_provider w rest prompt context after)
  /\
  (forall (p : Provider.t) (rest : list Provider.t) (payload : Payload)
          (s : State),
      Part000.formatPayload p prompt context = Normal payload ->
      (forall j, j < 3 -> answers_status (respond w (calls s + j)) 429) ->
      let after :=
        record s [Fetch p (Some payload); Sleep 1000;
                  Fetch p (Some payload); Sleep 2000;
                  Fetch p (Some payload); Sleep 3000] in
      Part000.callProvider w p prompt context s = (Normal JUndefined, after)
      /\ Part000.each_provider w (p :: rest) prompt context s
         = Part000.each_provider w rest prompt context after).
Proof.
  split.
  - intros p rest s H429 payload after.
    pose proof (route_call_rate_limited p prompt context s H429) as Hcall.
    split; [exact Hcall|].
    now apply route_each_decline with (out := JUndefined).
  - intros p rest payload s Hpay H429 after.
    pose proof (part000_callProvider_rate_limited p prompt context payload s
                  Hpay H429) as Hcall.
    split; [exact Hcall|].
    now apply part000_each_decline with (out := JUndefined).
Qed.

(** X6.  A success whose extracted value the edition does not accept
    (an empty or absent content field, and in the template edition a
    blank one): the provider is called once, nothing is retried and
    nothing is logged, and the loop goes on with the next provider. *)
Theorem unusable_success_not_retried :
  (forall (p : Provider.t) (rest : list Provider.t) (s : State)
          (r : Response) (data v : Value),
      respond w (calls s) = Resolved r ->
      ok r = true ->
      body r = Parsed data ->
      RouteJs.extract p data = Normal v ->
      truthy v = false ->
      RouteJs.each_provider w (p :: rest) prompt context s
      = RouteJs.each_provider w rest prompt context
          (observe s (Fetch p (RouteJs.makePayload p prompt context))))
  /\
  (forall (p : Provider.t) (rest : list Provider.t) (payload : Payload)
          (s : State) (r : Response) (data v : Value),
      Part000.formatPayload p prompt context = Normal payload ->
      respond w (calls s) = Resolved r ->
      ok r = true ->
      body r = Parsed data ->
      Part000.extractResponse p data = Normal v ->
      Part000.usable v = Normal false ->
      Part000.each_provider w (p :: rest) prompt context s
      = Part000.each_provider w rest prompt context
          (observe s (Fetch p (Some payload)))).
Proof.
  split.
  - intros p rest s r data v E Hok Hb Hex Ht.
    apply route_each_decline with (out := v); [|exact Ht].
    unfold RouteJs.call. change RouteJs.maxRetries with 3.
    rewrite (route_attempt_success w p _ 2 1 s r data E Hok Hb).
    now rewrite Hex.
  - intros p rest payload s r data v Hpay E Hok Hb Hex Hu.
    apply part000_each_decline with (out := v); [|exact Hu].
    rewrite (part000_callProvider_unfold w prompt context p payload s Hpay).
    change Part000.maxRetries with 3.
    now apply part000_attempt_success with (resp := r) (data := data).
Qed.

(** X7.  A success whose body is unusable as JSON.  In the JS edition
    of route.ts a body that does not parse ends the provider's turn at
    once, with a warning.  In the template edition a body that does not
    parse, or from which the extraction throws, is retried like a
    transport error: when all three attempts end so, three calls and
    waits of 1000 and 2000 ms have happened before the warning and the
    next provider. *)
Theorem malformed_body_handling :
  (forall (p : Provider.t) (rest : list Provider.t) (s : State)
          (r : Response),
      respond w (calls s) = Resolved r ->
      ok r = true ->
      body r = Unparseable ->
      RouteJs.each_provider w (p :: rest) prompt context s
      = RouteJs.each_provider w rest prompt context
          (record s [Fetch p (RouteJs.makePayload p prompt context);
                     Warn ("LLM " ++ Provider.name p ++ " failed:")
                       (SyntaxError "JSON.parse")]))
  /\
  (forall (p : Provider.t) (rest : list Provider.t) (payload : Payload)
          (s : State),
      Part000.formatPayload p prompt context = Normal payload ->
      (forall j, j < 3 ->
         exists r,
           respond w (calls s + j) = Resolved r /\ ok r = true
           /\ (body r = Unparseable
               \/ exists data e,
                    body r = Parsed data
                    /\ Part000.extractResponse p data = Thrown e)) ->
      exists e,
        Part000.each_provider w (p :: rest) prompt context s
        = Part000.each_provider w rest prompt context
            (record s [Fetch p (Some payload); Sleep 1000;
                       Fetch p (Some payload); Sleep 2000;
                       Fetch p (Some payload);
                       Warn ("Provider " ++ Provider.name p ++ " failed:")
                         e])).
Proof.
  split.
  - intros p rest s r E Hok Hb.
    assert (Hcall : RouteJs.call w p prompt context s
                    = (Thrown (SyntaxError "JSON.parse"),
                       observe s
                         (Fetch p (RouteJs.makePayload p prompt context)))).
    { unfold RouteJs.call. change RouteJs.maxRetries with 3.
      now apply route_attempt_unparseable with (resp := r). }
    now rewrite (route_each_skip w prompt context p rest s _ _ Hcall).
  - intros p rest payload s Hpay Hbad.
    destruct (part000_callProvider_exhausted w prompt context p payload s
                Hpay) as [e He].
    { intros j Hj. destruct (Hbad j Hj) as (r & -> & Hok & Hbody).
      unfold part000_attempt_error. rewrite Hok. cbn [negb].
      destruct Hbody as [->|(data & e & -> & ->)]; eauto. }
    exists e.
    now rewrite (part000_each_skip w prompt context p rest s _ e He).
Qed.

(** In the template edition every branch of [extractResponse] but the
    one for "openai" returns the empty string. *)
Lemma part000_extract_other (p : Provider.t) (data : Value) :
  Provider.name p <> "openai" ->
  Part000.extractResponse p data = Normal (JString "").
Proof.
  intros Hne. unfold Part000.extractResponse.
  destruct (String.eqb_spec (Provider.name p) "openai"); [contradiction|].
  destruct (Provider.name p =? "huggingface"); [|reflexivity].
  destruct data; reflexivity.
Qed.

Lemma part000_other_unproductive (p : Provider.t) (n : nat) :
  Provider.name p <> "openai" ->
  productive Part000.extractResponse part000_accepts w n p = false.
Proof.
  intros Hne. unfold productive.
  destruct (respond w n) as [e|r]; [reflexivity|].
  destruct (ok r); [|reflexivity].
  destruct (body r) as [|data]; [reflexivity|].
  now rewrite part000_extract_other.
Qed.

(** X8.  In the template edition only the provider named "openai" can
    ever yield a result: for every other provider, "anthropic" and
    "huggingface" included, the extraction returns the empty string
    whatever the body, so on a registry without "openai" every run ends
    in the local fallback. *)
Theorem part000_only_openai_yields :
  (forall (p : Provider.t) (data : Value),
      Provider.name p <> "openai" ->
      Part000.extractResponse p data = Normal (JString ""))
  /\ (forall (providers : list Provider.t) (s : State),
        providers <> [] ->
        Forall (fun p => Provider.name p <> "openai") providers ->
        exists s',
          Part000.generateText w providers prompt context s
          = (Normal (GenerationResult
                       (Part000.getFallbackResponse (random w) prompt
                          context)
                       "fallback" "local"), s')).
Proof.
  split; [apply part000_extract_other|].
  intros providers s Hne Hnames.
  destruct providers as [|p0 rest]; [contradiction|].
  rewrite part000_generateText_unfold.
  destruct (part000_each_provider_productive w prompt context (p0 :: rest) s)
    as (r & events & Eq & Hsome & _).
  destruct (part000_each_provider_shape w prompt context (p0 :: rest) s)
    as (r' & events' & Eq' & counts & Hf & _).
  rewrite Eq in Eq'. injection Eq' as <- Hrec.
  apply record_inj in Hrec. subst events'.
  rewrite any_productive_none in Hsome.
  - destruct r; [discriminate|]. rewrite Eq. eauto.
  - intros p n Hin. apply part000_other_unproductive.
    rewrite Hf in Hin. apply In_blocks in Hin.
    rewrite Forall_forall in Hnames. now apply Hnames.
Qed.

(** X9.  The tags of a result belong together: in both editions the
    pair [provider], [model] is either "fallback", "local" or the name
    and model of one and the same provider of the list. *)
Theorem result_tags_paired :
  (forall (providers : list Provider.t) (s : State),
      exists text provider model s',
        RouteJs.generateText w providers prompt context s
        = (Normal (GenerationResult text provider model), s')
        /\ (provider = "fallback" /\ model = "local"
            \/ exists p, In p providers /\ provider = Provider.name p
                         /\ model = Provider.model p))
  /\ (forall (providers : list Provider.t) (s : State),
        providers <> [] ->
        exists text provider model s',
          Part000.generateText w providers prompt context s
          = (Normal (GenerationResult text provider model), s')
          /\ (provider = "fallback" /\ model = "local"
              \/ exists p, In p providers /\ provider = Provider.name p
                           /\ model = Provider.model p)).
Proof.
  split.
  - intros providers s. rewrite route_generateText_unfold.
    destruct (route_each_provider_productive w prompt context providers s)
      as (r & events & Eq & _ & Hres).
    rewrite Eq. destruct r as [result|].
    + destruct (Hres result eq_refl) as (p & out & Hin & _ & ->).
      exists out, (Provider.name p), (Provider.model p), (record s events).
      split; [reflexivity|]. right. now exists p.
    + eexists _, _, _, _. split; [reflexivity|]. now left.
  - intros providers s Hne.
    destruct providers as [|p0 rest]; [contradiction|].
    rewrite part000_generateText_unfold.
    destruct (part000_each_provider_productive w prompt context
                (p0 :: rest) s)
      as (r & events & Eq & _ & Hres).
    rewrite Eq. destruct r as [result|].
    + destruct (Hres result eq_refl) as (p & t & Hin & _ & ->).
      exists (JString t), (Provider.name p), (Provider.model p),
        (record s events).
      split; [reflexivity|]. right. now exists p.
    + eexists _, _, _, _. split; [reflexivity|]. now left.
Qed.

(** X10.  A provider whose name is none of "openai", "anthropic" and
    "huggingface".  In the template edition [formatPayload] throws, so
    the provider is passed over with a warning and no HTTP call is made
    to it.  In the JS edition of route.ts [makePayload] gives
    [undefined], the call is made all the same with that body, and a
    success is passed over because nothing is extracted for such a
    name. *)
Theorem unknown_provider_handling :
  (forall (p : Provider.t) (rest : list Provider.t) (s : State),
      known_name (Provider.name p) = false ->
      Part000.each_provider w (p :: rest) prompt context s
      = Part000.each_provider w rest prompt context
          (observe s
             (Warn ("Provider " ++ Provider.name p ++ " failed:")
                (Error ("Unknown provider: " ++ Provider.name p)))))
  /\
  (forall (p : Provider.t) (rest : list Provider.t) (s : State)
          (r : Response) (data : Value),
      known_name (Provider.name p) = false ->
      respond w (calls s) = Resolved r ->
      ok r = true ->
      body r = Parsed data ->
      RouteJs.each_provider w (p :: rest) prompt context s
      = RouteJs.each_provider w rest prompt context
          (observe s (Fetch p None))).
Proof.
  unfold known_name. split.
  - intros p rest s Hun.
    apply orb_false_elim in Hun as [Hun E3].
    apply orb_false_elim in Hun as [E1 E2].
    apply part000_each_skip.
    unfold Part000.callProvider, bind, lift, Part000.formatPayload.
    now rewrite E1, E2, E3.
  - intros p rest s r data Hun E Hok Hb.
    apply orb_false_elim in Hun as [Hun E3].
    apply orb_false_elim in Hun as [E1 E2].
    assert (Hpay : RouteJs.makePayload p prompt context = None)
      by (unfold RouteJs.makePayload; now rewrite E1, E2, E3).
    rewrite <- Hpay.
    apply route_each_decline with (out := JString ""); [|reflexivity].
    unfold RouteJs.call. change RouteJs.maxRetries with 3.
    rewrite (route_attempt_success w p _ 2 1 s r data E Hok Hb).
    unfold RouteJs.extract. rewrite E1, E2, E3. reflexivity.
Qed.

End Turns.

(* ================================================================== *)
(** ** The health check                                                *)
(* ================================================================== *)


Lemma lookup_set_prop_other (fields : list (string * Value))
  (k k0 : string) (v : Value) :
  k0 <> k -> lookup k0 (set_prop fields k v) = lookup k0 fields.
Proof.
  intros Hne. induction fields as [|[k' v'] fields IH]; cbn.
  - destruct (String.eqb_spec k k0); [congruence|reflexivity].
  - destruct (String.eqb_spec k' k) as [->|Hk]; cbn.
    + destruct (String.eqb_spec k k0); [congruence|reflexivity].
    + destruct (String.eqb_spec k' k0); [reflexivity|exact IH].
Qed.

Lemma keys_set_prop_new (fields : list (string * Value)) (k : string)
  (v : Value) :
  ~ In k (map fst fields) ->
  set_prop fields k v = (fields ++ [(k, v)])%list.
Proof.
  induction fields as [|[k' v'] fields IH]; cbn; intros Hnot;
    [reflexivity|].
  destruct (String.eqb_spec k' k) as [->|Hk]; [tauto|].
  rewrite IH by tauto. reflexivity.
Qed.

Section Health.
Context `{Host}.
Variable w : World.

(** One pass of the loop of [checkProviderHealth]. *)
Lemma health_step (p : Provider.t) (rest : list Provider.t)
  (results : list (string * Value)) (s s1 : State)
  (c : Completion Value) :
  Part000.callProvider w p "Test" Part000Tools.probe_context s = (c, s1) ->
  Part000Tools.checkProviderHealth_loop w (p :: rest) results s
  = Part000Tools.checkProviderHealth_loop w rest
      (set_prop results (Provider.name p) (JString (verdict_of c))) s1.
Proof.
  intros E.
  cbn [Part000Tools.checkProviderHealth_loop]; unfold bind, try_catch.
  rewrite E. destruct c; reflexivity.
Qed.

Lemma health_loop_normal (providers : list Provider.t) :
  forall (results : list (string * Value)) (s : State),
    exists results' s',
      Part000Tools.checkProviderHealth_loop w providers results s
      = (Normal results', s')
      /\ (NoDup (map fst results ++ map Provider.name providers) ->
          map fst results'
          = (map fst results ++ map Provider.name providers)%list)
      /\ (Forall is_verdict (map snd results) ->
          Forall is_verdict (map snd results'))
      /\ (forall k, ~ In k (map Provider.name providers) ->
                    lookup k results' = lookup k results).
Proof.
  induction providers as [|p rest IH]; intros results s.
  - exists results, s. cbn. rewrite app_nil_r. auto.
  - destruct (Part000.callProvider w p "Test" Part000Tools.probe_context s)
      as [c s1] eqn:Ecall.
    assert (Hv : is_verdict (JString (verdict_of c)))
      by (destruct c; [now left|now right]).
    destruct (IH (set_prop results (Provider.name p)
                    (JString (verdict_of c))) s1)
      as (results' & s' & Eq & Hkeys & Hvals & Hkeep).
    exists results', s'. rewrite (health_step p rest results s s1 c Ecall).
    split; [exact Eq|].
    split; [|split].
    + intros Hnd. cbn [map] in Hnd.
      assert (Hnew : ~ In (Provider.name p) (map fst results)).
      { apply NoDup_remove_2 in Hnd. intros Hin. apply Hnd.
        apply in_or_app. now left. }
      rewrite (keys_set_prop_new results _ _ Hnew) in Hkeys.
      rewrite map_app in Hkeys. cbn [map fst] in Hkeys.
      rewrite <- app_assoc in Hkeys. cbn [app] in Hkeys.
      apply Hkeys. exact Hnd.
    + intros Hall. apply Hvals.
      clear - Hall Hv. induction results as [|[k' v'] results IHr]; cbn.
      * constructor; [exact Hv|constructor].
      * inversion Hall; subst.
        destruct (k' =? Provider.name p); cbn.
        -- constructor; assumption.
        -- constructor; [assumption|]. now apply IHr.
    + intros k Hk. cbn [map] in Hk.
      rewrite Hkeep by (intros Hin; apply Hk; now right).
      apply lookup_set_prop_other. intros ->. apply Hk. now left.
Qed.

(** X11.  [checkProviderHealth] never throws.  On the registry built
    from any environment its result has exactly one entry per provider,
    in registry order, each of them "healthy" or "unhealthy"; and the
    report of [llm_health_check] counts as many providers as there are
    credentials set. *)
Theorem health_check_entries :
  (forall (providers : list Provider.t) (s : State),
      exists fields s',
        Part000Tools.checkProviderHealth w providers s
        = (Normal (JObject fields), s'))
  /\ (forall (env : Env) (s : State),
        exists fields s',
          Part000Tools.checkProviderHealth w
            (Part000.initializeProviders env) s
          = (Normal (JObject fields), s')
          /\ map fst fields
             = map Provider.name (Part000.initializeProviders env)
          /\ Forall is_verdict (map snd fields)
          /\ Part000Tools.llm_health_check w
               (Part000.initializeProviders env) s
             = (Normal
                  (text_result
                     ("🔍 **LLM Provider Health Status**" ++ nl ++ nl
                      ++ join nl (map report_line fields) ++ nl ++ nl
                      ++ "📊 Total providers: "
                      ++ show_int
                           (Z.of_nat
                              (bit (present (OPENAI_API_KEY env))
                               + bit (present (ANTHROPIC_API_KEY env))
                               + bit (present (HF_TOKEN env)))))),
                s')).
Proof.
  split.
  - intros providers s.
    destruct (health_loop_normal providers [] s) as (fields & s' & Eq & _).
    exists fields, s'.
    unfold Part000Tools.checkProviderHealth, bind. now rewrite Eq.
  - intros env s.
    destruct (health_loop_normal (Part000.initializeProviders env) [] s)
      as (fields & s' & Eq & Hkeys & Hvals & _).
    exists fields, s'.
    assert (Hcheck : Part000Tools.checkProviderHealth w
                       (Part000.initializeProviders env) s
                     = (Normal (JObject fields), s'))
      by (unfold Part000Tools.checkProviderHealth, bind; now rewrite Eq).
    assert (Hk : map fst fields
                 = map Provider.name (Part000.initializeProviders env))
      by (apply Hkeys; apply registry_nodup).
    split; [exact Hcheck|]. split; [exact Hk|].
    split; [apply Hvals; constructor|].
    unfold Part000Tools.llm_health_check, bind. rewrite Hcheck. monad.
    cbn [Part000Tools.entries].
    assert (Hlen : List.length fields
                   = bit (present (OPENAI_API_KEY env))
                     + bit (present (ANTHROPIC_API_KEY env))
                     + bit (present (HF_TOKEN env))).
    { rewrite <- (length_map fst), Hk, length_map.
      apply registry_length. }
    rewrite Hlen.
    replace (map (fun '(provider, status) =>
                    "• " ++ provider ++ ": " ++ template_str status) fields)
      with (map report_line fields); [reflexivity|].
    apply map_ext. intros [k v]. reflexivity.
Qed.




End Health.

(* ================================================================== *)
(** ** The MCP tools                                                   *)
(* ================================================================== *)

Lemma string_app_assoc (a b c : string) : (a ++ b) ++ c = a ++ (b ++ c).
Proof. induction a as [|x a IH]; cbn; [reflexivity|now rewrite IH]. Qed.

Lemma prefix_nil (s : string) : prefix "" s = true.
Proof. destruct s; reflexivity. Qed.

Lemma prefix_trans (a : string) :
  forall b c, prefix a b = true -> prefix b c = true -> prefix a c = true.
Proof.
  induction a as [|x a IH]; intros b c Hab Hbc; [apply prefix_nil|].
  destruct b as [|y b]; [discriminate|].
  destruct c as [|z c]; [discriminate|].
  cbn in *.
  destruct (ascii_dec x y) as [->|]; [|discriminate].
  destruct (ascii_dec y z) as [->|]; [|discriminate].
  now apply (IH b c).
Qed.

Lemma includes_unfold (s pat : string) :
  includes s pat
  = if prefix pat s then true
    else match s with
         | EmptyString => false
         | String _ s' => includes s' pat
         end.
Proof. destruct s; reflexivity. Qed.

Lemma includes_prefix_ext (pat a : string) :
  forall s,
    prefix a s = true -> includes a pat = true -> includes s pat = true.
Proof.
  induction a as [|x a IH]; intros s Hp Hi; rewrite includes_unfold in Hi.
  - rewrite includes_unfold.
    destruct (prefix pat "") eqn:E; [|discriminate].
    now rewrite (prefix_trans pat "" s E Hp).
  - rewrite includes_unfold.
    destruct (prefix pat (String x a)) eqn:E.
    + now rewrite (prefix_trans pat (String x a) s E Hp).
    + destruct (prefix pat s); [reflexivity|].
      destruct s as [|y s]; [discriminate|].
      cbn in Hp. destruct (ascii_dec x y); [|discriminate].
      now apply IH.
Qed.

Lemma ascii_host_lowers : lowers_ascii_prefix ascii_host.
Proof.
  intros a b _. cbn [toLowerCase ascii_host].
  induction a as [|x a IH]; cbn; [apply prefix_nil|].
  destruct (ascii_dec (ascii_lower x) (ascii_lower x)); [exact IH|].
  congruence.
Qed.

Section Tools.
Context `{Host}.
Variable w : World.

Lemma part000_generateText_result (providers : list Provider.t)
  (prompt : string) (context : Context.t) (s : State) :
  providers <> [] ->
  exists text provider model s',
    Part000.generateText w providers prompt context s
    = (Normal (GenerationResult text provider model), s').
Proof.
  intros Hne. destruct providers as [|p0 rest]; [contradiction|].
  rewrite part000_generateText_unfold.
  destruct (part000_each_provider_productive w prompt context (p0 :: rest) s)
    as (r & events & Eq & _ & Hres).
  rewrite Eq. destruct r as [result|].
  - destruct (Hres result eq_refl) as (p & t & _ & _ & ->). eauto.
  - eauto.
Qed.

(** X13.  In the template edition, with at least one provider
    configured, neither text tool ever takes its own [catch]: the reply
    is always the one of the [try], built from the result of
    [generateText] -- its text between quotes, then the provider and
    model, or the note on the curated fallback when the provider is
    "fallback" -- and the tool completes normally. *)
Theorem tools_never_reach_emergency_fallback
  (providers : list Provider.t) (s : State) :
  providers <> [] ->
  (forall (r : Q) (user_info : string) (target_info : option string)
          (style : Part000Tools.Style),
      exists text provider model s',
        Part000.generateText w providers
          (Part000Tools.pickup_prompt user_info target_info style)
          (Part000Tools.pickup_options user_info) s
        = (Normal (GenerationResult text provider model), s')
        /\ Part000Tools.generate_srk_pickup_line w r providers user_info
             target_info style s
           = (Normal
                (text_result
                   ("💕 **Shah Rukh Khan-style Pickup Line** ("
                    ++ Part000Tools.style_name style ++ ") 💕" ++ nl ++ nl
                    ++ "*" ++ dq ++ template_str text ++ dq ++ "*"
                    ++ nl ++ nl
                    ++ "✨ *Delivered with SRK's signature charm!*"
                    ++ pickup_source provider model)),
              s'))
  /\ (forall (message : string) (your_name context : option string)
             (tone : Part000Tools.Tone),
        exists text provider model s',
          Part000.generateText w providers
            (Part000Tools.flirty_prompt message your_name context tone)
            (Part000Tools.flirty_options your_name) s
          = (Normal (GenerationResult text provider model), s')
          /\ Part000Tools.generate_srk_flirty_reply w providers message
               your_name context tone s
             = (Normal
                  (text_result
                     ("💕 **SRK-Style "
                      ++ capitalize (Part000Tools.tone_name tone)
                      ++ " Reply** 💕" ++ nl ++ nl
                      ++ "**Original Message:** " ++ dq ++ message ++ dq
                      ++ nl ++ nl
                      ++ "**Your Shah Rukh Khan Response:**" ++ nl
                      ++ "*" ++ dq ++ template_str text ++ dq ++ "*"
                      ++ nl ++ nl
                      ++ "✨ *Delivered with SRK's signature charm and Bollywood romance!*"
                      ++ flirty_source provider model)),
                s')).
Proof.
  intros Hne. split.
  - intros r user_info target_info style.
    destruct (part000_generateText_result providers
                (Part000Tools.pickup_prompt user_info target_info style)
                (Part000Tools.pickup_options user_info) s Hne)
      as (text & provider & model & s' & Eq).
    exists text, provider, model, s'. split; [exact Eq|].
    unfold Part000Tools.generate_srk_pickup_line, try_catch, bind, lift.
    rewrite Eq. unfold Part000Tools.pickup_reply, pickup_source.
    cbn [get GenerationResult lookup String.eqb Ascii.eqb Bool.eqb cbind
         differs_from template_str].
    destruct (negb (provider =? "fallback")); reflexivity.
  - intros message your_name context tone.
    destruct (part000_generateText_result providers
                (Part000Tools.flirty_prompt message your_name context tone)
                (Part000Tools.flirty_options your_name) s Hne)
      as (text & provider & model & s' & Eq).
    exists text, provider, model, s'. split; [exact Eq|].
    unfold Part000Tools.generate_srk_flirty_reply, try_catch, bind, lift.
    rewrite Eq. unfold Part000Tools.flirty_reply, flirty_source.
    cbn [get GenerationResult lookup String.eqb Ascii.eqb Bool.eqb cbind
         differs_from template_str].
    destruct (negb (provider =? "fallback")); reflexivity.
Qed.

End Tools.

Section ToolReplies.
Context `{Host}.
Variable w : World.

(** X14.  The prompt that [generate_srk_flirty_reply] builds always
    contains "hi" (in "to this message"), so whenever the template
    edition falls back locally for that tool it returns the greeting
    "Namaste ...", whatever the incoming message says: the "thank"
    template and the generic one are never used.  Assumes of the host
    only that [toLowerCase] lower-cases an ASCII prefix letter by
    letter. *)
Theorem flirty_fallback_always_greets :
  lowers_ascii_prefix H ->
  forall (r : Q) (message : string) (your_name context : option string)
         (tone : Part000Tools.Tone),
    includes
      (toLowerCase
         (Part000Tools.flirty_prompt message your_name context tone))
      "hi" = true
    /\ Part000.getFallbackResponse r
         (Part000Tools.flirty_prompt message your_name context tone)
         (Part000Tools.flirty_options your_name)
       = JString ("Namaste " ++ str_or your_name "beautiful"
                  ++ "! Like in my movies, you've made my heart do a little dance 💃").
Proof.
  intros Hlow r message your_name context tone.
  assert (Hhi : includes
                  (toLowerCase
                     (Part000Tools.flirty_prompt message your_name context
                        tone))
                  "hi" = true).
  { unfold Part000Tools.flirty_prompt.
    rewrite <- string_app_assoc.
    apply (includes_prefix_ext "hi"
             (map_string ascii_lower
                (Part000Tools.tonePrompts tone
                 ++ " to this message in Shah Rukh Khan's signature style."))).
    - apply Hlow. destruct tone; reflexivity.
    - destruct tone; reflexivity. }
  split; [exact Hhi|].
  unfold Part000.getFallbackResponse.
  change (type_is (Part000Tools.flirty_options your_name) "pickup_line")
    with false.
  change (type_is (Part000Tools.flirty_options your_name) "flirty_reply")
    with true.
  cbv beta iota zeta. rewrite Hhi, orb_true_r. reflexivity.
Qed.

(** X15.  In the template edition, with no provider configured, both
    text tools reply with the word "undefined" between the quotes and
    with "Generated using undefined (undefined)": [generateText] hands
    back a bare string, whose [text], [provider] and [model] the tools
    then read.  The curated fallback line is computed and lost. *)
Theorem tools_on_empty_registry (s : State) :
  (0 <= random w)%Q -> (random w < 1)%Q ->
  (forall (r : Q) (user_info : string) (target_info : option string)
          (style : Part000Tools.Style),
      Part000Tools.generate_srk_pickup_line w r [] user_info target_info
        style s
      = (Normal
           (text_result
              ("💕 **Shah Rukh Khan-style Pickup Line** ("
               ++ Part000Tools.style_name style ++ ") 💕" ++ nl ++ nl
               ++ "*" ++ dq ++ "undefined" ++ dq ++ "*" ++ nl ++ nl
               ++ "✨ *Delivered with SRK's signature charm!*"
               ++ nl ++ nl
               ++ "🤖 *Generated using undefined (undefined)*")),
         s))
  /\ (forall (message : string) (your_name context : option string)
             (tone : Part000Tools.Tone),
        Part000Tools.generate_srk_flirty_reply w [] message your_name
          context tone s
        = (Normal
             (text_result
                ("💕 **SRK-Style "
                 ++ capitalize (Part000Tools.tone_name tone)
                 ++ " Reply** 💕" ++ nl ++ nl
                 ++ "**Original Message:** " ++ dq ++ message ++ dq
                 ++ nl ++ nl
                 ++ "**Your Shah Rukh Khan Response:**" ++ nl
                 ++ "*" ++ dq ++ "undefined" ++ dq ++ "*" ++ nl ++ nl
                 ++ "✨ *Delivered with SRK's signature charm and Bollywood romance!*"
                 ++ nl ++ nl
                 ++ "🤖 *Generated using undefined (undefined)*")),
           s)).
Proof.
  intros H0 H1. split.
  - intros r user_info target_info style.
    unfold Part000Tools.generate_srk_pickup_line, try_catch, bind, lift.
    cbn [Part000.generateText]. unfold ret.
    destruct (getFallbackResponse_text (random w)
                (Part000Tools.pickup_prompt user_info target_info style)
                (Part000Tools.pickup_options user_info) H0 H1)
      as (t & -> & _).
    reflexivity.
  - intros message your_name context tone.
    unfold Part000Tools.generate_srk_flirty_reply, try_catch, bind, lift.
    cbn [Part000.generateText]. unfold ret.
    destruct (getFallbackResponse_text (random w)
                (Part000Tools.flirty_prompt message your_name context tone)
                (Part000Tools.flirty_options your_name) H0 H1)
      as (t & -> & _).
    reflexivity.
Qed.

Lemma route_tool_reply (text : Value) (provider model : string) :
  RouteJsTools.tool_reply (GenerationResult text provider model)
  = Normal (route_reply text provider).
Proof. reflexivity. Qed.

Lemma route_tool_run (providers : list Provider.t) (prompt : string)
  (context : Context.t) (s : State) :
  exists text provider model events,
    RouteJs.generateText w providers prompt context s
    = (Normal (GenerationResult text provider model), record s events)
    /\ (any_productive RouteJs.extract route_accepts w (calls s)
          (fetches events) = false ->
        text = JString "🤖 (fallback response)" /\ provider = "fallback").
Proof.
  rewrite route_generateText_unfold.
  destruct (route_each_provider_productive w prompt context providers s)
    as (r & events & Eq & Hsome & Hres).
  rewrite Eq. destruct r as [result|].
  - destruct (Hres result eq_refl) as (p & out & _ & _ & ->).
    exists out, (Provider.name p), (Provider.model p), events.
    split; [reflexivity|]. intros Hnone. rewrite Hnone in Hsome.
    discriminate.
  - exists (JString "🤖 (fallback response)"), "fallback", "local", events.
    split; [reflexivity|]. auto.
Qed.

(** X16.  The text tools of the JS edition of route.ts complete
    normally for every world, registry and argument, and their reply is
    made of what [generateText] returns on the tool's prompt and
    options: the run of [generateText] ends with a result object, the
    tool ends in the same state, and its reply is the [text] of that
    result between quotes followed by that result's [provider] tag.
    When no HTTP call of the run yields a truthy text the reply is the
    fixed line [💕 "🤖 (fallback response)"] tagged [(fallback)]. *)
Theorem route_tools_reply (providers : list Provider.t) (s : State) :
  (forall (user_info : string) (target_info : option string),
      exists text provider model events,
        RouteJs.generateText w providers
          (RouteJsTools.pickup_prompt user_info target_info)
          RouteJsTools.pickup_options s
        = (Normal (GenerationResult text provider model), record s events)
        /\ RouteJsTools.generate_srk_pickup_line w providers user_info
             target_info s
           = (Normal
                (text_result
                   ("💕 " ++ dq ++ template_str text ++ dq ++ nl ++ nl
                    ++ "*(" ++ provider ++ ")*")),
              record s events)
        /\ (any_productive RouteJs.extract route_accepts w (calls s)
              (fetches events) = false ->
            RouteJsTools.generate_srk_pickup_line w providers user_info
              target_info s
            = (Normal
                 (text_result
                    ("💕 " ++ dq ++ "🤖 (fallback response)" ++ dq ++ nl
                     ++ nl ++ "*(fallback)*")),
               record s events)))
  /\ (forall (message : string) (your_name : option string),
        exists text provider model events,
          RouteJs.generateText w providers
            (RouteJsTools.flirty_prompt message your_name)
            RouteJsTools.flirty_options s
          = (Normal (GenerationResult text provider model), record s events)
          /\ RouteJsTools.generate_srk_flirty_reply w providers message
               your_name s
             = (Normal
                  (text_result
                     ("💕 " ++ dq ++ template_str text ++ dq ++ nl ++ nl
                      ++ "*(" ++ provider ++ ")*")),
                record s events)
          /\ (any_productive RouteJs.extract route_accepts w (calls s)
                (fetches events) = false ->
              RouteJsTools.generate_srk_flirty_reply w providers message
                your_name s
              = (Normal
                   (text_result
                      ("💕 " ++ dq ++ "🤖 (fallback response)" ++ dq ++ nl
                       ++ nl ++ "*(fallback)*")),
                 record s events))).
Proof.
  split.
  - intros user_info target_info.
    destruct (route_tool_run providers
                (RouteJsTools.pickup_prompt user_info target_info)
                RouteJsTools.pickup_options s)
      as (text & provider & model & events & Eq & Hfb).
    assert (Etool :
              RouteJsTools.generate_srk_pickup_line w providers user_info
                target_info s
              = (Normal (route_reply text provider), record s events)).
    { unfold RouteJsTools.generate_srk_pickup_line, bind, lift.
      now rewrite Eq, route_tool_reply. }
    exists text, provider, model, events.
    split; [exact Eq|]. split; [exact Etool|].
    intros Hnone. rewrite Etool.
    destruct (Hfb Hnone) as [-> ->]. reflexivity.
  - intros message your_name.
    destruct (route_tool_run providers
                (RouteJsTools.flirty_prompt message your_name)
                RouteJsTools.flirty_options s)
      as (text & provider & model & events & Eq & Hfb).
    assert (Etool :
              RouteJsTools.generate_srk_flirty_reply w providers message
                your_name s
              = (Normal (route_reply text provider), record s events)).
    { unfold RouteJsTools.generate_srk_flirty_reply, bind, lift.
      now rewrite Eq, route_tool_reply. }
    exists text, provider, model, events.
    split; [exact Eq|]. split; [exact Etool|].
    intros Hnone. rewrite Etool.
    destruct (Hfb Hnone) as [-> ->]. reflexivity.
Qed.

End ToolReplies.

(* ================================================================== *)
(** ** The further theorems at concrete inputs                         *)
(* ================================================================== *)

Lemma rate_limited_429 (s : State) :
  forall j, j < 3 -> answers_status (respond rate_limited (calls s + j)) 429.
Proof.
  intros j _.
  exists {| status := 429; statusText := "-"; body := Unparseable |}.
  split; reflexivity.
Qed.

Lemma rate_limit_exhausted_witness :
  @RouteJs.call ascii_host rate_limited sample_openai "hi" pickup_context
    initial
  = (Normal JUndefined,
     record initial
       [Fetch sample_openai (Some sample_payload); Sleep 1000;
        Fetch sample_openai (Some sample_payload); Sleep 2000;
        Fetch sample_openai (Some sample_payload); Sleep 3000])
  /\ @Part000.callProvider ascii_host rate_limited sample_openai "hi"
       pickup_context initial
     = (Normal JUndefined,
        record initial
          [Fetch sample_openai (Some sample_payload); Sleep 1000;
           Fetch sample_openai (Some sample_payload); Sleep 2000;
           Fetch sample_openai (Some sample_payload); Sleep 3000]).
Proof.
  destruct (@rate_limit_exhausted ascii_host rate_limited "hi"
              pickup_context) as [Hroute Hpart].
  split.
  - exact (proj1 (Hroute sample_openai [sample_anthropic] initial
                    (rate_limited_429 initial))).
  - exact (proj1 (Hpart sample_openai [sample_anthropic] sample_payload
                    initial eq_refl (rate_limited_429 initial))).
Defined.

Lemma unusable_success_not_retried_witness :
  @RouteJs.each_provider ascii_host empty_content
    [sample_openai; sample_anthropic] "hi" pickup_context initial
  = @RouteJs.each_provider ascii_host empty_content [sample_anthropic] "hi"
      pickup_context
      (observe initial
         (Fetch sample_openai
            (RouteJs.makePayload sample_openai "hi" pickup_context)))
  /\ @Part000.each_provider ascii_host empty_content
       [sample_openai; sample_anthropic] "hi" pickup_context initial
     = @Part000.each_provider ascii_host empty_content [sample_anthropic]
         "hi" pickup_context
         (observe initial (Fetch sample_openai (Some sample_payload))).
Proof.
  destruct (@unusable_success_not_retried ascii_host empty_content "hi"
              pickup_context) as [Hroute Hpart].
  split.
  - apply (Hroute sample_openai [sample_anthropic] initial
             {| status := 200; statusText := "-";
                body := chat_body (JString "") |}
             (JObject [("choices",
                JArray [JObject [("message",
                  JObject [("content", JString "")])]])])
             (JString "")); reflexivity.
  - apply (Hpart sample_openai [sample_anthropic] sample_payload initial
             {| status := 200; statusText := "-";
                body := chat_body (JString "") |}
             (JObject [("choices",
                JArray [JObject [("message",
                  JObject [("content", JString "")])]])])
             (JString "")); reflexivity.
Defined.

Lemma malformed_body_handling_witness :
  @RouteJs.each_provider ascii_host garbled
    [sample_openai; sample_anthropic] "hi" pickup_context initial
  = @RouteJs.each_provider ascii_host garbled [sample_anthropic] "hi"
      pickup_context
      (record initial
         [Fetch sample_openai
            (RouteJs.makePayload sample_openai "hi" pickup_context);
          Warn ("LLM " ++ Provider.name sample_openai ++ " failed:")
            (SyntaxError "JSON.parse")])
  /\ exists e,
       @Part000.each_provider ascii_host garbled
         [sample_openai; sample_anthropic] "hi" pickup_context initial
       = @Part000.each_provider ascii_host garbled [sample_anthropic] "hi"
           pickup_context
           (record initial
              [Fetch sample_openai (Some sample_payload); Sleep 1000;
               Fetch sample_openai (Some sample_payload); Sleep 2000;
               Fetch sample_openai (Some sample_payload);
               Warn ("Provider " ++ Provider.name sample_openai
                     ++ " failed:") e]).
Proof.
  destruct (@malformed_body_handling ascii_host garbled "hi" pickup_context)
    as [Hroute Hpart].
  split.
  - apply (Hroute sample_openai [sample_anthropic] initial
             {| status := 200; statusText := "-"; body := Unparseable |});
      reflexivity.
  - apply (Hpart sample_openai [sample_anthropic] sample_payload initial);
      [reflexivity|].
    intros j _.
    exists {| status := 200; statusText := "-"; body := Unparseable |}.
    repeat split. now left.
Defined.

Lemma part000_only_openai_yields_witness :
  exists s',
    @Part000.generateText ascii_host (always hello)
      [sample_anthropic; sample_huggingface] "hi" pickup_context initial
    = (Normal (GenerationResult
                 (@Part000.getFallbackResponse ascii_host
                    (random (always hello)) "hi" pickup_context)
                 "fallback" "local"), s').
Proof.
  apply (proj2 (@part000_only_openai_yields ascii_host (always hello) "hi"
                  pickup_context)).
  - discriminate.
  - repeat constructor; discriminate.
Defined.

Lemma result_tags_paired_witness :
  exists text provider model s',
    @Part000.generateText ascii_host (always hello)
      [sample_openai; sample_anthropic] "hi" pickup_context initial
    = (Normal (GenerationResult text provider model), s')
    /\ (provider = "fallback" /\ model = "local"
        \/ exists p,
             In p [sample_openai; sample_anthropic]
             /\ provider = Provider.name p /\ model = Provider.model p).
Proof.
  apply (proj2 (@result_tags_paired ascii_host (always hello) "hi"
                  pickup_context)).
  discriminate.
Defined.

Lemma unknown_provider_handling_witness :
  @Part000.each_provider ascii_host (always hello)
    [mystery_provider; sample_openai] "hi" pickup_context initial
  = @Part000.each_provider ascii_host (always hello) [sample_openai] "hi"
      pickup_context
      (observe initial
         (Warn ("Provider " ++ Provider.name mystery_provider ++ " failed:")
            (Error ("Unknown provider: " ++ Provider.name mystery_provider))))
  /\ @RouteJs.each_provider ascii_host (always hello)
       [mystery_provider; sample_openai] "hi" pickup_context initial
     = @RouteJs.each_provider ascii_host (always hello) [sample_openai] "hi"
         pickup_context (observe initial (Fetch mystery_provider None)).
Proof.
  destruct (@unknown_provider_handling ascii_host (always hello) "hi"
              pickup_context) as [Hpart Hroute].
  split.
  - apply Hpart. reflexivity.
  - apply (Hroute mystery_provider [sample_openai] initial hello_response
             hello_data); reflexivity.
Defined.


Lemma tools_never_reach_emergency_fallback_witness :
  exists text provider model s',
    @Part000.generateText ascii_host (always hello) [sample_openai]
      (Part000Tools.pickup_prompt "Raj" (Some "Simran")
         Part000Tools.style_witty)
      (Part000Tools.pickup_options "Raj") initial
    = (Normal (GenerationResult text provider model), s')
    /\ @Part000Tools.generate_srk_pickup_line ascii_host (always hello)
         (1 # 3) [sample_openai] "Raj" (Some "Simran")
         Part000Tools.style_witty initial
       = (Normal
            (text_result
               ("💕 **Shah Rukh Khan-style Pickup Line** ("
                ++ Part000Tools.style_name Part000Tools.style_witty
                ++ ") 💕" ++ nl ++ nl
                ++ "*" ++ dq ++ @template_str ascii_host text ++ dq ++ "*"
                ++ nl ++ nl
                ++ "✨ *Delivered with SRK's signature charm!*"
                ++ pickup_source provider model)),
          s').
Proof.
  apply (proj1 (@tools_never_reach_emergency_fallback ascii_host
                  (always hello) [sample_openai] initial
                  ltac:(discriminate))).
Defined.

Lemma flirty_fallback_always_greets_witness :
  includes
    (@toLowerCase ascii_host
       (Part000Tools.flirty_prompt "Thank you so much" (Some "Simran") None
          Part000Tools.tone_sweet))
    "hi" = true
  /\ @Part000.getFallbackResponse ascii_host (1 # 2)
       (Part000Tools.flirty_prompt "Thank you so much" (Some "Simran") None
          Part000Tools.tone_sweet)
       (Part000Tools.flirty_options (Some "Simran"))
     = JString ("Namaste " ++ str_or (Some "Simran") "beautiful"
                ++ "! Like in my movies, you've made my heart do a little dance 💃").
Proof.
  apply (@flirty_fallback_always_greets ascii_host ascii_host_lowers).
Defined.

Lemma tools_on_empty_registry_witness :
  @Part000Tools.generate_srk_pickup_line ascii_host (always hello) (1 # 3)
    [] "Raj" None Part000Tools.style_romantic initial
  = (Normal
       (text_result
          ("💕 **Shah Rukh Khan-style Pickup Line** ("
           ++ Part000Tools.style_name Part000Tools.style_romantic
           ++ ") 💕" ++ nl ++ nl
           ++ "*" ++ dq ++ "undefined" ++ dq ++ "*" ++ nl ++ nl
           ++ "✨ *Delivered with SRK's signature charm!*"
           ++ nl ++ nl
           ++ "🤖 *Generated using undefined (undefined)*")),
     initial).
Proof.
  apply (proj1 (@tools_on_empty_registry ascii_host (always hello) initial
                  ltac:(discriminate) ltac:(reflexivity))).
Defined.

Lemma route_tools_reply_witness :
  @RouteJsTools.generate_srk_pickup_line ascii_host (always hello)
    [sample_openai] "Raj" None initial
  = (Normal
       (text_result
          ("💕 " ++ dq ++ "Hello" ++ dq ++ nl ++ nl ++ "*(openai)*")),
     record initial
       [Fetch sample_openai
          (RouteJs.makePayload sample_openai
             (RouteJsTools.pickup_prompt "Raj" None)
             RouteJsTools.pickup_options)])
  /\ exists events,
       @RouteJsTools.generate_srk_pickup_line ascii_host rate_limited
         [sample_openai] "Raj" None initial
       = (Normal
            (text_result
               ("💕 " ++ dq ++ "🤖 (fallback response)" ++ dq ++ nl ++ nl
                ++ "*(fallback)*")),
          record initial events).
Proof.
  split.
  - destruct (proj1 (@route_tools_reply ascii_host (always hello)
                       [sample_openai] initial) "Raj" None)
      as (text & provider & model & events & Eq & Etool & _).
    rewrite Etool. vm_compute in Eq.
    injection Eq as Htext Hprovider _ Hstate.
    rewrite <- Htext, <- Hprovider. f_equal. exact (eq_sym Hstate).
  - destruct (proj1 (@route_tools_reply ascii_host rate_limited
                       [sample_openai] initial) "Raj" None)
      as (text & provider & model & events & Eq & Etool & Hfb).
    exists events. apply Hfb.
    apply any_productive_none. intros p n _. reflexivity.
Defined.

(* ================================================================== *)
(** ** Payloads and extraction, further                                *)
(* ================================================================== *)



(** X18.  What a payload carries for the caller's options, in both
    editions: a supplied non-zero [maxTokens] and a supplied non-zero
    [temperature] are passed on as they are, and an absent one becomes
    150 or 0.8. *)
Theorem payload_options (p : Provider.t) (prompt : string)
  (context : Context.t) (payload : Payload) :
  RouteJs.makePayload p prompt context = Some payload
  \/ Part000.formatPayload p prompt context = Normal payload ->
  (forall n, Context.maxTokens context = Some n -> n <> 0%Z ->
             payload_max_tokens payload = n)
  /\ (Context.maxTokens context = None ->
      payload_max_tokens payload = 150%Z)
  /\ (forall t, Context.temperature context = Some t -> ~ (t == 0)%Q ->
                payload_temperature payload = t)
  /\ (Context.temperature context = None ->
      payload_temperature payload = (8 # 10)%Q).
Proof.
  intros Hpay. destruct (payload_fields prompt context p payload Hpay)
    as [Hm Ht].
  rewrite Hm, Ht. repeat split.
  - intros n -> Hn. now apply int_or_supplied.
  - intros ->. reflexivity.
  - intros t -> Hnz. now apply num_or_supplied.
  - intros ->. reflexivity.
Qed.

Section Extraction.
Context `{Host}.

Lemma or_else_empty_or_truthy (v : Value) :
  or_else v (JString "") = JString ""
  \/ truthy (or_else v (JString "")) = true.
Proof.
  unfold or_else. destruct (truthy v) eqn:E; [now right|now left].
Qed.

Lemma chat_extract_cases (data : Value) :
  (data = JNull \/ data = JUndefined)
  /\ cbind (get data "choices") (fun choices =>
       Normal (or_else
                 (opt_get (opt_get (opt_index0 choices) "message") "content")
                 (JString "")))
     = Thrown (TypeError "choices")
  \/ (data <> JNull /\ data <> JUndefined)
     /\ exists v,
          cbind (get data "choices") (fun choices =>
            Normal (or_else
                      (opt_get (opt_get (opt_index0 choices) "message")
                         "content")
                      (JString "")))
          = Normal v
          /\ (v = JString "" \/ truthy v = true).
Proof.
  destruct data; cbn;
    try (left; split; [auto|reflexivity]);
    right; (split; [split; discriminate|]);
    eexists; (split; [reflexivity|]);
    try (now left); apply or_else_empty_or_truthy.
Qed.

(** X19.  When the extraction throws and what it returns.  In every
    edition the "openai" branch throws exactly on the bodies [null] and
    [undefined]; the "anthropic" branch of route.ts and every branch of
    the template edition but "openai" never throw; and whatever an
    extraction returns is the empty string or a truthy value, never
    [undefined], [null], [false] or 0. *)
Theorem extraction_behaviour (p : Provider.t) (data : Value) :
  (Provider.name p = "openai" ->
   (RouteJs.extract p data = Thrown (TypeError "choices")
    <-> data = JNull \/ data = JUndefined)
   /\ (Part000.extractResponse p data = Thrown (TypeError "choices")
       <-> data = JNull \/ data = JUndefined)
   /\ (RouteTs.extract_openai data = Thrown (TypeError "choices")
       <-> data = JNull \/ data = JUndefined)
   /\ (data <> JNull -> data <> JUndefined ->
       exists v, RouteJs.extract p data = Normal v
                 /\ Part000.extractResponse p data = Normal v
                 /\ RouteTs.extract_openai data = Normal v))
  /\ (Provider.name p = "anthropic" ->
      exists v, RouteJs.extract p data = Normal v)
  /\ (Provider.name p <> "openai" ->
      Part000.extractResponse p data = Normal (JString ""))
  /\ (forall v, RouteJs.extract p data = Normal v ->
                v = JString "" \/ truthy v = true)
  /\ (forall v, Part000.extractResponse p data = Normal v ->
                v = JString "" \/ truthy v = true).
Proof.
  repeat apply conj.
  - intros Hname.
    unfold RouteJs.extract, Part000.extractResponse, RouteTs.extract_openai.
    rewrite Hname. cbn [String.eqb Ascii.eqb Bool.eqb].
    destruct (chat_extract_cases data)
      as [[Hnull ->]|[[Hn Hu] (v & -> & _)]].
    + repeat split; auto. intros Hn Hu. destruct Hnull; contradiction.
    + repeat split; try discriminate; try (intros [E|E]; contradiction).
      intros _ _. now exists v.
  - intros Hname. unfold RouteJs.extract. rewrite Hname.
    cbn [String.eqb Ascii.eqb Bool.eqb]. eauto.
  - apply part000_extract_other.
  - intros v. unfold RouteJs.extract.
    destruct (Provider.name p =? "openai").
    { destruct (chat_extract_cases data)
        as [[_ ->]|[_ (v' & -> & Hv)]]; [discriminate|].
      now intros [= <-]. }
    destruct (Provider.name p =? "anthropic").
    { intros [= <-]. apply or_else_empty_or_truthy. }
    destruct ((Provider.name p =? "huggingface") && isArray data
              && truthy (opt_get (index0 data) "generated_text"));
      [|intros [= <-]; now left].
    destruct (get (index0 data) "generated_text") as [g|]; [|discriminate].
    destruct (get (index0 data) "inputs") as [i|]; [|discriminate].
    cbn [cbind].
    destruct (call_replace g (or_else i (JString ""))) as [t|];
      [|discriminate].
    cbn [cbind call_trim]. intros [= <-].
    cbn [truthy]. destruct (trim t =? "") eqn:E.
    + left. apply String.eqb_eq in E. now rewrite E.
    + now right.
  - intros v. unfold Part000.extractResponse.
    destruct (String.eqb_spec (Provider.name p) "openai") as [E|Hne].
    { destruct (chat_extract_cases data)
        as [[_ ->]|[_ (v' & -> & Hv)]]; [discriminate|].
      now intros [= <-]. }
    fold (Part000.extractResponse p data).
    intros Hv. left.
    pose proof (part000_extract_other p data Hne) as Ho.
    unfold Part000.extractResponse in Ho.
    destruct (String.eqb_spec (Provider.name p) "openai"); [contradiction|].
    congruence.
Qed.

End Extraction.

Lemma payload_options_witness :
  payload_max_tokens sample_payload = 100%Z
  /\ payload_temperature sample_payload = (8 # 10)%Q.
Proof.
  destruct (payload_options sample_openai "hi" pickup_context sample_payload
              (or_introl eq_refl)) as (Hn & _ & Ht & _).
  split.
  - apply Hn; [reflexivity|discriminate].
  - apply Ht; [reflexivity|discriminate].
Defined.

Lemma extraction_behaviour_witness :
  (@RouteJs.extract ascii_host sample_openai JNull
   = Thrown (TypeError "choices")
   <-> JNull = JNull \/ JNull = JUndefined)
  /\ exists v, @RouteJs.extract ascii_host sample_anthropic JNull = Normal v.
Proof.
  destruct (@extraction_behaviour ascii_host sample_openai JNull)
    as (Hopenai & _).
  destruct (@extraction_behaviour ascii_host sample_anthropic JNull)
    as (_ & Hanthropic & _).
  split.
  - apply (Hopenai eq_refl).
  - apply (Hanthropic eq_refl).
Defined.
